(** * api/index.py: an unofficial chat client, verified against its description

    A shallow embedding of [api/index.py]: the token and parameter
    extraction of the session bootstrapper, the payload encoder, the streaming
    response decoder, the image upload and the chat orchestrator, followed by
    the properties proved about them.

    Python values are modelled as they are at run time: a [str] is a sequence of
    Unicode code points, a JSON document is a tree of lists, strings and
    numbers, an exception is an explicit result that [try]/[except] inspects,
    and every call that leaves the process (HTTP, clock, random identifiers)
    is answered by an explicit [World]. *)

From Stdlib Require Import ZArith NArith Ascii String Lia.
From stdpp Require Import base option list gmap strings.

Set Warnings "-register-all".

Local Open Scope N_scope.

(** ** Python strings *)

Module Py.

(** A character is a Unicode code point; a [str] is a sequence of them, so
    that [len] counts code points as Python does. *)
Definition char := N.
Definition str := list char.

Definition NL : char := 10.
Definition QUOTE : char := 34.
Definition APOS : char := 39.
Definition BACKSLASH : char := 92.

(** String literals.  [lit] reads an ASCII literal character by character.
    [q] does the same but reads a backtick as the double quote, which keeps
    JSON text and patterns readable. *)
Definition lit (s : string) : str :=
  map (fun a => N_of_ascii a) (list_ascii_of_string s).

Definition q (s : string) : str :=
  map (fun c => if c =? 96 then QUOTE else c) (lit s).

Definition eqb (s t : str) : bool := bool_decide (s = t).

(** [s.startswith(p)] *)
Fixpoint startswith (p s : str) : bool :=
  match p, s with
  | [], _ => true
  | a :: p', c :: s' => (a =? c) && startswith p' s'
  | _ :: _, [] => false
  end.

(** [s.replace(old, new)]: the occurrences of [old] are found from left to
    right and do not overlap.  [skip] counts the characters of a matched
    occurrence that are still to be passed over. *)
Fixpoint replace_from (old new : str) (skip : nat) (s : str) : str :=
  match s with
  | [] => []
  | c :: s' =>
      match skip with
      | S k => replace_from old new k s'
      | O =>
          if startswith old s
          then new ++ replace_from old new (length old - 1) s'
          else c :: replace_from old new 0 s'
      end
  end.

Definition replace (old new s : str) : str :=
  match old with
  | [] => new ++ flat_map (fun c => c :: new) s
  | _ :: _ => replace_from old new 0 s
  end.

(** Whitespace as [str.strip()] and the pattern class [\s] see it
    (CPython's [Py_UNICODE_ISSPACE]). *)
Definition isspace (c : char) : bool :=
  ((9 <=? c) && (c <=? 13)) || ((28 <=? c) && (c <=? 32))
  || (c =? 133) || (c =? 160) || (c =? 5760)
  || ((8192 <=? c) && (c <=? 8202))
  || (c =? 8232) || (c =? 8233) || (c =? 8239) || (c =? 8287) || (c =? 12288).

Fixpoint lstrip (s : str) : str :=
  match s with
  | c :: s' => if isspace c then lstrip s' else s
  | [] => []
  end.

(** [s.strip()] *)
Definition strip (s : str) : str := rev (lstrip (rev (lstrip s))).

(** [s.split(sep)] for a one-character separator: always at least one
    piece. *)
Fixpoint split (sep : char) (s : str) : list str :=
  match s with
  | [] => [[]]
  | c :: s' =>
      if c =? sep then [] :: split sep s'
      else match split sep s' with
           | piece :: rest => (c :: piece) :: rest
           | [] => [[c]]
           end
  end.

(** [sep.join(pieces)] *)
Fixpoint join (sep : str) (pieces : list str) : str :=
  match pieces with
  | [] => []
  | [p] => p
  | p :: rest => p ++ sep ++ join sep rest
  end.

(** [sub in s] *)
Fixpoint contains (sub s : str) : bool :=
  startswith sub s ||
  match s with
  | [] => false
  | _ :: s' => contains sub s'
  end.

(** [str(n)] for an [int]. *)
Definition digit_char (d : N) : char := 48 + d.

Fixpoint digits_of (fuel : nat) (n : N) (acc : str) : str :=
  match fuel with
  | O => acc
  | S fuel' =>
      let acc' := digit_char (n mod 10) :: acc in
      if n <? 10 then acc' else digits_of fuel' (n / 10) acc'
  end.

Definition str_of_N (n : N) : str := digits_of (S (N.to_nat (N.log2 n))) n [].

Definition str_of_int (z : Z) : str :=
  match z with
  | Zneg p => 45 :: str_of_N (Npos p)
  | _ => str_of_N (Z.to_N z)
  end.

End Py.

Import Py.

(** ** The payload encoder's prompt escaping and the decoder's unescaping *)

(** [prompt.replace('\\', '\\\\').replace('"', '\\"').replace('\n', '\\n')],
    the first statement of [build_payload] and [build_payload_with_image]. *)
Definition escape_prompt (prompt : str) : str :=
  replace [NL] [BACKSLASH; 110]
    (replace [QUOTE] [BACKSLASH; QUOTE]
       (replace [BACKSLASH] [BACKSLASH; BACKSLASH] prompt)).

(** [full_text.replace('\\n', '\n').replace('\\"', '"').replace('\\\\', '\\')],
    the last step of [parse_streaming_response]. *)
Definition unescape_text (full_text : str) : str :=
  replace [BACKSLASH; BACKSLASH] [BACKSLASH]
    (replace [BACKSLASH; QUOTE] [QUOTE]
       (replace [BACKSLASH; 110] [NL] full_text)).

(** ** Python values and exceptions *)

(** What [json.loads] can return, which is also all the program ever
    builds: [None], booleans, integers, floats, strings, lists and
    dictionaries.  A float is kept as the text it was read from together
    with whether it is non-zero, the only thing a truth test looks at. *)
Inductive value :=
  | VNone
  | VBool (b : bool)
  | VInt (n : Z)
  | VFloat (lexeme : str) (nonzero : bool)
  | VStr (s : str)
  | VList (items : list value)
  | VDict (entries : list (str * value)).

(** The exceptions that can occur, with their place in the class hierarchy:
    everything here is an [Exception]; only [RequestException] is a
    [requests.exceptions.RequestException]. *)
Inductive exn :=
  | JSONDecodeError
  | IndexError
  | KeyError
  | TypeError
  | BinasciiError
  | RequestException (message : str)
  | OtherException (message : str).

Inductive exc (A : Type) :=
  | Ok (a : A)
  | Raise (e : exn).
Arguments Ok {A} a.
Arguments Raise {A} e.

Definition exc_bind {A B} (m : exc A) (f : A -> exc B) : exc B :=
  match m with
  | Ok a => f a
  | Raise e => Raise e
  end.

Declare Scope exc_scope.
Delimit Scope exc_scope with exc.
Bind Scope exc_scope with exc.

Notation "'let*' x ':=' m 'in' k" := (exc_bind m%exc (fun x => k%exc))
  (at level 10, x name, m at level 100, k at level 200) : exc_scope.

(** [try: body except Exception: handler] *)
Definition try_except {A} (body : exc A) (handler : exn -> exc A) : exc A :=
  match body with
  | Ok a => Ok a
  | Raise e => handler e
  end.

Definition is_request_exception (e : exn) : bool :=
  match e with
  | RequestException _ => true
  | _ => false
  end.

(** Truth value of an object, as [if x:] and [not x] take it. *)
Definition truthy (v : value) : bool :=
  match v with
  | VNone => false
  | VBool b => b
  | VInt n => negb (n =? 0)%Z
  | VFloat _ nz => nz
  | VStr s => negb (bool_decide (s = []))
  | VList l => negb (bool_decide (l = []))
  | VDict d => negb (bool_decide (d = []))
  end.

Definition isinstance_list (v : value) : bool :=
  match v with VList _ => true | _ => false end.

Definition isinstance_str (v : value) : bool :=
  match v with VStr _ => true | _ => false end.

(** [len(v)] *)
Definition len (v : value) : exc nat :=
  match v with
  | VStr s => Ok (length s)
  | VList l => Ok (length l)
  | VDict d => Ok (length d)
  | _ => Raise TypeError
  end.

(** [v[i]] for a non-negative integer literal [i]: an element of a list, a
    one-character string of a string; a dictionary read from JSON has only
    string keys, so an integer key is missing; nothing else can be
    subscripted. *)
Definition getitem (v : value) (i : nat) : exc value :=
  match v with
  | VList l => match l !! i with Some x => Ok x | None => Raise IndexError end
  | VStr s => match s !! i with Some c => Ok (VStr [c]) | None => Raise IndexError end
  | VDict _ => Raise KeyError
  | _ => Raise TypeError
  end.

(** [v == "..."] against a string literal. *)
Definition eq_str (v : value) (s : str) : bool :=
  match v with
  | VStr t => Py.eqb t s
  | _ => false
  end.

(** ** What the program takes from its libraries *)

(** The library behaviour the program relies on and that is not spelled out
    here: the JSON reader, the Unicode character tables and the base64
    decoder. *)
Class Runtime := {
  (** [json.loads(s)] for a [str] argument; a failure is an exception. *)
  json_loads : str -> exc value;
  (** the characters that [str.isdigit] accepts *)
  uni_isdigit : char -> bool;
  (** the characters that the pattern class [\d] accepts, and their values
      for [int()] *)
  uni_isdecimal : char -> bool;
  uni_decimal_value : char -> Z;
  (** [base64.b64decode(s)] *)
  b64decode : str -> exc (list N);
  (** the second token strategy, [extract_from_script_tags], which reads
      the page through an HTML parser *)
  extract_from_script_tags : str -> exc (option str)
}.

(** [s.isdigit()] *)
Definition isdigit `{Runtime} (s : str) : bool :=
  negb (bool_decide (s = [])) && forallb uni_isdigit s.

(** [int(s)] for a match of [\d+].  CPython reads at most 4300 digits, the
    default of [sys.set_int_max_str_digits], and raises a [ValueError] for
    a longer text, leading zeros included. *)
Definition int_of_decimal `{Runtime} (s : str) : exc Z :=
  if (4300 <? Z.of_nat (length s))%Z
  then Raise (OtherException (lit "ValueError"))
  else Ok (fold_left (fun acc c => (acc * 10 + uni_decimal_value c)%Z) s 0%Z).

(** [json.loads(v)] for an arbitrary object: only a string can be read. *)
Definition loads `{Runtime} (v : value) : exc value :=
  match v with
  | VStr s => json_loads s
  | _ => Raise TypeError
  end.

(** ** The fragment of regular expressions the program uses *)

(** Every pattern of the program is a sequence of single characters or
    character classes, each with a repetition count, around one capturing
    group.  Matching is Python's: backtracking, a greedy repetition trying
    the longest run first and a lazy one the shortest, the search taking the
    leftmost start position that matches. *)
Module Re.

Inductive atom :=
  | AChar (c : char)     (* a character listed in a set *)
  | ASpace               (* \s *)
  | ADigit.              (* \d *)

Inductive cls :=
  | Lit (c : char)           (* a literal character of the pattern *)
  | Any                      (* . *)
  | In (l : list atom)       (* [...] *)
  | NotIn (l : list atom).   (* [^...] *)

Inductive item :=
  | Rep (k : cls) (lo : nat) (hi : option nat) (lazy : bool)
  | GroupOpen
  | GroupClose.

Definition regex := list item.

Definition one k := Rep k 1 (Some 1%nat) false.
Definition opt k := Rep k 0 (Some 1%nat) false.
Definition star k := Rep k 0 None false.
Definition plus k := Rep k 1 None false.
Definition at_least n k := Rep k n None false.
Definition lazy_star k := Rep k 0 None true.

(** A run of literal characters. *)
Definition literal (s : str) : regex := map (fun c => one (Lit c)) s.

Definition ascii_lower (c : char) : char :=
  if (65 <=? c) && (c <=? 90) then c + 32 else c.

(** A literal ASCII character [p] of a pattern compiled with [re.IGNORECASE]
    matches the characters whose lower case is that of [p]; among the
    characters outside ASCII these are the dotted and dotless i for [i], the
    long s for [s] and the Kelvin sign for [k]. *)
Definition ci_match (p c : char) : bool :=
  let lp := ascii_lower p in
  (ascii_lower c =? lp)
  || ((lp =? 105) && ((c =? 304) || (c =? 305)))
  || ((lp =? 115) && (c =? 383))
  || ((lp =? 107) && (c =? 8490)).

Section Matching.
Context `{Runtime}.

Definition atom_match (a : atom) (c : char) : bool :=
  match a with
  | AChar x => x =? c
  | ASpace => isspace c
  | ADigit => uni_isdecimal c
  end.

(** The sets of the program list no letters, so [re.IGNORECASE] changes
    nothing for them. *)
Definition cls_match (ignorecase : bool) (k : cls) (c : char) : bool :=
  match k with
  | Lit p => if ignorecase then ci_match p c else p =? c
  | Any => negb (c =? NL)
  | In l => existsb (fun a => atom_match a c) l
  | NotIn l => negb (existsb (fun a => atom_match a c) l)
  end.

(** [repetition p lazy cont lo hi s]: between [lo] and [hi] characters
    satisfying [p] at the head of [s], then [cont] on what follows; the
    counts are tried in the order of preference and the first one for
    which [cont] succeeds is taken. *)
Fixpoint repetition {A} (p : char -> bool) (lazy : bool) (cont : str -> option A)
    (lo : nat) (hi : option nat) (s : str) : option A :=
  let stop := match lo with O => cont s | S _ => None end in
  let more :=
    match s with
    | c :: s' =>
        if p c && match hi with Some O => false | _ => true end
        then repetition p lazy cont (Nat.pred lo) (Nat.pred <$> hi) s'
        else None
    | [] => None
    end in
  if lazy
  then match stop with Some r => Some r | None => more end
  else match more with Some r => Some r | None => stop end.

(** A match of [r] at the head of [s].  [opened] is the text at which the
    group was entered, [captured] the text of the group once it is left.
    The result is the captured text and the text after the match. *)
Fixpoint match_here (ignorecase : bool) (r : regex) (opened captured s : str)
    : option (str * str) :=
  match r with
  | [] => Some (captured, s)
  | Rep k lo hi lazy :: r' =>
      repetition (cls_match ignorecase k) lazy
        (match_here ignorecase r' opened captured) lo hi s
  | GroupOpen :: r' => match_here ignorecase r' s captured s
  | GroupClose :: r' =>
      match_here ignorecase r' opened
        (take (length opened - length s) opened) s
  end.

(** [re.search(r, s, flags)] followed by [.group(1)]: the capture of the
    leftmost match. *)
Fixpoint search (ignorecase : bool) (r : regex) (s : str) : option str :=
  match match_here ignorecase r [] [] s with
  | Some (captured, _) => Some captured
  | None =>
      match s with
      | [] => None
      | _ :: s' => search ignorecase r s'
      end
  end.
End Matching.

End Re.

Import Re.

(** ** The world outside the process *)

(** An HTTP exchange as the program sees it. *)
Inductive event :=
  | HttpGet (url : str) (headers : list (str * str))
  | HttpPostJson (url : str) (headers : list (str * str)) (body : value)
  | HttpPut (url : str) (headers : list (str * str)) (data : list N)
  | HttpPostForm (url : str) (data : list (str * str)) (headers : list (str * str)).

Record response := {
  status_code : Z;
  text : str;
  response_headers : list (str * str);
  (** the cookies held by the session once the response has arrived *)
  session_cookies : list (str * str)
}.

(** Everything the program asks of its environment.  A request is answered
    given the exchanges made so far; the clock is read as
    [int(time.time() * 1000)], and the two texts derived from clock
    readings, which need floating-point and calendar arithmetic, are given
    by the world as well. *)
Record World := {
  http : list event -> event -> exc response;
  clock_ms : nat -> Z;
  elapsed_text : nat -> nat -> str;
  utcnow_isoformat : nat -> str;
  uuid4_hex : nat -> str
}.

Record State := {
  ticks : nat;           (* clock readings made so far *)
  draws : nat;           (* identifiers drawn so far *)
  trace : list event     (* exchanges made so far, oldest first *)
}.

Definition initial : State := {| ticks := 0; draws := 0; trace := [] |}.

(** A computation that reads the world, changes the state and may raise. *)
Definition M (A : Type) : Type := World -> State -> exc A * State.

Definition ret {A} (a : A) : M A := fun _ st => (Ok a, st).

Definition M_bind {A B} (m : M A) (f : A -> M B) : M B := fun w st =>
  match m w st with
  | (Ok a, st') => f a w st'
  | (Raise e, st') => (Raise e, st')
  end.

Declare Scope M_scope.
Delimit Scope M_scope with M.
Bind Scope M_scope with M.

Notation "'let*' x ':=' m 'in' k" := (M_bind m%M (fun x => k%M))
  (at level 10, x name, m at level 100, k at level 200) : M_scope.

Definition raise {A} (e : exn) : M A := fun _ st => (Raise e, st).

Definition lift {A} (r : exc A) : M A := fun _ st => (r, st).

(** [try: body except Exception as e: handler] *)
Definition try_catch {A} (body : M A) (handler : exn -> M A) : M A :=
  fun w st =>
    match body w st with
    | (Ok a, st') => (Ok a, st')
    | (Raise e, st') => handler e w st'
    end.

(** [time.time()]: the number of the reading, to be turned into
    milliseconds or compared with another reading. *)
Definition time_time : M nat := fun _ st =>
  (Ok (ticks st),
   {| ticks := S (ticks st); draws := draws st; trace := trace st |}).

(** [int(t * 1000)] *)
Definition millis (t : nat) : M Z := fun w st => (Ok (clock_ms w t), st).

(** [round(t1 - t0, 2)] as an f-string writes it. *)
Definition elapsed (t0 t1 : nat) : M str := fun w st =>
  (Ok (elapsed_text w t0 t1), st).

(** [datetime.utcnow().isoformat()], another reading of the clock. *)
Definition utcnow : M str := fun w st =>
  (Ok (utcnow_isoformat w (ticks st)),
   {| ticks := S (ticks st); draws := draws st; trace := trace st |}).

(** [uuid.uuid4()], as its 32 hexadecimal digits. *)
Definition uuid4 : M str := fun w st =>
  (Ok (uuid4_hex w (draws st)),
   {| ticks := ticks st; draws := S (draws st); trace := trace st |}).

(** A request made through the session. *)
Definition request (e : event) : M response := fun w st =>
  (http w (trace st) e,
   {| ticks := ticks st; draws := draws st; trace := trace st ++ [e] |}).

Definition run {A} (m : M A) (w : World) : exc A * State := m w initial.

(** ** Session bootstrapper: token and parameter extraction *)

(** In the comments that quote a pattern or a JSON text of the source, as in
    [q], a backtick stands for the double quote. *)

Section Bootstrapper.
Context `{Runtime}.

Definition quotes : list atom := [AChar QUOTE; AChar APOS].
Definition space : cls := In [ASpace].
Definition digit : cls := In [ADigit].

(** The pattern [`KEY`:`([^`]+)`], or the same with the other quote. *)
Definition quoted_field (qc : char) (key : string) : regex :=
  literal ([qc] ++ lit key ++ [qc; 58; qc])
  ++ [GroupOpen; plus (NotIn [AChar qc]); GroupClose]
  ++ literal [qc].

(** The pattern [KEY[`\']?\s*[SEPS]\s*[`\']([^`\']{n,})[`\']]. *)
Definition assigned (key : string) (seps : string) (n : nat) : regex :=
  literal (lit key)
  ++ [opt (In quotes); star space; one (In (AChar <$> lit seps)); star space;
      one (In quotes);
      GroupOpen; at_least n (NotIn quotes); GroupClose;
      one (In quotes)].

Definition snlm0e_patterns : list regex :=
  [ quoted_field QUOTE "SNlM0e";     (* `SNlM0e`:`([^`]+)` *)
    quoted_field APOS "SNlM0e";      (* 'SNlM0e':'([^']+)' *)
    assigned "SNlM0e" ":=" 1;        (* SNlM0e[`\']?\s*[:=]\s*[`\']([^`\']+)[`\'] *)
    quoted_field QUOTE "FdrFJe";
    quoted_field APOS "FdrFJe";
    assigned "FdrFJe" ":=" 1;
    quoted_field QUOTE "cfb2h";
    quoted_field APOS "cfb2h";
    assigned "cfb2h" ":=" 1;
    assigned "at" ":=" 50;           (* at[`\']?\s*[:=]\s*[`\']([^`\']{50,})[`\'] *)
    quoted_field QUOTE "at";         (* `at`:`([^`]+)` *)
    quoted_field QUOTE "token";      (* `token`:`([^`]+)` *)
    assigned "data-token" "=" 1      (* data-token[`\']?\s*=\s*[`\']([^`\']+)[`\'] *)
  ].

(** The loop of [extract_snlm0e_token]: the patterns in order, each
    searched once; a capture is returned only if longer than 20. *)
Fixpoint first_long_capture (patterns : list regex) (html : str) : option str :=
  match patterns with
  | [] => None
  | pattern :: rest =>
      match search true pattern html with
      | Some token =>
          if (20 <? length token)%nat then Some token
          else first_long_capture rest html
      | None => first_long_capture rest html
      end
  end.

Definition extract_snlm0e_token (html : str) : option str :=
  first_long_capture snlm0e_patterns html.

Definition bl_patterns : list regex :=
  [ assigned "bl" ":=" 1;            (* bl[`\']?\s*[:=]\s*[`\']([^`\']+)[`\'] *)
    quoted_field QUOTE "bl";         (* `bl`:`([^`]+)` *)
    assigned "buildLabel" ":=" 1;
    (* boq[_-]assistant[^`\']*_ and then the group \d+\.\d+[^`\']* *)
    literal (lit "boq") ++ [one (In [AChar 95; AChar 45])] ++ literal (lit "assistant")
    ++ [star (NotIn quotes); one (Lit 95);
        GroupOpen; plus digit; one (Lit 46); plus digit; star (NotIn quotes);
        GroupClose];
    (* /_/BardChatUi.*?bl=([^&`\']+) *)
    literal (lit "/_/BardChatUi") ++ [lazy_star Any] ++ literal (lit "bl=")
    ++ [GroupOpen; plus (NotIn (AChar 38 :: quotes)); GroupClose]
  ].

Definition fsid_patterns : list regex :=
  [ (* f\.sid[`\']?\s*[:=]\s*[`\']?([^`\'&\s]+) *)
    literal (lit "f.sid")
    ++ [opt (In quotes); star space; one (In [AChar 58; AChar 61]); star space;
        opt (In quotes);
        GroupOpen; plus (NotIn (quotes ++ [AChar 38; ASpace])); GroupClose];
    quoted_field QUOTE "fsid";       (* `fsid`:`([^`]+)` *)
    (* f\.sid=([^&`\']+) *)
    literal (lit "f.sid=")
    ++ [GroupOpen; plus (NotIn (AChar 38 :: quotes)); GroupClose];
    assigned "sessionId" ":=" 1
  ].

(** [_reqid[`\']?\s*[:=]\s*[`\']?(\d+)], searched without flags. *)
Definition reqid_pattern : regex :=
  literal (lit "_reqid")
  ++ [opt (In quotes); star space; one (In [AChar 58; AChar 61]); star space;
      opt (In quotes);
      GroupOpen; plus digit; GroupClose].

(** The loops over [bl_patterns] and [fsid_patterns]: the capture of the
    first pattern that matches. *)
Fixpoint first_capture (patterns : list regex) (html : str) : option str :=
  match patterns with
  | [] => None
  | pattern :: rest =>
      match search true pattern html with
      | Some g => Some g
      | None => first_capture rest html
      end
  end.

(** [params.get(key)] *)
Definition dict_get (params : gmap string value) (key : string) : value :=
  default VNone (params !! key).

Definition default_bl : str := lit "boq_assistant-bard-web-server_20251217.07_p5".

Definition extract_build_and_session_params (html : str) : M (gmap string value) :=
  let params : gmap string value := ∅ in
  let params :=
    match first_capture bl_patterns html with
    | Some g => <["bl"%string := VStr g]> params
    | None => params
    end in
  let params :=
    match first_capture fsid_patterns html with
    | Some g => <["fsid"%string := VStr g]> params
    | None => params
    end in
  let* params :=
    lift (match search false reqid_pattern html with
          | Some g =>
              let* n := int_of_decimal g in
              Ok (<["reqid"%string := VInt n]> params)
          | None => Ok params
          end) in
  let* params :=
    (if negb (truthy (dict_get params "bl"))
     then ret (<["bl"%string := VStr default_bl]> params)
     else ret params) in
  let* params :=
    (if negb (truthy (dict_get params "fsid"))
     then let* t := time_time in
          let* ms := millis t in
          ret (<["fsid"%string := VStr (str_of_int (-1 * ms))]> params)
     else ret params) in
  let* params :=
    (if negb (truthy (dict_get params "reqid"))
     then let* t := time_time in
          let* ms := millis t in
          ret (<["reqid"%string := VInt (ms mod 1000000)]> params)
     else ret params) in
  ret params.
End Bootstrapper.

(** ** Payload encoder *)

Definition hex_digit (d : N) : char := if d <? 10 then 48 + d else 87 + d.

(** [\uXXXX] *)
Definition u_escape (n : N) : str :=
  [BACKSLASH; 117; hex_digit (n / 4096 mod 16); hex_digit (n / 256 mod 16);
   hex_digit (n / 16 mod 16); hex_digit (n mod 16)].

(** How [json.dumps] writes one character of a string (the default
    [ensure_ascii=True]). *)
Definition dumps_char (c : char) : str :=
  if c =? QUOTE then [BACKSLASH; QUOTE]
  else if c =? BACKSLASH then [BACKSLASH; BACKSLASH]
  else if c =? 10 then [BACKSLASH; 110]
  else if c =? 13 then [BACKSLASH; 114]
  else if c =? 9 then [BACKSLASH; 116]
  else if c =? 8 then [BACKSLASH; 98]
  else if c =? 12 then [BACKSLASH; 102]
  else if (32 <=? c) && (c <=? 126) then [c]
  else if c <? 65536 then u_escape c
  else u_escape (55296 + (c - 65536) / 1024) ++ u_escape (56320 + (c - 65536) mod 1024).

Definition dumps_str (s : str) : str := [QUOTE] ++ flat_map dumps_char s ++ [QUOTE].

(** [json.dumps(v, separators=(',', ':'))] *)
Fixpoint dumps (v : value) : str :=
  match v with
  | VNone => lit "null"
  | VBool true => lit "true"
  | VBool false => lit "false"
  | VInt n => str_of_int n
  | VFloat lexeme _ => lexeme
  | VStr s => dumps_str s
  | VList items =>
      [91] ++
      (fix elements (l : list value) : str :=
         match l with
         | [] => []
         | x :: rest =>
             dumps x ++ match rest with [] => [] | _ :: _ => [44] ++ elements rest end
         end) items
      ++ [93]
  | VDict entries =>
      [123] ++
      (fix members (l : list (str * value)) : str :=
         match l with
         | [] => []
         | (k, x) :: rest =>
             dumps_str k ++ [58] ++ dumps x
             ++ match rest with [] => [] | _ :: _ => [44] ++ members rest end
         end) entries
      ++ [125]
  end.

Definition ascii_upper (c : char) : char :=
  if (97 <=? c) && (c <=? 122) then c - 32 else c.

(** [str(u).upper()] for a UUID given by its 32 hexadecimal digits. *)
Definition uuid_str_upper (hex : str) : str :=
  ascii_upper <$>
    (take 8 hex ++ [45] ++ take 4 (drop 8 hex) ++ [45] ++ take 4 (drop 12 hex)
     ++ [45] ++ take 4 (drop 16 hex) ++ [45] ++ drop 20 hex).

Definition nones (n : nat) : list value := replicate n VNone.

(** The positions of the inner array after the prompt sub-array, the same
    in both variants of the payload. *)
Definition payload_rest (snlm0e session_id request_uuid : str) : list value :=
  [ VList [VStr (lit "en-US")];
    VList ([VStr []; VStr []; VStr []] ++ nones 6 ++ [VStr []]);
    VStr snlm0e;
    VStr session_id;
    VNone;
    VList [VInt 0];
    VInt 1;
    VNone; VNone;
    VInt 1;
    VInt 0 ]
  ++ nones 5
  ++ [ VList [VList [VInt 0]]; VInt 0 ]
  ++ nones 8
  ++ [ VInt 1; VNone; VNone; VList [VInt 4] ]
  ++ nones 10
  ++ [ VList [VInt 2] ]
  ++ nones 11
  ++ [ VInt 0 ]
  ++ nones 5
  ++ [ VStr request_uuid; VNone; VList [] ].

(** [payload_data] of [build_payload]. *)
Definition payload_data (escaped_prompt snlm0e session_id request_uuid : str) : value :=
  VList
    (VList [VStr escaped_prompt; VInt 0; VNone; VNone; VNone; VNone; VInt 0]
     :: payload_rest snlm0e session_id request_uuid).

(** [payload_data] of [build_payload_with_image]; [image] is the value of
    [json.loads(image_struct)]. *)
Definition payload_data_with_image
    (escaped_prompt snlm0e session_id request_uuid : str) (image : value) : value :=
  VList
    (VList [VStr escaped_prompt; VInt 0; VNone; VNone; VNone; VNone; VInt 0;
            VNone; image]
     :: payload_rest snlm0e session_id request_uuid).

(** The form returned by both builders: [{'f.req': ..., '': ''}]. *)
Definition form_of (payload : value) : list (str * str) :=
  let payload_str := dumps payload in
  let escaped_payload :=
    replace [QUOTE] [BACKSLASH; QUOTE]
      (replace [BACKSLASH] [BACKSLASH; BACKSLASH] payload_str) in
  [ (lit "f.req", q "[null,`" ++ escaped_payload ++ q "`]"); ([], []) ].

Definition build_payload (prompt snlm0e : str) : M (list (str * str)) :=
  let escaped_prompt := escape_prompt prompt in
  let* session_id := uuid4 in
  let* u := uuid4 in
  let request_uuid := uuid_str_upper u in
  ret (form_of (payload_data escaped_prompt snlm0e session_id request_uuid)).

Definition build_payload_with_image `{Runtime} (prompt snlm0e image_id : str)
    : M (list (str * str)) :=
  let escaped_prompt := escape_prompt prompt in
  let* session_id := uuid4 in
  let* u := uuid4 in
  let request_uuid := uuid_str_upper u in
  let image_struct := q "[[[`" ++ image_id ++ q "`, 1], null]]" in
  let* image := lift (json_loads image_struct) in
  ret (form_of (payload_data_with_image escaped_prompt snlm0e session_id
                   request_uuid image)).

(** ** Streaming response decoder *)

Section Decoder.
Context `{Runtime}.

(** [a and b], where only [b] can raise and is not evaluated when [a] is
    false. *)
Definition and_then (a : bool) (b : exc bool) : exc bool :=
  if a then b else Ok false.

Definition longer_than (v : value) (n : nat) : exc bool :=
  let* k := len v in Ok (n <? k)%nat.

(** The body of the [try] block for one line: the value of [full_text]
    when the block is left normally. *)
Definition frame_step (full_text line : str) : exc str :=
  if isdigit line then Ok full_text else
  let* data := json_loads line in
  let* c := and_then (isinstance_list data) (longer_than data 0) in
  if c then
    let* d0 := getitem data 0 in
    let* tag := getitem d0 0 in
    let* c := and_then (eq_str tag (lit "wrb.fr")) (longer_than d0 2) in
    if c then
      let* d0 := getitem data 0 in
      let* inner_json := getitem d0 2 in
      if truthy inner_json then
        let* parsed := loads inner_json in
        let* c := and_then (isinstance_list parsed) (longer_than parsed 4) in
        if c then
          let* content_array := getitem parsed 4 in
          let* c := and_then (isinstance_list content_array) (longer_than content_array 0) in
          if c then
            let* first_item := getitem content_array 0 in
            let* c := and_then (isinstance_list first_item) (longer_than first_item 0) in
            if c then
              let* response_id := getitem first_item 0 in
              if match response_id with
                 | VStr s => startswith (lit "rc_") s
                 | _ => false
                 end
              then
                let* n := len first_item in
                let* c := and_then (1 <? n)%nat
                            (let* x := getitem first_item 1 in
                             Ok (isinstance_list x)) in
                if c then
                  let* text_array := getitem first_item 1 in
                  let* c := longer_than text_array 0 in
                  if c then
                    let* text_content := getitem text_array 0 in
                    match text_content with
                    | VStr s =>
                        if (length full_text <? length s)%nat then Ok s
                        else Ok full_text
                    | _ => Ok full_text
                    end
                  else Ok full_text
                else Ok full_text
              else Ok full_text
            else Ok full_text
          else Ok full_text
        else Ok full_text
      else Ok full_text
    else Ok full_text
  else Ok full_text.

(** One turn of the loop over the lines. *)
Definition loop_body (full_text line : str) : exc str :=
  if bool_decide (line = []) || startswith (lit ")]}") line
  then Ok full_text
  else try_except (frame_step full_text line) (fun _ => Ok full_text).

Fixpoint for_lines (lines : list str) (full_text : str) : exc str :=
  match lines with
  | [] => Ok full_text
  | line :: rest =>
      let* full_text := loop_body full_text line in
      for_lines rest full_text
  end.

Definition parse_streaming_response (response_text : str) : exc (option str) :=
  let lines := split NL (strip response_text) in
  let* full_text := for_lines lines [] in
  let full_text :=
    if negb (bool_decide (full_text = [])) then unescape_text full_text
    else full_text in
  Ok (if negb (bool_decide (full_text = [])) then Some full_text else None).
End Decoder.

(** ** Session bootstrapper: the landing page *)

(** [d[k] = v] on a dictionary kept in insertion order. *)
Fixpoint dict_set (d : list (str * str)) (k v : str) : list (str * str) :=
  match d with
  | [] => [(k, v)]
  | (k', v') :: rest =>
      if Py.eqb k' k then (k, v) :: rest else (k', v') :: dict_set rest k v
  end.

Record scraped_data := {
  cookies : list (str * str);
  snlm0e : str;
  bl : value;
  fsid : value;
  reqid : value;
  html : str
}.

Definition user_agent : str :=
  lit "Mozilla/5.0 (Windows NT 10.0; Win64; x64) AppleWebKit/537.36 (KHTML, like Gecko) Chrome/131.0.0.0 Safari/537.36".

Definition sec_ch_ua : str :=
  q "`Google Chrome`;v=`131`, `Chromium`;v=`131`, `Not_A Brand`;v=`24`".

Definition landing_url : str := lit "https://gemini.google.com/app".

Definition landing_headers : list (str * str) :=
  [ (lit "User-Agent", user_agent);
    (lit "Accept", lit "text/html,application/xhtml+xml,application/xml;q=0.9,image/avif,image/webp,*/*;q=0.8");
    (lit "Accept-Encoding", lit "gzip, deflate, br");
    (lit "Accept-Language", lit "en-US,en;q=0.9");
    (lit "sec-ch-ua", sec_ch_ua);
    (lit "sec-ch-ua-mobile", lit "?0");
    (lit "sec-ch-ua-platform", q "`Windows`");
    (lit "sec-fetch-site", lit "none");
    (lit "sec-fetch-mode", lit "navigate");
    (lit "sec-fetch-dest", lit "document");
    (lit "upgrade-insecure-requests", lit "1");
    (lit "cache-control", lit "no-cache");
    (lit "pragma", lit "no-cache") ].

(** [not x] for an optional string. *)
Definition absent (x : option str) : bool :=
  match x with
  | Some (_ :: _) => false
  | _ => true
  end.

(** [params[key]] *)
Definition dict_item (params : gmap string value) (key : string) : M value :=
  match params !! key with
  | Some v => ret v
  | None => raise KeyError
  end.

Definition scrape_fresh_session `{Runtime} : M (option scraped_data) :=
  try_catch
    (let* response := request (HttpGet landing_url landing_headers) in
     let html := text response in
     let cookies :=
       fold_left (fun d c => dict_set d c.1 c.2) (session_cookies response) [] in
     let snlm0e := extract_snlm0e_token html in
     let* snlm0e :=
       (if absent snlm0e then lift (extract_from_script_tags html)
        else ret snlm0e) in
     if absent snlm0e then ret None
     else
       let* params := extract_build_and_session_params html in
       let* bl := dict_item params "bl" in
       let* fsid := dict_item params "fsid" in
       let* reqid := dict_item params "reqid" in
       ret (Some {| cookies := cookies; snlm0e := default [] snlm0e;
                    bl := bl; fsid := fsid; reqid := reqid; html := html |}))
    (fun _ => ret None).

(** ** Image attachment *)

(** [name in response.headers] and [response.headers[name]]: header names
    are compared without regard to case. *)
Fixpoint header_lookup (name : str) (headers : list (str * str)) : option str :=
  match headers with
  | [] => None
  | (k, v) :: rest =>
      if Py.eqb (ascii_lower <$> k) (ascii_lower <$> name) then Some v
      else header_lookup name rest
  end.

Definition upload_image (image_bytes : list N) (mime_type snlm0e : str)
    : M (option str) :=
  let upload_url :=
    lit "https://content-push.googleapis.com/upload/photomkt/img/1.0/internal/default/media?content_type="
    ++ mime_type ++ lit "&protocolVersion=2.0&authuser=0&uploadType=multipart" in
  (* the dictionary [headers], which reads the clock and is not used *)
  let* _ := time_time in
  let* start_response :=
    request (HttpPostJson upload_url
               [ (lit "X-Goog-Upload-Command", lit "start");
                 (lit "X-Goog-Upload-Protocol", lit "resumable") ]
               (VDict [ (lit "protocolVersion", VStr (lit "2.0")) ])) in
  match header_lookup (lit "x-goog-upload-url") (response_headers start_response) with
  | None => ret None
  | Some actual_upload_url =>
      let upload_headers :=
        [ (lit "X-Goog-Upload-Command", lit "upload, finalize");
          (lit "X-Goog-Upload-Offset", lit "0") ] in
      let* upload_response :=
        request (HttpPut actual_upload_url upload_headers image_bytes) in
      if negb (status_code upload_response =? 200)%Z then ret None
      else
        (* the [try] block returns at its first statement; the search for
           a media id after it is never reached *)
        try_catch (ret (Some (text upload_response))) (fun _ => ret None)
  end.

(** ** Chat orchestrator *)

(** [s.split(sep, 1)] when [sep] occurs in [s]. *)
Fixpoint split_once (sep : char) (s : str) : str * str :=
  match s with
  | [] => ([], [])
  | c :: s' =>
      if c =? sep then ([], s')
      else let '(a, b) := split_once sep s' in (c :: a, b)
  end.

(** [len(s.split())]: the number of words separated by whitespace. *)
Fixpoint count_words (in_word : bool) (s : str) : nat :=
  match s with
  | [] => 0
  | c :: s' =>
      if isspace c then count_words false s'
      else if in_word then count_words true s'
      else S (count_words true s')
  end.

(** How an f-string writes a string or an integer. *)
Definition format (v : value) : str :=
  match v with
  | VStr s => s
  | VInt n => str_of_int n
  | _ => []
  end.

Definition base_url : str :=
  lit "https://gemini.google.com/_/BardChatUi/data/assistant.lamda.BardFrontendService/StreamGenerate".

Definition chat_headers (cookie_str : str) : list (str * str) :=
  [ (lit "User-Agent", user_agent);
    (lit "Accept", lit "*/*");
    (lit "Accept-Encoding", lit "gzip, deflate, br");
    (lit "Accept-Language", lit "en-US,en;q=0.9");
    (lit "Content-Type", lit "application/x-www-form-urlencoded;charset=UTF-8");
    (lit "x-same-domain", lit "1");
    (lit "origin", lit "https://gemini.google.com");
    (lit "sec-ch-ua", sec_ch_ua);
    (lit "sec-ch-ua-mobile", lit "?0");
    (lit "sec-ch-ua-platform", q "`Windows`");
    (lit "sec-fetch-site", lit "same-origin");
    (lit "sec-fetch-mode", lit "cors");
    (lit "sec-fetch-dest", lit "empty");
    (lit "referer", lit "https://gemini.google.com/");
    (lit "Cookie", cookie_str) ].

(** The block that decodes and uploads the image, inside its [try]. *)
Definition attach_image `{Runtime} (image_base64 snlm0e : str) : M (option str) :=
  try_catch
    (let* parts :=
       (if contains [44] image_base64
        then
          let '(header, encoded) := split_once 44 image_base64 in
          match split 58 (default [] (head (split 59 header))) !! 1%nat with
          | Some mime_type => ret (encoded, mime_type)
          | None => raise IndexError
          end
        else ret (image_base64, lit "image/jpeg")) in
     let* image_bytes := lift (b64decode parts.1) in
     let* image_id := upload_image image_bytes parts.2 snlm0e in
     if absent image_id then ret None else ret image_id)
    (fun _ => ret None).

Definition failure (message : str) : gmap string value :=
  {[ "success"%string := VBool false; "error"%string := VStr message ]}.

Definition chat_with_gemini `{Runtime} (prompt : str) (image_base64 : option str)
    : M (gmap string value) :=
  let* start_time := time_time in
  let* scraped := scrape_fresh_session in
  match scraped with
  | None => ret (failure (lit "Failed to establish session with Gemini"))
  | Some scraped =>
      let* image_id :=
        (match image_base64 with
         | Some (c :: s) => attach_image (c :: s) (snlm0e scraped)
         | _ => ret None
         end) in
      let url :=
        base_url ++ lit "?bl=" ++ format (bl scraped) ++ lit "&f.sid="
        ++ format (fsid scraped) ++ lit "&hl=en-US&_reqid="
        ++ format (reqid scraped) ++ lit "&rt=c" in
      let* payload :=
        (match image_id with
         | Some (c :: s) => build_payload_with_image prompt (snlm0e scraped) (c :: s)
         | _ => build_payload prompt (snlm0e scraped)
         end) in
      let cookie_str :=
        join (lit "; ") ((fun kv => kv.1 ++ [61] ++ kv.2) <$> cookies scraped) in
      let headers := chat_headers cookie_str in
      try_catch
        (let* response := request (HttpPostForm url payload headers) in
         if negb (status_code response =? 200)%Z
         then ret (failure (lit "HTTP " ++ str_of_int (status_code response)))
         else
           let* result := lift (parse_streaming_response (text response)) in
           let* end_time := time_time in
           match result with
           | Some (c :: s) =>
               let result := c :: s in
               let* response_time := elapsed start_time end_time in
               let* now := utcnow in
               ret {[ "success"%string := VBool true;
                      "response"%string := VStr result;
                      "metadata"%string :=
                        VDict
                          [ (lit "response_time", VStr (response_time ++ lit "s"));
                            (lit "timestamp", VStr (now ++ lit "Z"));
                            (lit "model", VStr (lit "gemini"));
                            (lit "character_count", VInt (Z.of_nat (length result)));
                            (lit "word_count",
                             VInt (Z.of_nat (count_words false result))) ]
                   ]}
           | _ => ret (failure (lit "No response received from Gemini"))
           end)
        (fun e =>
           match e with
           | RequestException message => ret (failure message)
           | _ => raise e
           end)
  end.

(** ** A runtime to run the program on concrete inputs *)

(** The theorems below hold for every [Runtime].  To evaluate the program
    on given texts one is fixed here: a reader for JSON that follows
    [json.loads], the character tables restricted to ASCII, and a decoder
    for canonical base64 text. *)
Module Json.

Definition is_ws (c : char) : bool :=
  (c =? 32) || (c =? 9) || (c =? 10) || (c =? 13).

Fixpoint skip_ws (s : str) : str :=
  match s with
  | c :: s' => if is_ws c then skip_ws s' else s
  | [] => []
  end.

Definition is_digit (c : char) : bool := (48 <=? c) && (c <=? 57).

Fixpoint span_digits (s : str) : str * str :=
  match s with
  | c :: s' =>
      if is_digit c then let '(ds, rest) := span_digits s' in (c :: ds, rest)
      else ([], s)
  | [] => ([], [])
  end.

Definition hex_value (c : char) : option N :=
  if is_digit c then Some (c - 48)
  else if (97 <=? c) && (c <=? 102) then Some (c - 87)
  else if (65 <=? c) && (c <=? 70) then Some (c - 55)
  else None.

Definition hex4 (a b c d : char) : option N :=
  match hex_value a, hex_value b, hex_value c, hex_value d with
  | Some x, Some y, Some z, Some t => Some (((x * 16 + y) * 16 + z) * 16 + t)
  | _, _, _, _ => None
  end.

Definition simple_escape (c : char) : option char :=
  if c =? QUOTE then Some QUOTE
  else if c =? BACKSLASH then Some BACKSLASH
  else if c =? 47 then Some 47
  else if c =? 98 then Some 8
  else if c =? 102 then Some 12
  else if c =? 110 then Some 10
  else if c =? 114 then Some 13
  else if c =? 116 then Some 9
  else None.

(** The characters of a string after its opening quote, up to the closing
    one.  [acc] holds the characters read so far, last first. *)
Fixpoint scan_string (s : str) (acc : str) : option (str * str) :=
  match s with
  | [] => None
  | c :: s1 =>
      if c =? QUOTE then Some (rev acc, s1)
      else if c <? 32 then None
      else if c =? BACKSLASH then
        match s1 with
        | [] => None
        | e :: s2 =>
            if e =? 117 then
              match s2 with
              | h1 :: h2 :: h3 :: h4 :: s3 =>
                  match hex4 h1 h2 h3 h4 with
                  | None => None
                  | Some n =>
                      if (55296 <=? n) && (n <=? 56319) then
                        match s3 with
                        | b :: u :: l1 :: l2 :: l3 :: l4 :: s4 =>
                            match (if (b =? BACKSLASH) && (u =? 117)
                                   then hex4 l1 l2 l3 l4 else None) with
                            | Some m =>
                                if (56320 <=? m) && (m <=? 57343)
                                then scan_string s4
                                       (65536 + (n - 55296) * 1024 + (m - 56320) :: acc)
                                else scan_string s3 (n :: acc)
                            | None => scan_string s3 (n :: acc)
                            end
                        | _ => scan_string s3 (n :: acc)
                        end
                      else scan_string s3 (n :: acc)
                  end
              | _ => None
              end
            else
              match simple_escape e with
              | Some x => scan_string s2 (x :: acc)
              | None => None
              end
        end
      else scan_string s1 (c :: acc)
  end.

Definition int_of_digits (ds : str) : Z :=
  fold_left (fun acc c => (acc * 10 + Z.of_N (c - 48))%Z) ds 0%Z.

(** A number at the head of [s]: an integer part, then a fraction and an
    exponent if they are complete. *)
Definition scan_number (s : str) : option (value * str) :=
  let '(sign, s1) :=
    match s with
    | c :: s' => if c =? 45 then ([45], s') else ([], s)
    | [] => ([], s)
    end in
  let '(int_part, s2) :=
    match s1 with
    | c :: s' => if c =? 48 then ([48], s') else span_digits s1
    | [] => ([], [])
    end in
  match int_part with
  | [] => None
  | _ :: _ =>
      let '(frac, s3) :=
        match s2 with
        | c :: s' =>
            if c =? 46 then
              match span_digits s' with
              | ([], _) => ([], s2)
              | (ds, rest) => (46 :: ds, rest)
              end
            else ([], s2)
        | [] => ([], s2)
        end in
      let '(expo, s4) :=
        match s3 with
        | c :: s' =>
            if (c =? 101) || (c =? 69) then
              let '(sg, s'') :=
                match s' with
                | x :: r => if (x =? 45) || (x =? 43) then ([x], r) else ([], s')
                | [] => ([], s')
                end in
              match span_digits s'' with
              | ([], _) => ([], s3)
              | (ds, rest) => (c :: sg ++ ds, rest)
              end
            else ([], s3)
        | [] => ([], s3)
        end in
      match frac, expo with
      | [], [] =>
          let n := int_of_digits int_part in
          Some (VInt (match sign with [] => n | _ => - n end), s4)
      | _, _ =>
          Some (VFloat (sign ++ int_part ++ frac ++ expo)
                  (existsb (fun c => is_digit c && negb (c =? 48)) (int_part ++ frac)),
                s4)
      end
  end.

(** [d[k] = v] while an object is read: a repeated key keeps its place and
    takes the later value. *)
Fixpoint member_set (d : list (str * value)) (k : str) (v : value)
    : list (str * value) :=
  match d with
  | [] => [(k, v)]
  | (k', v') :: rest =>
      if Py.eqb k' k then (k, v) :: rest else (k', v') :: member_set rest k v
  end.

Definition keyword (word : string) (v : value) (s : str) : option (value * str) :=
  if startswith (lit word) s then Some (v, drop (length (lit word)) s) else None.

Fixpoint scan_value (fuel : nat) (s : str) : option (value * str) :=
  match fuel with
  | O => None
  | S fuel' =>
      match s with
      | [] => None
      | c :: s' =>
          if c =? QUOTE then
            match scan_string s' [] with
            | Some (x, rest) => Some (VStr x, rest)
            | None => None
            end
          else if c =? 123 then
            match skip_ws s' with
            | d :: rest =>
                if d =? 125 then Some (VDict [], rest)
                else scan_members fuel' (d :: rest) []
            | [] => None
            end
          else if c =? 91 then
            match skip_ws s' with
            | d :: rest =>
                if d =? 93 then Some (VList [], rest)
                else scan_elements fuel' (d :: rest) []
            | [] => None
            end
          else if c =? 110 then keyword "null" VNone s
          else if c =? 116 then keyword "true" (VBool true) s
          else if c =? 102 then keyword "false" (VBool false) s
          else if c =? 78 then keyword "NaN" (VFloat (lit "NaN") true) s
          else if c =? 73 then keyword "Infinity" (VFloat (lit "Infinity") true) s
          else if startswith (lit "-Infinity") s
          then keyword "-Infinity" (VFloat (lit "-Infinity") true) s
          else scan_number s
      end
  end
with scan_elements (fuel : nat) (s : str) (acc : list value) : option (value * str) :=
  match fuel with
  | O => None
  | S fuel' =>
      match scan_value fuel' s with
      | None => None
      | Some (v, rest) =>
          match skip_ws rest with
          | c :: rest' =>
              if c =? 44 then scan_elements fuel' (skip_ws rest') (v :: acc)
              else if c =? 93 then Some (VList (rev (v :: acc)), rest')
              else None
          | [] => None
          end
      end
  end
with scan_members (fuel : nat) (s : str) (acc : list (str * value))
    : option (value * str) :=
  match fuel with
  | O => None
  | S fuel' =>
      match s with
      | c :: s' =>
          if c =? QUOTE then
            match scan_string s' [] with
            | None => None
            | Some (k, rest) =>
                match skip_ws rest with
                | colon :: rest' =>
                    if colon =? 58 then
                      match scan_value fuel' (skip_ws rest') with
                      | None => None
                      | Some (v, rest'') =>
                          let acc' := member_set acc k v in
                          match skip_ws rest'' with
                          | d :: r =>
                              if d =? 44 then scan_members fuel' (skip_ws r) acc'
                              else if d =? 125 then Some (VDict acc', r)
                              else None
                          | [] => None
                          end
                      end
                    else None
                | [] => None
                end
            end
          else None
      | [] => None
      end
  end.

(** [json.loads(s)]: one value, with nothing but whitespace around it.
    Each nested call of the reader has passed at least one character every
    second step, so twice the length of the text is fuel enough. *)
Definition loads (s : str) : exc value :=
  if startswith [65279] s then Raise JSONDecodeError
  else
    match scan_value (2 * length s + 2) (skip_ws s) with
    | Some (v, rest) =>
        match skip_ws rest with
        | [] => Ok v
        | _ :: _ => Raise JSONDecodeError
        end
    | None => Raise JSONDecodeError
    end.

End Json.

Module Base64.

Definition sextet (c : char) : option N :=
  if (65 <=? c) && (c <=? 90) then Some (c - 65)
  else if (97 <=? c) && (c <=? 122) then Some (c - 71)
  else if (48 <=? c) && (c <=? 57) then Some (c + 4)
  else if c =? 43 then Some 62
  else if c =? 47 then Some 63
  else None.

(** Canonical base64 text: groups of four characters of the alphabet, the
    last one padded with [=] if need be. *)
Fixpoint decode (s : str) : exc (list N) :=
  match s with
  | [] => Ok []
  | a :: b :: c :: d :: rest =>
      match sextet a, sextet b, sextet c, sextet d with
      | Some x, Some y, Some z, Some t =>
          (let* more := decode rest in
           Ok (x * 4 + y / 16 :: y mod 16 * 16 + z / 4 :: z mod 4 * 64 + t :: more))%exc
      | Some x, Some y, Some z, None =>
          if (d =? 61) && bool_decide (rest = [])
          then Ok [x * 4 + y / 16; y mod 16 * 16 + z / 4]
          else Raise BinasciiError
      | Some x, Some y, None, None =>
          if (c =? 61) && (d =? 61) && bool_decide (rest = [])
          then Ok [x * 4 + y / 16]
          else Raise BinasciiError
      | _, _, _, _ => Raise BinasciiError
      end
  | _ => Raise BinasciiError
  end.

End Base64.

Definition reference : Runtime := {|
  json_loads := Json.loads;
  uni_isdigit := Json.is_digit;
  uni_isdecimal := Json.is_digit;
  uni_decimal_value := fun c => Z.of_N (c - 48);
  b64decode := Base64.decode;
  extract_from_script_tags := fun _ => Ok None
|}.

(** * The HTTP handlers *)

(** What a handler reads of the request: the method, what
    [request.get_json()] gives, which can be an exception, and the
    parameters of the query string in their order. *)
Record flask_request := {
  method : str;
  get_json : exc value;
  args : list (str * str)
}.

(** A response made by [jsonify]: the dictionary it carries, its status,
    and the headers that the handler adds to it. *)
Record flask_response := {
  body : gmap string value;
  status : Z;
  added_headers : list (str * str)
}.

(** [jsonify(d)], before its status is set and headers are added. *)
Definition jsonify (d : gmap string value) : flask_response :=
  {| body := d; status := 200; added_headers := [] |}.

Definition set_status (response : flask_response) (code : Z) : flask_response :=
  {| body := body response; status := code;
     added_headers := added_headers response |}.

(** [response.headers.add(name, v)] *)
Definition headers_add (response : flask_response) (name v : str) : flask_response :=
  {| body := body response; status := status response;
     added_headers := added_headers response ++ [(name, v)] |}.

(** [request.args.get(key)]: the first value given for the key. *)
Fixpoint args_get (args : list (str * str)) (key : str) : option str :=
  match args with
  | [] => None
  | (k, v) :: rest => if Py.eqb k key then Some v else args_get rest key
  end.

(** The value under a key of a dictionary, [None] without one. *)
Fixpoint entries_get (entries : list (str * value)) (key : str) : value :=
  match entries with
  | [] => VNone
  | (k, v) :: rest => if Py.eqb k key then v else entries_get rest key
  end.

(** [data.get(key)]: only a dictionary has the method. *)
Definition data_get (data : value) (key : str) : exc value :=
  match data with
  | VDict entries => Ok (entries_get entries key)
  | _ => Raise (OtherException (lit "AttributeError"))
  end.

(** The prompt and the image that [ask_gemini] reads first. *)
Definition read_prompt_and_image (request : flask_request) : exc (value * value) :=
  if Py.eqb (method request) (lit "POST") then
    let* data := get_json request in
    let* prompt := (if truthy data then data_get data (lit "prompt") else Ok VNone) in
    let* image_base64 := (if truthy data then data_get data (lit "image") else Ok VNone) in
    Ok (prompt, image_base64)
  else
    Ok (match args_get (args request) (lit "prompt") with
        | Some s => VStr s
        | None => VNone
        end, VNone).

(** The image as [chat_with_gemini] takes it.  A value that is true and is
    not a string makes the image block raise at its first statements,
    where [in], [split] or [b64decode] refuse it, before any exchange; the
    block catches the exception, so that the run is the run without an
    image. *)
Definition image_argument (image_base64 : value) : option str :=
  match image_base64 with
  | VStr s => Some s
  | _ => None
  end.

Definition allow_origin : str * str := (lit "Access-Control-Allow-Origin", lit "*").

Definition missing_prompt_response : flask_response :=
  let response :=
    jsonify
      {[ "success"%string := VBool false;
         "error"%string := VStr (lit "Missing required parameter: prompt");
         "api_dev"%string := VStr (lit "@ISmartCoder");
         "usage"%string :=
           VDict
             [ (lit "endpoint", VStr (lit "/api/ask"));
               (lit "method", VStr (lit "GET or POST"));
               (lit "parameters",
                VDict
                  [ (lit "prompt", VStr (lit "Your question or message (required)"));
                    (lit "image", VStr (lit "Base64 encoded image string (optional)")) ]);
               (lit "example", VStr (lit "/api/ask?prompt=Hello")) ] ]} in
  let response := set_status response 400 in
  headers_add response allow_origin.1 allow_origin.2.

Definition blank_prompt_response : flask_response :=
  let response :=
    jsonify
      {[ "success"%string := VBool false;
         "error"%string := VStr (lit "Prompt cannot be empty");
         "api_dev"%string := VStr (lit "@ISmartCoder") ]} in
  let response := set_status response 400 in
  headers_add response allow_origin.1 allow_origin.2.

Definition ask_gemini `{Runtime} (request : flask_request) : M flask_response :=
  let* read := lift (read_prompt_and_image request) in
  let prompt := read.1 in
  let image_base64 := read.2 in
  if negb (truthy prompt) then ret missing_prompt_response
  else
    match prompt with
    | VStr s =>
        if (length (strip s) =? 0)%nat then ret blank_prompt_response
        else
          let* result := chat_with_gemini s (image_argument image_base64) in
          let result := <["api_dev"%string := VStr (lit "@ISmartCoder")]> result in
          let result := <["prompt"%string := prompt]> result in
          let* success := dict_item result "success" in
          let response :=
            if truthy success then set_status (jsonify result) 200
            else set_status (jsonify result) 500 in
          ret (headers_add response allow_origin.1 allow_origin.2)
    | _ =>
        (* [prompt.strip()]: only a string has the method *)
        raise (OtherException (lit "AttributeError"))
    end.

Definition options_api : flask_response :=
  let response := jsonify {[ "status"%string := VStr (lit "ok") ]} in
  let response := headers_add response (lit "Access-Control-Allow-Origin") (lit "*") in
  let response :=
    headers_add response (lit "Access-Control-Allow-Headers")
      (lit "Content-Type,Authorization") in
  headers_add response (lit "Access-Control-Allow-Methods")
    (lit "GET,PUT,POST,DELETE,OPTIONS").

Definition home : flask_response :=
  jsonify {[ "success"%string := VBool true;
             "message"%string := VStr (lit "Gemini AI API is running!");
             "api_dev"%string := VStr (lit "@ISmartCoder") ]}.

(** * The vocabulary of the properties *)

(** ** Escaping, character by character *)

(** What escaping makes of one character. *)
Definition escaped_char (c : char) : str :=
  if c =? BACKSLASH then [BACKSLASH; BACKSLASH]
  else if c =? QUOTE then [BACKSLASH; QUOTE]
  else if c =? NL then [BACKSLASH; 110]
  else [c].

(** The same once the pairs backslash-n, then backslash-quote, have been
    undone. *)
Definition after_newlines (c : char) : str :=
  if c =? BACKSLASH then [BACKSLASH; BACKSLASH]
  else if c =? QUOTE then [BACKSLASH; QUOTE]
  else [c].

Definition after_quotes (c : char) : str :=
  if c =? BACKSLASH then [BACKSLASH; BACKSLASH] else [c].

(** ** The decoder as a choice among the texts of the reply lines *)

Definition keep_longer (full_text t : str) : str :=
  if (length full_text <? length t)%nat then t else full_text.

Definition lines_of (response_text : str) : list str :=
  split NL (strip response_text).

Definition best (texts : list str) : str := fold_left keep_longer texts [].

Definition first_longest (texts : list str) (b : str) : Prop :=
  exists pre post,
    texts = pre ++ b :: post /\
    (forall c, c ∈ pre -> (length c < length b)%nat) /\
    (forall c, c ∈ post -> (length c <= length b)%nat).

(** Decidable forms of the two conditions on the texts of a stream. *)
Definition ties_agree_texts (texts : list str) : bool :=
  forallb (fun t1 =>
    forallb (fun t2 => implb (length t1 =? length t2)%nat (Py.eqb t1 t2)) texts)
    texts.

Definition growing_texts (texts : list str) : bool :=
  forallb (fun t1 =>
    forallb (fun t2 => startswith t1 t2 || startswith t2 t1) texts) texts.

Section DecoderVocabulary.
Context `{Runtime}.

Definition candidate (line : str) : str :=
  match loop_body [] line with
  | Ok t => t
  | Raise _ => []
  end.

Definition data_frame (line t : str) : Prop :=
  line <> [] /\ startswith (lit ")]}") line = false /\ isdigit line = false /\
  exists items d0 inner parsed content first_item response_id text_array,
    json_loads line = Ok (VList items) /\
    items !! 0%nat = Some (VList d0) /\
    d0 !! 0%nat = Some (VStr (lit "wrb.fr")) /\
    d0 !! 2%nat = Some (VStr inner) /\
    inner <> [] /\
    json_loads inner = Ok (VList parsed) /\
    parsed !! 4%nat = Some (VList content) /\
    content !! 0%nat = Some (VList first_item) /\
    first_item !! 0%nat = Some (VStr response_id) /\
    startswith (lit "rc_") response_id = true /\
    first_item !! 1%nat = Some (VList text_array) /\
    text_array !! 0%nat = Some (VStr t).

(** Whenever two reply lines carry texts of the same, greatest, length,
    the two texts are the same. *)
Definition ties_agree (lines : list str) : Prop :=
  forall l1 t1 l2 t2,
    l1 ∈ lines -> l2 ∈ lines -> data_frame l1 t1 -> data_frame l2 t2 ->
    (forall l t, l ∈ lines -> data_frame l t -> (length t <= length t1)%nat) ->
    length t1 = length t2 -> t1 = t2.

(** The texts carried by the reply lines are prefixes of one another, as
    when the host resends an answer that grows. *)
Definition growing (lines : list str) : Prop :=
  forall l1 t1 l2 t2,
    l1 ∈ lines -> l2 ∈ lines -> data_frame l1 t1 -> data_frame l2 t2 ->
    t1 `prefix_of` t2 \/ t2 `prefix_of` t1.

Definition decode (response_text : str) : option str :=
  let b := best (candidate <$> lines_of response_text) in
  if bool_decide (b = []) then None else Some (unescape_text b).
End DecoderVocabulary.

(** A reply line of the host carrying the text [t]:
    [[`wrb.fr`,null,`[1,1,1,1,[[\`rc_1\`,[\`t\`]]]]`]]. *)
Definition frame_line (t : string) : str :=
  q "[[`wrb.fr`,null,`[1,1,1,1,[[\`rc_1\`,[\`" ++ lit t ++ q "\`]]]]`]]".

(** ** Keys read without regard to case *)

(** [key] read without regard to case at the head of [s], and anywhere in
    [s]. *)
Fixpoint startswith_ci (key s : str) : bool :=
  match key, s with
  | [], _ => true
  | k :: key', c :: s' => ci_match k c && startswith_ci key' s'
  | _ :: _, [] => false
  end.

Fixpoint contains_ci (key s : str) : bool :=
  startswith_ci key s ||
  match s with
  | [] => false
  | _ :: s' => contains_ci key s'
  end.

(** ** The exchanges of a run *)

(** The exchanges of the image upload. *)
Definition upload_url (mime_type : str) : str :=
  lit "https://content-push.googleapis.com/upload/photomkt/img/1.0/internal/default/media?content_type="
  ++ mime_type ++ lit "&protocolVersion=2.0&authuser=0&uploadType=multipart".

Definition handshake (mime_type : str) : event :=
  HttpPostJson (upload_url mime_type)
    [ (lit "X-Goog-Upload-Command", lit "start");
      (lit "X-Goog-Upload-Protocol", lit "resumable") ]
    (VDict [ (lit "protocolVersion", VStr (lit "2.0")) ]).

Definition finalize (actual_upload_url : str) (image_bytes : list N) : event :=
  HttpPut actual_upload_url
    [ (lit "X-Goog-Upload-Command", lit "upload, finalize");
      (lit "X-Goog-Upload-Offset", lit "0") ]
    image_bytes.

Definition is_form_post (e : event) : bool :=
  match e with
  | HttpPostForm _ _ _ => true
  | _ => false
  end.

(** What the upload exchanges and returns, read off the answers of the
    world: [tr] holds the exchanges made before it. *)
Definition upload_events (w : World) (tr : list event) (mime_type : str)
    (image_bytes : list N) : list event :=
  match http w tr (handshake mime_type) with
  | Ok r1 =>
      match header_lookup (lit "x-goog-upload-url") (response_headers r1) with
      | Some u => [handshake mime_type; finalize u image_bytes]
      | None => [handshake mime_type]
      end
  | Raise _ => [handshake mime_type]
  end.

Definition upload_result (w : World) (tr : list event) (mime_type : str)
    (image_bytes : list N) : exc (option str) :=
  match http w tr (handshake mime_type) with
  | Raise e => Raise e
  | Ok r1 =>
      match header_lookup (lit "x-goog-upload-url") (response_headers r1) with
      | None => Ok None
      | Some u =>
          match http w (tr ++ [handshake mime_type]) (finalize u image_bytes) with
          | Raise e => Raise e
          | Ok r2 => if (status_code r2 =? 200)%Z then Ok (Some (text r2)) else Ok None
          end
      end
  end.

(** The image reference the orchestrator keeps of it. *)
Definition kept_image (r : exc (option str)) : option str :=
  match r with
  | Ok (Some (c :: s)) => Some (c :: s)
  | _ => None
  end.

Definition text_only_payload (w : World) (st : State) (prompt token : str)
    : list (str * str) :=
  form_of (payload_data (escape_prompt prompt) token (uuid4_hex w (draws st))
             (uuid_str_upper (uuid4_hex w (S (draws st))))).

(** ** Payloads and sample worlds *)

(** The prompt sub-array of a payload is the first position of the inner
    array; an image is attached to it as one more array. *)
Definition prompt_array (payload : value) : list value :=
  match payload with
  | VList (VList a :: _) => a
  | _ => []
  end.

Definition has_sub_array (a : list value) : bool := existsb isinstance_list a.

(** A page that carries a session token, and worlds built around it. *)
Definition token_page : str :=
  lit "<html><script>window.WIZ_global_data = {"
  ++ q "`SNlM0e`:`abcdEFGH12345678901234`" ++ lit "};</script></html>".

Definition plain_response (status : Z) (body : str) : response :=
  {| status_code := status; text := body; response_headers := [];
     session_cookies := [] |}.

(** The chat endpoint is out of service; uploads are not answered. *)
Definition outage : World :=
  {| http := fun _ e =>
       match e with
       | HttpGet _ _ => Ok (plain_response 200 token_page)
       | HttpPostForm _ _ _ => Ok (plain_response 503 (lit "Service Unavailable"))
       | _ => Raise (RequestException (lit "unreachable"))
       end;
     clock_ms := fun n => (1765000000123 + Z.of_nat n)%Z;
     elapsed_text := fun _ _ => lit "0.42";
     utcnow_isoformat := fun _ => lit "2025-12-17T10:00:00";
     uuid4_hex := fun _ => lit "0123456789abcdef0123456789abcdef" |}.

(** The handshake of the upload is answered without an upload address. *)
Definition no_upload_address : World :=
  {| http := fun _ e =>
       match e with
       | HttpGet _ _ => Ok (plain_response 200 token_page)
       | HttpPostForm _ _ _ => Ok (plain_response 200 (frame_line "A cat."))
       | _ => Ok (plain_response 200 [])
       end;
     clock_ms := fun n => (1765000000123 + Z.of_nat n)%Z;
     elapsed_text := fun _ _ => lit "0.42";
     utcnow_isoformat := fun _ => lit "2025-12-17T10:00:00";
     uuid4_hex := fun _ => lit "0123456789abcdef0123456789abcdef" |}.

(** The transfer of the bytes is refused. *)
Definition transfer_refused : World :=
  {| http := fun _ e =>
       match e with
       | HttpGet _ _ => Ok (plain_response 200 token_page)
       | HttpPostForm _ _ _ => Ok (plain_response 200 (frame_line "A cat."))
       | HttpPostJson _ _ _ =>
           Ok {| status_code := 200; text := [];
                 response_headers := [(lit "X-Goog-Upload-URL", lit "https://upload.example/1")];
                 session_cookies := [] |}
       | HttpPut _ _ _ => Ok (plain_response 403 (lit "Forbidden"))
       end;
     clock_ms := fun n => (1765000000123 + Z.of_nat n)%Z;
     elapsed_text := fun _ _ => lit "0.42";
     utcnow_isoformat := fun _ => lit "2025-12-17T10:00:00";
     uuid4_hex := fun _ => lit "0123456789abcdef0123456789abcdef" |}.

(** ** Sessions and results *)

(** The value under a key, when there is one, is a string; an integer. *)
Definition str_at (p : gmap string value) (k : string) : Prop :=
  forall v, p !! k = Some v -> exists s, v = VStr s.

Definition int_at (p : gmap string value) (k : string) : Prop :=
  forall v, p !! k = Some v -> exists n, v = VInt n.

(** The request id of the page, if it has one, can be read as an integer:
    it has 4300 digits at most. *)
Definition readable_reqid `{Runtime} (page : str) : bool :=
  match search false reqid_pattern page with
  | Some g => negb (4300 <? Z.of_nat (length g))%Z
  | None => true
  end.

(** The token the bootstrapper settles on: the capture of the patterns,
    or else what the script tags give. *)
Definition settled_token `{Runtime} (page : str) : option str :=
  if absent (extract_snlm0e_token page) then
    match extract_from_script_tags page with
    | Ok token => token
    | Raise _ => None
    end
  else extract_snlm0e_token page.

(** The fetch of the landing page. *)
Definition landing_fetch : event := HttpGet landing_url landing_headers.

(** The cookies of the session as the bootstrapper collects them. *)
Definition collected_cookies (resp : response) : list (str * str) :=
  fold_left (fun d c => dict_set d c.1 c.2) (session_cookies resp) [].
(** The dictionary of a run that succeeded. *)
Definition success_result (result response_time now : str) : gmap string value :=
  {[ "success"%string := VBool true;
     "response"%string := VStr result;
     "metadata"%string :=
       VDict
         [ (lit "response_time", VStr (response_time ++ lit "s"));
           (lit "timestamp", VStr (now ++ lit "Z"));
           (lit "model", VStr (lit "gemini"));
           (lit "character_count", VInt (Z.of_nat (length result)));
           (lit "word_count", VInt (Z.of_nat (count_words false result))) ] ]}.

(** What a run returns, read off the answer to the chat transmission. *)
Definition verdict `{Runtime} (answer : exc response)
    (r : exc (gmap string value)) : Prop :=
  match answer with
  | Raise (RequestException message) => r = Ok (failure message)
  | Raise e => r = Raise e
  | Ok resp =>
      if (status_code resp =? 200)%Z then
        match parse_streaming_response (text resp) with
        | Ok (Some (c :: s)) =>
            exists response_time now,
              r = Ok (success_result (c :: s) response_time now)
        | Ok _ => r = Ok (failure (lit "No response received from Gemini"))
        | Raise e => r = Raise e
        end
      else r = Ok (failure (lit "HTTP " ++ str_of_int (status_code resp)))
  end.
(** The token of the session a run starts with, if it gets one. *)
Definition session_token `{Runtime} (w : World) : option str :=
  match http w [] landing_fetch with
  | Ok resp =>
      match settled_token (text resp) with
      | Some (c :: s) => Some (c :: s)
      | _ => None
      end
  | Raise _ => None
  end.

(** The same for the whole bootstrapper, which gets no session either when
    the request id of the page cannot be read. *)
Definition session_of `{Runtime} (w : World) : option str :=
  match http w [] landing_fetch with
  | Ok resp => if readable_reqid (text resp) then session_token w else None
  | Raise _ => None
  end.

(** The two parts of the image text: what is to be decoded, and the type. *)
Definition image_parts (image_base64 : str) : exc (str * str) :=
  if contains [44] image_base64 then
    let '(header, encoded) := split_once 44 image_base64 in
    match split 58 (default [] (head (split 59 header))) !! 1%nat with
    | Some mime_type => Ok (encoded, mime_type)
    | None => Raise IndexError
    end
  else Ok (image_base64, lit "image/jpeg").

(** The exchanges of the image block and the reference it keeps, when [tr]
    holds the exchanges made before it. *)
Definition attached_at `{Runtime} (w : World) (tr : list event)
    (image_base64 : str) : list event * option str :=
  match image_parts image_base64 with
  | Ok (encoded, mime_type) =>
      match b64decode encoded with
      | Ok image_bytes =>
          (upload_events w tr mime_type image_bytes,
           kept_image (upload_result w tr mime_type image_bytes))
      | Raise _ => ([], None)
      end
  | Raise _ => ([], None)
  end.

Definition attached `{Runtime} (w : World) (image_base64 : option str)
    : list event * option str :=
  match image_base64 with
  | Some (c :: s) => attached_at w [landing_fetch] (c :: s)
  | _ => ([], None)
  end.

(** The positions of the array that a payload is. *)
Definition payload_items (payload : value) : list value :=
  match payload with
  | VList items => items
  | _ => []
  end.

(** The text that refers to an uploaded image in a payload. *)
Definition image_struct (image_id : str) : str :=
  q "[[[`" ++ image_id ++ q "`, 1], null]]".

(** The payload of a run, with the image reference it kept if any. *)
Definition payload_of `{Runtime} (w : World) (prompt token : str)
    (image_id : option str) : exc (list (str * str)) :=
  let session_id := uuid4_hex w 0 in
  let request_uuid := uuid_str_upper (uuid4_hex w 1) in
  match image_id with
  | Some (c :: s) =>
      match json_loads (image_struct (c :: s)) with
      | Ok image =>
          Ok (form_of (payload_data_with_image (escape_prompt prompt) token
                         session_id request_uuid image))
      | Raise e => Raise e
      end
  | _ => Ok (form_of (payload_data (escape_prompt prompt) token session_id
                        request_uuid))
  end.
(** ** More sample worlds *)

(** The chat transmission times out. *)
Definition hang_up : World :=
  {| http := fun _ e =>
       match e with
       | HttpGet _ _ => Ok (plain_response 200 token_page)
       | _ => Raise (RequestException (lit "Read timed out."))
       end;
     clock_ms := fun n => (1765000000123 + Z.of_nat n)%Z;
     elapsed_text := fun _ _ => lit "0.42";
     utcnow_isoformat := fun _ => lit "2025-12-17T10:00:00";
     uuid4_hex := fun _ => lit "0123456789abcdef0123456789abcdef" |}.

(** The host cannot be reached. *)
Definition unreachable : World :=
  {| http := fun _ _ => Raise (RequestException (lit "unreachable"));
     clock_ms := fun n => (1765000000123 + Z.of_nat n)%Z;
     elapsed_text := fun _ _ => lit "0.42";
     utcnow_isoformat := fun _ => lit "2025-12-17T10:00:00";
     uuid4_hex := fun _ => lit "0123456789abcdef0123456789abcdef" |}.

(** The upload goes through and the image is given a reference. *)
Definition upload_accepted : World :=
  {| http := fun _ e =>
       match e with
       | HttpGet _ _ => Ok (plain_response 200 token_page)
       | HttpPostForm _ _ _ => Ok (plain_response 200 (frame_line "A cat."))
       | HttpPostJson _ _ _ =>
           Ok {| status_code := 200; text := [];
                 response_headers := [(lit "X-Goog-Upload-URL", lit "https://upload.example/1")];
                 session_cookies := [] |}
       | HttpPut _ _ _ => Ok (plain_response 200 (lit "/contrib_service/ttl_1d/1"))
       end;
     clock_ms := fun n => (1765000000123 + Z.of_nat n)%Z;
     elapsed_text := fun _ _ => lit "0.42";
     utcnow_isoformat := fun _ => lit "2025-12-17T10:00:00";
     uuid4_hex := fun _ => lit "0123456789abcdef0123456789abcdef" |}.
(** The upload goes through and is answered with a JSON text. *)
Definition json_reference : World :=
  {| http := fun _ e =>
       match e with
       | HttpGet _ _ => Ok (plain_response 200 token_page)
       | HttpPostForm _ _ _ => Ok (plain_response 200 (frame_line "A cat."))
       | HttpPostJson _ _ _ =>
           Ok {| status_code := 200; text := [];
                 response_headers := [(lit "X-Goog-Upload-URL", lit "https://upload.example/1")];
                 session_cookies := [] |}
       | HttpPut _ _ _ => Ok (plain_response 200 (q "{`media_id`:`1`}"))
       end;
     clock_ms := fun n => (1765000000123 + Z.of_nat n)%Z;
     elapsed_text := fun _ _ => lit "0.42";
     utcnow_isoformat := fun _ => lit "2025-12-17T10:00:00";
     uuid4_hex := fun _ => lit "0123456789abcdef0123456789abcdef" |}.
(** The answer made of a run for a prompt. *)
Definition answered (prompt : str) (run : exc (gmap string value) * State)
    : exc flask_response * State :=
  match run with
  | (Ok result, st') =>
      (Ok {| body := <["prompt"%string := VStr prompt]>
                       (<["api_dev"%string := VStr (lit "@ISmartCoder")]> result);
             status := if truthy (dict_get result "success") then 200 else 500;
             added_headers := [allow_origin] |}, st')
  | (Raise e, st') => (Raise e, st')
  end.
(** ** Sample requests *)

Definition get_request (query : list (str * str)) : flask_request :=
  {| method := lit "GET";
     get_json := Raise (OtherException (lit "UnsupportedMediaType"));
     args := query |}.

Definition post_request (data : value) : flask_request :=
  {| method := lit "POST"; get_json := Ok data; args := [] |}.

(** * Properties *)

Ltac by_ih IH := cbn [app]; repeat f_equal; exact IH.

Ltac step_exc :=
  match goal with
  | |- context [exc_bind ?m _] =>
      let E := fresh "E" in destruct m eqn:E; cbn [exc_bind]
  | |- context [if ?b then _ else _] =>
      let E := fresh "E" in destruct b eqn:E
  | |- context [match ?v with VNone => _ | _ => _ end] =>
      let E := fresh "E" in destruct v eqn:E
  end.

Ltac run_done :=
  eexists; (split; [|split]); [| |reflexivity];
  cbn [trace draws]; rewrite <- ?app_assoc; done.

(** ** Facts about [replace] *)

Section Replace.
Implicit Types (s r new : str) (a b c : char).

Lemma replace_one a new s :
  replace [a] new s = flat_map (fun c => if a =? c then new else [c]) s.
Proof.
  unfold replace. induction s as [|c s IH]; [done|].
  cbn [replace_from startswith flat_map length].
  rewrite andb_true_r. destruct (a =? c); cbn; by rewrite IH.
Qed.

Lemma replace_two_hit a b new r :
  replace [a; b] new (a :: b :: r) = new ++ replace [a; b] new r.
Proof.
  unfold replace. cbn [replace_from startswith length].
  by rewrite !N.eqb_refl.
Qed.

Lemma replace_two_miss a b new c r :
  (a =? c) && match r with d :: _ => b =? d | [] => false end = false ->
  replace [a; b] new (c :: r) = c :: replace [a; b] new r.
Proof.
  intros Hmiss. unfold replace. cbn [replace_from startswith].
  destruct r as [|d r]; [by rewrite andb_false_r|].
  rewrite andb_true_r. by rewrite Hmiss.
Qed.
End Replace.

(** ** Escaping and unescaping *)

Section RoundTrip.
Lemma escape_prompt_chars prompt :
  escape_prompt prompt = flat_map escaped_char prompt.
Proof.
  unfold escape_prompt. rewrite !replace_one.
  induction prompt as [|c s IH]; [done|].
  cbn [flat_map]. rewrite !flat_map_app, IH. f_equal.
  unfold escaped_char, BACKSLASH, QUOTE, NL.
  destruct (N.eqb_spec 92 c) as [<-|?]; [done|].
  rewrite (proj2 (N.eqb_neq c 92)) by done.
  cbn [flat_map app].
  destruct (N.eqb_spec 34 c) as [<-|?]; [done|].
  rewrite (proj2 (N.eqb_neq c 34)) by done.
  cbn [flat_map app].
  destruct (N.eqb_spec 10 c) as [<-|?]; [done|].
  by rewrite (proj2 (N.eqb_neq c 10)).
Qed.

(** The first character of an escaped text is an [n] only if the text
    itself starts with one. *)
Lemma head_escaped s d r :
  flat_map escaped_char s = d :: r -> d = 110 -> exists s', s = 110 :: s'.
Proof.
  destruct s as [|c s]; [done|]. cbn [flat_map]. unfold escaped_char.
  repeat case_match; cbn; intros [= <- _] ?; subst; try done.
  by eexists.
Qed.

Lemma undo_newlines s :
  contains [BACKSLASH; 110] s = false ->
  replace [BACKSLASH; 110] [NL] (flat_map escaped_char s)
  = flat_map after_newlines s.
Proof.
  induction s as [|c s IH]; [done|].
  cbn [contains flat_map]. intros [Hhere Hrest]%orb_false_iff.
  specialize (IH Hrest).
  unfold escaped_char at 1, after_newlines at 1.
  destruct (N.eqb_spec c BACKSLASH) as [->|Hb].
  - cbn [app]. rewrite replace_two_miss by done.
    rewrite replace_two_miss.
    + by_ih IH.
    + destruct (flat_map escaped_char s) as [|d r] eqn:E; [done|].
      destruct (N.eqb_spec 110 d) as [<-|]; [|done].
      destruct (head_escaped _ _ _ E eq_refl) as [s' ->].
      by cbn in Hhere.
  - destruct (N.eqb_spec c QUOTE) as [->|Hq].
    + cbn [app]. rewrite replace_two_miss by done.
      rewrite replace_two_miss by done. by_ih IH.
    + destruct (N.eqb_spec c NL) as [->|Hn].
      * cbn [app]. rewrite replace_two_hit. by_ih IH.
      * cbn [app]. rewrite replace_two_miss; [by_ih IH|].
        apply andb_false_iff. left. apply N.eqb_neq. congruence.
Qed.

Lemma head_after_newlines s d r :
  flat_map after_newlines s = d :: r -> d <> QUOTE.
Proof.
  destruct s as [|c s]; [done|]. cbn [flat_map]. unfold after_newlines.
  destruct (N.eqb_spec c BACKSLASH); [by intros [= <- _]|].
  destruct (N.eqb_spec c QUOTE); [by intros [= <- _]|].
  intros [= <- _]. done.
Qed.

Lemma undo_quotes s :
  replace [BACKSLASH; QUOTE] [QUOTE] (flat_map after_newlines s)
  = flat_map after_quotes s.
Proof.
  induction s as [|c s IH]; [done|].
  cbn [flat_map]. unfold after_newlines at 1, after_quotes at 1.
  destruct (N.eqb_spec c BACKSLASH) as [->|Hb].
  - cbn [app]. rewrite replace_two_miss by done.
    rewrite replace_two_miss; [by_ih IH|].
    destruct (flat_map after_newlines s) as [|d r] eqn:E; [done|].
    apply head_after_newlines in E.
    apply andb_false_iff. right. apply N.eqb_neq. congruence.
  - destruct (N.eqb_spec c QUOTE) as [->|Hq].
    + cbn [app]. rewrite replace_two_hit. by_ih IH.
    + cbn [app]. rewrite replace_two_miss; [by_ih IH|].
      apply andb_false_iff. left. apply N.eqb_neq. congruence.
Qed.

Lemma undo_backslashes s :
  replace [BACKSLASH; BACKSLASH] [BACKSLASH] (flat_map after_quotes s) = s.
Proof.
  induction s as [|c s IH]; [done|].
  cbn [flat_map]. unfold after_quotes at 1.
  destruct (N.eqb_spec c BACKSLASH) as [->|Hb].
  - cbn [app]. rewrite replace_two_hit. by_ih IH.
  - cbn [app]. rewrite replace_two_miss; [by_ih IH|].
    apply andb_false_iff. left. apply N.eqb_neq. congruence.
Qed.

Lemma unescape_escape prompt :
  contains [BACKSLASH; 110] prompt = false ->
  unescape_text (escape_prompt prompt) = prompt.
Proof.
  intros Hfree. unfold unescape_text.
  rewrite escape_prompt_chars, undo_newlines by done.
  by rewrite undo_quotes, undo_backslashes.
Qed.
End RoundTrip.

Lemma pair_absent (a b : char) (s : str) :
  b ∉ s -> contains [a; b] s = false.
Proof.
  induction s as [|c s IH]; [done|]. intros Hnot.
  apply not_elem_of_cons in Hnot as [Hne Hnot].
  cbn [contains]. rewrite (IH Hnot), orb_false_r.
  cbn [startswith]. destruct s as [|d s]; [apply andb_false_r|].
  apply not_elem_of_cons in Hnot as [Hd _].
  apply andb_false_iff. right. apply andb_false_iff. left. by apply N.eqb_neq.
Qed.

(** C1 as stated fails: a backslash followed by the letter n in the prompt
    comes back as a newline. *)
Lemma backslash_n_becomes_newline :
  let prompt := lit "C:\new" in
  unescape_text (escape_prompt prompt) = lit "C:" ++ [BACKSLASH; NL] ++ lit "ew" /\
  unescape_text (escape_prompt prompt) <> prompt.
Proof. cbv zeta. split; by vm_compute. Qed.

(** C1, as amended.  Escaping a prompt as the encoder does and then
    applying the reverse rule of the decoder gives the prompt back whenever
    no backslash of the prompt is followed by the letter n; in particular
    for every prompt made only of backslashes, double quotes and newlines. *)
Theorem escape_round_trip :
  (forall prompt,
     contains [BACKSLASH; 110] prompt = false ->
     unescape_text (escape_prompt prompt) = prompt) /\
  (forall prompt,
     Forall (fun c => c = BACKSLASH \/ c = QUOTE \/ c = NL) prompt ->
     unescape_text (escape_prompt prompt) = prompt).
Proof.
  split; [exact unescape_escape|].
  intros prompt Hall. apply unescape_escape, pair_absent.
  intros Hin. rewrite Forall_forall in Hall.
  by destruct (Hall _ Hin) as [?|[?|?]].
Qed.

Lemma escape_round_trip_witness :
  let prompt := [BACKSLASH; QUOTE; NL; BACKSLASH; BACKSLASH; NL; QUOTE] in
  unescape_text (escape_prompt (lit "say \hi\ to C:\dir")) = lit "say \hi\ to C:\dir" /\
  unescape_text (escape_prompt prompt) = prompt.
Proof.
  cbv zeta. split.
  - apply (proj1 escape_round_trip). by vm_compute.
  - apply (proj2 escape_round_trip).
    repeat (constructor; [by auto|]). constructor.
Defined.

(** ** The decoder *)

Section ReplaceMore.
Implicit Types (s old new : str) (a c : char).

Lemma replace_nonempty old new s :
  old <> [] -> new <> [] -> s <> [] -> replace old new s <> [].
Proof.
  destruct old as [|a old]; [done|]. destruct s as [|c s]; [done|].
  intros _ Hnew _. unfold replace. cbn [replace_from].
  destruct (startswith (a :: old) (c :: s)); [|done].
  by destruct new.
Qed.

Lemma unescape_text_nonempty s : s <> [] -> unescape_text s <> [].
Proof.
  intros Hs. unfold unescape_text.
  do 3 (apply replace_nonempty; [done|done|]). done.
Qed.

Lemma replace_absent a old new s :
  a ∉ s -> replace (a :: old) new s = s.
Proof.
  unfold replace. induction s as [|c s IH]; [done|].
  intros [Hc Hs]%not_elem_of_cons. cbn [replace_from startswith].
  rewrite (proj2 (N.eqb_neq a c)) by done. cbn [andb].
  by rewrite IH.
Qed.

Lemma unescape_text_plain s : BACKSLASH ∉ s -> unescape_text s = s.
Proof.
  intros Hs. unfold unescape_text.
  rewrite (replace_absent BACKSLASH [110]) by done.
  rewrite (replace_absent BACKSLASH [QUOTE]) by done.
  by rewrite (replace_absent BACKSLASH [BACKSLASH]).
Qed.
End ReplaceMore.

Section Longest.
Implicit Types (texts : list str) (acc b c : str).

Lemma fold_keep_longer texts acc :
  (fold_left keep_longer texts acc = acc
   /\ forall c, c ∈ texts -> (length c <= length acc)%nat)
  \/ ((length acc < length (fold_left keep_longer texts acc))%nat
      /\ first_longest texts (fold_left keep_longer texts acc)).
Proof.
  revert acc. induction texts as [|c texts IH]; intros acc; cbn [fold_left].
  { left. split; [done|]. by intros c ?%elem_of_nil. }
  destruct (Nat.ltb_spec (length acc) (length c)) as [Hlt|Hge].
  - assert (keep_longer acc c = c) as ->.
    { unfold keep_longer. by apply Nat.ltb_lt in Hlt as ->. }
    right. destruct (IH c) as [[E Hall]|[Hlt' (pre & post & E & Hpre & Hpost)]].
    + rewrite E. split; [done|]. exists [], texts. split; [done|].
      split; [by intros ? ?%elem_of_nil|done].
    + split; [lia|]. exists (c :: pre), post. split; [by rewrite E at 1|].
      split; [|done]. intros x [->|?]%elem_of_cons; auto.
  - assert (keep_longer acc c = acc) as ->.
    { unfold keep_longer. by apply Nat.ltb_ge in Hge as ->. }
    destruct (IH acc) as [[E Hall]|[Hlt' (pre & post & E & Hpre & Hpost)]].
    + left. split; [done|]. intros x [->|?]%elem_of_cons; auto.
    + right. split; [done|]. exists (c :: pre), post.
      split; [by rewrite E at 1|].
      split; [|done]. intros x [->|?]%elem_of_cons; [lia|auto].
Qed.

Lemma best_cases texts :
  (best texts = [] /\ forall c, c ∈ texts -> c = [])
  \/ (best texts <> [] /\ first_longest texts (best texts)).
Proof.
  unfold best. destruct (fold_keep_longer texts []) as [[E Hall]|[Hlt Hfl]].
  - left. split; [done|]. intros c Hc. apply Hall in Hc.
    destruct c; [done|cbn in Hc; lia].
  - right. split; [|done]. intros E. rewrite E in Hlt. cbn in Hlt. lia.
Qed.

Lemma first_longest_elem texts b : first_longest texts b -> b ∈ texts.
Proof. intros (pre & post & -> & _). set_solver. Qed.

Lemma first_longest_max texts b c :
  first_longest texts b -> c ∈ texts -> (length c <= length b)%nat.
Proof.
  intros (pre & post & -> & Hpre & Hpost).
  intros [?|[->|?]%elem_of_cons]%elem_of_app; [|done|auto].
  apply Nat.lt_le_incl. auto.
Qed.

Lemma best_max texts c : c ∈ texts -> (length c <= length (best texts))%nat.
Proof.
  intros Hc. destruct (best_cases texts) as [[_ Hall]|[_ Hfl]].
  - rewrite (Hall c Hc). cbn. lia.
  - by eapply first_longest_max.
Qed.

Lemma best_elem texts : best texts <> [] -> best texts ∈ texts.
Proof.
  intros Hne. destruct (best_cases texts) as [[? _]|[_ Hfl]]; [done|].
  by eapply first_longest_elem.
Qed.
End Longest.

Section DecoderFacts.
Context `{Runtime}.

Lemma keep_longer_nil full : keep_longer full [] = full.
Proof. unfold keep_longer. by destruct full. Qed.

Lemma frame_step_from_empty full line :
  frame_step full line =
  match frame_step [] line with
  | Ok t => Ok (keep_longer full t)
  | Raise e => Raise e
  end.
Proof.
  unfold frame_step.
  repeat step_exc; rewrite ?keep_longer_nil; try done.
  all: unfold keep_longer; cbn [length] in *.
  all: repeat case_match; try done.
  all: repeat match goal with
         | E : (_ <? _)%nat = true |- _ => apply Nat.ltb_lt in E
         | E : (_ <? _)%nat = false |- _ => apply Nat.ltb_ge in E
         end; lia.
Qed.

Lemma loop_body_keeps_longer full line :
  loop_body full line = Ok (keep_longer full (candidate line)).
Proof.
  unfold candidate, loop_body.
  destruct (bool_decide (line = []) || startswith (lit ")]}") line).
  - by rewrite keep_longer_nil.
  - rewrite (frame_step_from_empty full line).
    destruct (frame_step [] line); cbn [try_except]; [done|].
    by rewrite keep_longer_nil.
Qed.

Lemma for_lines_fold lines full :
  for_lines lines full = Ok (fold_left keep_longer (candidate <$> lines) full).
Proof.
  revert full. induction lines as [|line lines IH]; intros full; [done|].
  cbn [for_lines fmap list_fmap fold_left].
  rewrite loop_body_keeps_longer. cbn [exc_bind]. apply IH.
Qed.

Lemma data_frame_step line t : data_frame line t -> frame_step [] line = Ok t.
Proof.
  intros (Hne & Hpre & Hdig & items & d0 & inner & parsed & content & first_item
          & rid & text_array & Hl & Hi & Htag & Hinner & Hin & Hp & Hc & Hf
          & Hrid & Hrc & Hta & Ht).
  unfold frame_step. rewrite Hdig, Hl. cbn [exc_bind].
  destruct items as [|x items]; [done|]. cbn -[lit] in Hi. injection Hi as ->.
  destruct d0 as [|tag [|y [|z d0]]]; try done.
  cbn -[lit] in Htag, Hinner. injection Htag as ->. injection Hinner as ->.
  cbn -[lit]. unfold Py.eqb. rewrite bool_decide_eq_true_2 by done. cbn -[lit].
  rewrite bool_decide_eq_false_2 by done. cbn -[lit]. rewrite Hp.
  destruct parsed as [|p0 [|p1 [|p2 [|p3 [|p4 parsed]]]]]; try done.
  cbn -[lit] in Hc. injection Hc as ->.
  destruct content as [|c0 content]; [done|]. cbn -[lit] in Hf. injection Hf as ->.
  destruct first_item as [|f0 [|f1 first_item]]; try done.
  cbn -[lit] in Hrid, Hta. injection Hrid as ->. injection Hta as ->.
  destruct text_array as [|t0 text_array]; [done|]. cbn -[lit] in Ht. injection Ht as ->.
  cbn -[lit]. rewrite Hrc. cbn.
  by destruct t.
Qed.

Lemma data_frame_candidate line t : data_frame line t -> candidate line = t.
Proof.
  intros Hdf. pose proof Hdf as (Hne & Hpre & _).
  unfold candidate, loop_body.
  rewrite Hpre, orb_false_r. rewrite bool_decide_eq_false_2 by done.
  by rewrite (data_frame_step line t Hdf).
Qed.

Lemma and_then_true a b : and_then a b = Ok true -> a = true /\ b = Ok true.
Proof. by destruct a. Qed.

Lemma eq_str_true v s : eq_str v s = true -> v = VStr s.
Proof.
  destruct v; try done. cbn. unfold Py.eqb.
  by intros ->%bool_decide_eq_true.
Qed.

Lemma getitem_list l i x : getitem (VList l) i = Ok x -> l !! i = Some x.
Proof. cbn. by destruct (l !! i); intros [= <-]. Qed.

Lemma candidate_data_frame line :
  candidate line <> [] -> data_frame line (candidate line).
Proof.
  unfold candidate, loop_body.
  destruct (bool_decide (line = [])) eqn:Hline; [done|].
  destruct (startswith (lit ")]}") line) eqn:Hpre; [done|].
  apply bool_decide_eq_false in Hline. cbn [orb].
  destruct (frame_step [] line) as [t|] eqn:Hstep; cbn [try_except]; [|done].
  intros Hne. split; [done|]. split; [done|].
  revert Hstep. unfold frame_step.
  repeat step_exc; intros [= <-]; try done.
  repeat match goal with
         | E : and_then _ _ = Ok true |- _ =>
             apply and_then_true in E; destruct E as [? ?]
         | E : eq_str _ _ = true |- _ => apply eq_str_true in E
         end.
  subst.
  repeat match goal with
         | E : isinstance_list ?v = true |- _ => destruct v; try discriminate E; clear E
         | E : exc_bind (Ok _) _ = _ |- _ => cbn [exc_bind] in E
         | E : Ok _ = Ok _ |- _ => injection E as E
         end.
  repeat match goal with
         | E : getitem (VList _) _ = Ok _ |- _ => apply getitem_list in E
         end.
  destruct a1 as [| | | |s0|d0|]; try discriminate E2.
  { cbn -[lit] in E2. destruct (s0 !! 0%nat); [|done].
    by injection E2 as E2. }
  apply getitem_list in E2, E4.
  destruct a4 as [| | | |inner| |]; try discriminate E5.
  cbn in E5, E20. apply negb_true_iff, bool_decide_eq_false in E20.
  destruct a11 as [| | | |rid| |]; try discriminate E24.
  split; [done|]. by eexists _, _, _, _, _, _, _, _.
Qed.

Lemma parse_decode response_text :
  parse_streaming_response response_text = Ok (decode response_text).
Proof.
  unfold parse_streaming_response, decode, lines_of, best.
  rewrite for_lines_fold. cbn [exc_bind].
  destruct (bool_decide_reflect
              (fold_left keep_longer
                 (candidate <$> split NL (strip response_text)) [] = []))
    as [E|E]; cbn [negb].
  - by rewrite bool_decide_eq_true_2.
  - by rewrite bool_decide_eq_false_2 by by apply unescape_text_nonempty.
Qed.
End DecoderFacts.

(** ** The streaming decoder *)

Section DecoderClaims.
Context `{Runtime}.

Lemma not_frame_candidate line :
  (forall t, ~ data_frame line t) -> candidate line = [].
Proof.
  intros Hno. destruct (candidate line) as [|c t] eqn:E; [done|].
  destruct (Hno (c :: t)). rewrite <- E. apply candidate_data_frame.
  by rewrite E.
Qed.

Lemma best_of_lines response_text :
  (decode response_text = None
   /\ forall line t, line ∈ lines_of response_text -> data_frame line t -> t = [])
  \/ (exists pre line post t,
        lines_of response_text = pre ++ line :: post /\
        data_frame line t /\ t <> [] /\
        (forall l t', l ∈ pre -> data_frame l t' -> (length t' < length t)%nat) /\
        (forall l t', l ∈ post -> data_frame l t' -> (length t' <= length t)%nat) /\
        best (candidate <$> lines_of response_text) = t /\
        decode response_text = Some (unescape_text t)).
Proof.
  unfold decode.
  destruct (best_cases (candidate <$> lines_of response_text))
    as [[E Hall]|[Hne (pre & post & E & Hpre & Hpost)]].
  - left. rewrite E. split; [done|]. intros line t Hin Hdf.
    apply data_frame_candidate in Hdf as <-. apply Hall.
    by apply list_elem_of_fmap_2.
  - right. rewrite bool_decide_eq_false_2 by done.
    revert Hne E Hpre Hpost.
    generalize (best (candidate <$> lines_of response_text)). intros b Hne E Hpre Hpost.
    apply fmap_app_inv in E as (lpre & rest & -> & E & Hlines).
    symmetry in E. apply fmap_cons_inv in E as (line & lpost & -> & -> & ->).
    exists lpre, line, lpost, (candidate line).
    split; [done|]. split; [by apply candidate_data_frame|].
    split; [done|].
    split; [|split; [|done]].
    + intros l t' Hin Hdf. apply data_frame_candidate in Hdf as <-.
      apply Hpre. by apply list_elem_of_fmap_2.
    + intros l t' Hin Hdf. apply data_frame_candidate in Hdf as <-.
      apply Hpost. by apply list_elem_of_fmap_2.
Qed.

Lemma best_candidate_line lines :
  best (candidate <$> lines) <> [] ->
  exists line, line ∈ lines /\ data_frame line (best (candidate <$> lines)).
Proof.
  intros Hne. pose proof (best_elem _ Hne) as Hel.
  apply list_elem_of_fmap in Hel as (line & E & Hin).
  exists line. split; [done|]. rewrite E. apply candidate_data_frame.
  by rewrite <- E.
Qed.

Lemma best_bounds_frames lines l t :
  l ∈ lines -> data_frame l t ->
  (length t <= length (best (candidate <$> lines)))%nat.
Proof.
  intros Hin Hdf. apply data_frame_candidate in Hdf as <-.
  apply best_max. by apply list_elem_of_fmap_2.
Qed.

Lemma best_subset lines lines' :
  (forall l, l ∈ lines -> l ∈ lines') ->
  (length (best (candidate <$> lines)) <= length (best (candidate <$> lines')))%nat.
Proof.
  intros Hsub.
  destruct (decide (best (candidate <$> lines) = [])) as [->|Hne]; [cbn; lia|].
  destruct (best_candidate_line _ Hne) as (line & Hin & Hdf).
  eapply best_bounds_frames; eauto.
Qed.

Lemma best_permutation lines lines' :
  lines ≡ₚ lines' -> ties_agree lines ->
  best (candidate <$> lines) = best (candidate <$> lines').
Proof.
  intros Hperm Hties.
  assert (length (best (candidate <$> lines))
          = length (best (candidate <$> lines'))) as Hlen.
  { apply Nat.le_antisymm; apply best_subset; intros l; by rewrite Hperm. }
  destruct (decide (best (candidate <$> lines) = [])) as [E|Hne].
  { rewrite E in Hlen |- *. symmetry. by apply nil_length_inv. }
  assert (best (candidate <$> lines') <> []) as Hne'.
  { intros E. rewrite E in Hlen. by apply nil_length_inv in Hlen. }
  destruct (best_candidate_line _ Hne) as (l1 & Hin1 & Hdf1).
  destruct (best_candidate_line _ Hne') as (l2 & Hin2 & Hdf2).
  rewrite <- Hperm in Hin2.
  apply (Hties l1 _ l2 _ Hin1 Hin2 Hdf1 Hdf2); [|done].
  intros l t. apply best_bounds_frames.
Qed.

Lemma best_growing lines lines' :
  (forall l, l ∈ lines -> l ∈ lines') -> growing lines' ->
  best (candidate <$> lines) `prefix_of` best (candidate <$> lines').
Proof.
  intros Hsub Hgrow. pose proof (best_subset _ _ Hsub) as Hlen.
  destruct (decide (best (candidate <$> lines) = [])) as [->|Hne].
  { apply prefix_nil. }
  assert (best (candidate <$> lines') <> []) as Hne'.
  { intros E. rewrite E in Hlen. cbn in Hlen.
    destruct (best (candidate <$> lines)); [done|cbn in Hlen; lia]. }
  destruct (best_candidate_line _ Hne) as (l1 & Hin1 & Hdf1).
  destruct (best_candidate_line _ Hne') as (l2 & Hin2 & Hdf2).
  destruct (Hgrow l1 _ l2 _ (Hsub _ Hin1) Hin2 Hdf1 Hdf2) as [?|Hrev]; [done|].
  pose proof (prefix_length _ _ Hrev).
  rewrite (prefix_length_eq _ _ Hrev) by lia. done.
Qed.

Lemma loop_result lines : for_lines lines [] = Ok (best (candidate <$> lines)).
Proof. apply for_lines_fold. Qed.
End DecoderClaims.

Section DecoderChecks.
Context `{Runtime}.

Lemma startswith_prefix (p s : str) : startswith p s = true <-> p `prefix_of` s.
Proof.
  revert s. induction p as [|a p IH]; intros s; cbn.
  { split; [intros _; apply prefix_nil|done]. }
  destruct s as [|c s]; [split; [done|by intros ?%prefix_nil_inv]|].
  rewrite andb_true_iff, N.eqb_eq, IH. split.
  - intros [-> ?]. by apply prefix_cons.
  - intros Hp. split; [by apply prefix_cons_inv_1 in Hp|by apply prefix_cons_inv_2 in Hp].
Qed.

Lemma ties_agree_check lines :
  ties_agree_texts (candidate <$> lines) = true -> ties_agree lines.
Proof.
  unfold ties_agree_texts. intros Hchk l1 t1 l2 t2 Hin1 Hin2 Hdf1 Hdf2 _ Hlen.
  apply data_frame_candidate in Hdf1, Hdf2.
  rewrite forallb_forall in Hchk.
  assert (List.In t1 (candidate <$> lines)) as H1.
  { apply list_elem_of_In. rewrite <- Hdf1. by apply list_elem_of_fmap_2. }
  assert (List.In t2 (candidate <$> lines)) as H2.
  { apply list_elem_of_In. rewrite <- Hdf2. by apply list_elem_of_fmap_2. }
  specialize (Hchk _ H1). rewrite forallb_forall in Hchk. specialize (Hchk _ H2).
  rewrite Hlen, Nat.eqb_refl in Hchk. cbn in Hchk.
  by apply bool_decide_eq_true in Hchk.
Qed.

Lemma growing_check lines :
  growing_texts (candidate <$> lines) = true -> growing lines.
Proof.
  unfold growing_texts. intros Hchk l1 t1 l2 t2 Hin1 Hin2 Hdf1 Hdf2.
  apply data_frame_candidate in Hdf1, Hdf2.
  rewrite forallb_forall in Hchk.
  assert (List.In t1 (candidate <$> lines)) as H1.
  { apply list_elem_of_In. rewrite <- Hdf1. by apply list_elem_of_fmap_2. }
  assert (List.In t2 (candidate <$> lines)) as H2.
  { apply list_elem_of_In. rewrite <- Hdf2. by apply list_elem_of_fmap_2. }
  specialize (Hchk _ H1). rewrite forallb_forall in Hchk. specialize (Hchk _ H2).
  apply orb_true_iff in Hchk as [?|?]; [left|right]; by apply startswith_prefix.
Qed.

Lemma plain_check lines :
  forallb (fun t => negb (bool_decide (BACKSLASH ∈ t))) (candidate <$> lines) = true ->
  forall l t, l ∈ lines -> data_frame l t -> BACKSLASH ∉ t.
Proof.
  intros Hchk l t Hin Hdf. apply data_frame_candidate in Hdf.
  rewrite forallb_forall in Hchk.
  assert (List.In t (candidate <$> lines)) as H1.
  { apply list_elem_of_In. rewrite <- Hdf. by apply list_elem_of_fmap_2. }
  apply Hchk in H1. by apply negb_true_iff, bool_decide_eq_false in H1.
Qed.

Lemma no_frame_check line : candidate line = [] -> forall t, data_frame line t -> t = [].
Proof. intros E t Hdf. by apply data_frame_candidate in Hdf as <-. Qed.
End DecoderChecks.

(** ** Claims about the streaming decoder *)

(** C2, as amended.  The decoder returns the unescaped form of the first
    text of greatest length among the reply lines of the body, and absence
    when no reply line carries a non-empty text.  Permuting the lines leaves
    the result unchanged provided the texts of greatest length are all the
    same text. *)
Theorem first_longest_text_wins `{Runtime} :
  (forall response_text,
     (parse_streaming_response response_text = Ok None /\
      forall line t,
        line ∈ lines_of response_text -> data_frame line t -> t = [])
     \/
     (exists pre line post t,
        lines_of response_text = pre ++ line :: post /\
        data_frame line t /\ t <> [] /\
        (forall l t', l ∈ pre -> data_frame l t' -> (length t' < length t)%nat) /\
        (forall l t', l ∈ post -> data_frame l t' -> (length t' <= length t)%nat) /\
        parse_streaming_response response_text = Ok (Some (unescape_text t))))
  /\
  (forall body body',
     lines_of body ≡ₚ lines_of body' ->
     ties_agree (lines_of body) ->
     parse_streaming_response body = parse_streaming_response body').
Proof.
  split.
  - intros response_text. rewrite parse_decode.
    destruct (best_of_lines response_text)
      as [[-> Hall]|(pre & line & post & t & ? & ? & ? & ? & ? & _ & ->)].
    + by left.
    + right. by exists pre, line, post, t.
  - intros body body' Hperm Hties. rewrite !parse_decode. unfold decode.
    by rewrite (best_permutation _ _ Hperm Hties).
Qed.

(** C2 as stated fails: two reply lines carrying different texts of the
    same length are decoded to the text of whichever comes first. *)
Lemma permuted_lines_change_the_text :
  let body := frame_line "ab" ++ [NL] ++ frame_line "cd" in
  let body' := frame_line "cd" ++ [NL] ++ frame_line "ab" in
  lines_of body ≡ₚ lines_of body' /\
  @parse_streaming_response reference body = Ok (Some (lit "ab")) /\
  @parse_streaming_response reference body' = Ok (Some (lit "cd")) /\
  @parse_streaming_response reference body
  <> @parse_streaming_response reference body'.
Proof.
  cbv zeta. split; [|split; [|split]].
  - vm_compute. apply perm_swap.
  - by vm_compute.
  - by vm_compute.
  - by vm_compute.
Qed.

Lemma first_longest_text_wins_witness :
  let body := lit "5" ++ [NL] ++ frame_line "Hel" ++ [NL] ++ frame_line "Hello world" in
  let body' := frame_line "Hello world" ++ [NL] ++ lit "5" ++ [NL] ++ frame_line "Hel" in
  lines_of body ≡ₚ lines_of body' /\
  @ties_agree reference (lines_of body) /\
  @parse_streaming_response reference body
  = @parse_streaming_response reference body'.
Proof.
  cbv zeta.
  assert (lines_of (lit "5" ++ [NL] ++ frame_line "Hel" ++ [NL] ++ frame_line "Hello world")
          ≡ₚ lines_of (frame_line "Hello world" ++ [NL] ++ lit "5" ++ [NL] ++ frame_line "Hel"))
    as Hperm.
  { vm_compute. etrans; [apply perm_skip, perm_swap|apply perm_swap]. }
  assert (@ties_agree reference
            (lines_of (lit "5" ++ [NL] ++ frame_line "Hel" ++ [NL] ++ frame_line "Hello world")))
    as Hties.
  { apply ties_agree_check. by vm_compute. }
  split; [exact Hperm|]. split; [exact Hties|].
  exact (proj2 (@first_longest_text_wins reference) _ _ Hperm Hties).
Defined.

(** C4, as amended.  Decoding is a function of the body alone.  When every
    line of a shorter stream is a line of the full stream, the text the loop
    selects from the shorter stream is never longer than the one selected
    from the full stream; it is a prefix of it when the texts of the full
    stream are prefixes of one another, and the returned texts are then in
    the same relation if none of them contains a backslash. *)
Theorem earlier_point_of_a_growing_stream `{Runtime} :
  (forall body r1 r2,
     parse_streaming_response body = r1 -> parse_streaming_response body = r2 ->
     r1 = r2)
  /\
  (forall sub full,
     (forall line, line ∈ lines_of sub -> line ∈ lines_of full) ->
     (forall a b,
        for_lines (lines_of sub) [] = Ok a -> for_lines (lines_of full) [] = Ok b ->
        (length a <= length b)%nat) /\
     (growing (lines_of full) ->
      (forall a b,
         for_lines (lines_of sub) [] = Ok a -> for_lines (lines_of full) [] = Ok b ->
         a `prefix_of` b) /\
      ((forall l t, l ∈ lines_of full -> data_frame l t -> BACKSLASH ∉ t) ->
       forall a,
         parse_streaming_response sub = Ok (Some a) ->
         exists b, parse_streaming_response full = Ok (Some b) /\ a `prefix_of` b))).
Proof.
  split; [by intros body r1 r2 <- <-|].
  intros sub full Hsub. split.
  { intros a b. rewrite !loop_result. intros [= <-] [= <-]. by apply best_subset. }
  intros Hgrow. pose proof (best_growing _ _ Hsub Hgrow) as Hpre. split.
  { intros a b. rewrite !loop_result. by intros [= <-] [= <-]. }
  intros Hplain a. rewrite !parse_decode. unfold decode.
  case_bool_decide as Hs; [done|]. intros [= <-].
  assert (best (candidate <$> lines_of full) <> []) as Hf.
  { intros E. rewrite E in Hpre. by apply prefix_nil_inv in Hpre. }
  rewrite bool_decide_eq_false_2 by done.
  destruct (best_candidate_line _ Hf) as (l & Hin & Hdf).
  pose proof (Hplain _ _ Hin Hdf) as Hb.
  eexists. split; [done|].
  rewrite (unescape_text_plain (best (candidate <$> lines_of full))) by done.
  rewrite unescape_text_plain; [done|].
  intros Hin'. apply Hb. destruct Hpre as [k ->]. set_solver.
Qed.

(** C4 as stated fails: the text decoded from the first line alone need not
    be a prefix of the text decoded from the whole stream. *)
Lemma earlier_point_not_a_prefix :
  let full := frame_line "abc" ++ [NL] ++ frame_line "xyzw" in
  let sub := frame_line "abc" in
  lines_of sub `prefix_of` lines_of full /\
  @parse_streaming_response reference sub = Ok (Some (lit "abc")) /\
  @parse_streaming_response reference full = Ok (Some (lit "xyzw")) /\
  ~ lit "abc" `prefix_of` lit "xyzw".
Proof.
  cbv zeta. split; [|split; [|split]].
  - vm_compute. by eexists [_].
  - by vm_compute.
  - by vm_compute.
  - intros Hp. apply startswith_prefix in Hp. by vm_compute in Hp.
Qed.

Lemma earlier_point_of_a_growing_stream_witness :
  let full := frame_line "Hel" ++ [NL] ++ frame_line "Hello world" in
  let sub := frame_line "Hel" in
  exists b, @parse_streaming_response reference full = Ok (Some b)
            /\ lit "Hel" `prefix_of` b.
Proof.
  cbv zeta.
  refine (proj2 (proj2 (proj2 (@earlier_point_of_a_growing_stream reference)
                          (frame_line "Hel")
                          (frame_line "Hel" ++ [NL] ++ frame_line "Hello world") _) _)
            _ (lit "Hel") _).
  - intros line Hin. vm_compute in Hin. vm_compute.
    apply list_elem_of_singleton in Hin as ->. apply list_elem_of_here.
  - apply growing_check. by vm_compute.
  - apply plain_check. by vm_compute.
  - by vm_compute.
Defined.

(** C5.  The two-line body [5], then the reply line carrying [Hello], is
    decoded to [Hello]. *)
Theorem decodes_hello :
  @parse_streaming_response reference
    (lit "5" ++ [NL]
     ++ q "[[`wrb.fr`,null,`[1,1,1,1,[[\`rc_1\`,[\`Hello\`]]]]`]]" ++ [NL])
  = Ok (Some (lit "Hello")).
Proof. by vm_compute. Qed.

(** C6.  The decoder never raises: every body is decoded to a text or to
    absence.  A line that is not a reply line, be it because it cannot be
    read as JSON, because reading it raises in any other way, or because its
    shape or its tags are wrong, leaves the running text as it is, so
    that the result is the one of the body without that line. *)
Theorem decoder_never_raises `{Runtime} :
  (forall response_text, exists r, parse_streaming_response response_text = Ok r)
  /\
  (forall line full_text,
     (forall t, ~ data_frame line t) -> loop_body full_text line = Ok full_text)
  /\
  (forall line e,
     json_loads line = Raise e \/ frame_step [] line = Raise e ->
     forall t, ~ data_frame line t)
  /\
  (forall body body' before line after,
     lines_of body = before ++ line :: after ->
     lines_of body' = before ++ after ->
     (forall t, ~ data_frame line t) ->
     parse_streaming_response body = parse_streaming_response body').
Proof.
  split; [|split; [|split]].
  - intros response_text. eexists. apply parse_decode.
  - intros line full_text Hno. rewrite loop_body_keeps_longer.
    by rewrite (not_frame_candidate line Hno), keep_longer_nil.
  - intros line e [Hjson|Hstep] t Hdf.
    + destruct Hdf as (_ & _ & _ & items & ? & ? & ? & ? & ? & ? & ? & Hl & _).
      by rewrite Hjson in Hl.
    + apply data_frame_step in Hdf. by rewrite Hstep in Hdf.
  - intros body body' before line after Hb Hb' Hno. rewrite !parse_decode.
    unfold decode, best. rewrite Hb, Hb', !fmap_app, fmap_cons, !fold_left_app.
    cbn [fold_left]. by rewrite (not_frame_candidate line Hno), keep_longer_nil.
Qed.

Lemma decoder_never_raises_witness :
  let garbage := q "{`wrb.fr`: [truncated" in
  Json.loads garbage = Raise JSONDecodeError /\
  @parse_streaming_response reference
    (frame_line "Hel" ++ [NL] ++ garbage ++ [NL] ++ frame_line "Hello")
  = @parse_streaming_response reference
      (frame_line "Hel" ++ [NL] ++ frame_line "Hello").
Proof.
  cbv zeta.
  assert (Json.loads (q "{`wrb.fr`: [truncated") = Raise JSONDecodeError) as Hjson
    by by vm_compute.
  split; [exact Hjson|].
  destruct (@decoder_never_raises reference) as (_ & _ & Hnot & Hskip).
  apply (Hskip _ _ [frame_line "Hel"] (q "{`wrb.fr`: [truncated") [frame_line "Hello"]).
  - by vm_compute.
  - by vm_compute.
  - apply (Hnot _ JSONDecodeError). left. exact Hjson.
Defined.

(** C10.  When the only texts carried by the reply lines of a body are
    empty, the decoder returns absence, as it does for a body without any
    reply line: the two cannot be told apart from the result. *)
Theorem empty_text_is_absence `{Runtime} response_text :
  (forall line t, line ∈ lines_of response_text -> data_frame line t -> t = []) ->
  parse_streaming_response response_text = Ok None.
Proof.
  intros Hall. rewrite parse_decode.
  destruct (best_of_lines response_text)
    as [[-> _]|(pre & line & post & t & Hl & Hdf & Hne & _)]; [done|].
  destruct Hne. apply (Hall line); [|done]. rewrite Hl. set_solver.
Qed.

Lemma empty_text_is_absence_witness :
  (exists line, line ∈ lines_of (frame_line "") /\ @data_frame reference line [])
  /\ @parse_streaming_response reference (frame_line "") = Ok None
  /\ @parse_streaming_response reference (lit "no reply line here") = Ok None.
Proof.
  split; [|split].
  - exists (frame_line ""). split; [vm_compute; apply list_elem_of_here|].
    split; [by vm_compute|]. split; [by vm_compute|]. split; [by vm_compute|].
    eexists _, _, _, _, _, _, _, _.
    repeat split; try (vm_compute; reflexivity). by vm_compute.
  - apply (@empty_text_is_absence reference). intros line t Hin.
    vm_compute in Hin. apply list_elem_of_singleton in Hin as ->.
    by apply (@no_frame_check reference).
  - apply (@empty_text_is_absence reference). intros line t Hin.
    vm_compute in Hin. apply list_elem_of_singleton in Hin as ->.
    by apply (@no_frame_check reference).
Defined.

(** ** Patterns, the token and the parameters *)

Section RegexFacts.
Context `{Runtime}.
Implicit Types (r : regex) (s opened captured : str).

Lemma repetition_done {A} p lazy (cont : str -> option A) s :
  repetition p lazy cont 0 (Some 0%nat) s = cont s.
Proof.
  destruct s as [|c s]; cbn [repetition]; rewrite ?andb_false_r;
    destruct lazy; by destruct (cont _).
Qed.

Lemma match_one ic k r opened captured s :
  match_here ic (one k :: r) opened captured s =
  match s with
  | c :: s' => if cls_match ic k c then match_here ic r opened captured s' else None
  | [] => None
  end.
Proof.
  cbn [match_here one]. destruct s as [|c s]; [done|].
  cbn [repetition]. destruct (cls_match ic k c); [|done]. cbn.
  rewrite repetition_done. by destruct (match_here ic r opened captured s).
Qed.

Lemma match_literal l r opened captured s :
  match_here true (literal l ++ r) opened captured s =
  if startswith_ci l s then match_here true r opened captured (drop (length l) s)
  else None.
Proof.
  revert s. induction l as [|k l IH]; intros s; [done|].
  change (literal (k :: l) ++ r) with (one (Lit k) :: (literal l ++ r)).
  rewrite match_one. destruct s as [|c s]; [done|].
  cbn [startswith_ci cls_match length drop].
  destruct (ci_match k c); [apply IH|done].
Qed.

(** A greedy repetition takes the whole run of characters of its class
    when what follows the run lets the rest of the pattern match. *)
Lemma repetition_greedy_run {A} p (cont : str -> option A) lo run x rest res :
  Forall (fun c => p c = true) run -> p x = false ->
  (lo <= length run)%nat -> cont (x :: rest) = Some res ->
  repetition p false cont lo None (run ++ x :: rest) = Some res.
Proof.
  intros Hrun Hx. revert lo. induction Hrun as [|c run Hc Hrun IH]; intros lo Hlo Hcont.
  - cbn [app repetition]. rewrite Hx. cbn. destruct lo; [done|cbn in Hlo; lia].
  - cbn [app repetition]. rewrite Hc. cbn [andb fmap option_fmap option_map].
    rewrite IH; [done| |done]. cbn in Hlo. lia.
Qed.

Lemma ci_match_refl k : ci_match k k = true.
Proof. unfold ci_match. by rewrite N.eqb_refl. Qed.

Lemma startswith_ci_self l s : startswith_ci l (l ++ s) = true.
Proof. induction l as [|k l IH]; [done|]. cbn. by rewrite ci_match_refl. Qed.

Lemma startswith_ci_app_false k1 k2 s :
  startswith_ci k1 s = false -> startswith_ci (k1 ++ k2) s = false.
Proof.
  revert s. induction k1 as [|k k1 IH]; intros s; [done|].
  destruct s as [|c s]; [done|]. cbn.
  intros [->|?]%andb_false_iff; [done|]. rewrite IH by done. apply andb_false_r.
Qed.

(** A key that is not at the head of [pre] is not at the head of [pre]
    followed by a character none of its own characters matches. *)
Lemma startswith_ci_extend key pre x rest :
  startswith_ci key pre = false ->
  forallb (fun k => negb (ci_match k x)) key = true ->
  startswith_ci key (pre ++ x :: rest) = false.
Proof.
  revert pre. induction key as [|k key IH]; intros pre; [done|].
  cbn [forallb]. intros Hpre [Hk Hkey]%andb_true_iff.
  destruct pre as [|c pre]; cbn.
  - apply negb_true_iff in Hk. by rewrite Hk.
  - cbn in Hpre. apply andb_false_iff in Hpre as [->|Hpre]; [done|].
    rewrite IH by done. apply andb_false_r.
Qed.

(** The pattern for a quoted field matches at the field and captures its
    value. *)
Lemma quoted_field_here key token rest :
  Forall (fun c => c <> QUOTE) token -> token <> [] ->
  match_here true (quoted_field QUOTE key) [] []
    ([QUOTE] ++ lit key ++ [QUOTE; 58; QUOTE] ++ token ++ [QUOTE] ++ rest)
  = Some (token, rest).
Proof.
  intros Htok Hne. unfold quoted_field.
  replace ([QUOTE] ++ lit key ++ [QUOTE; 58; QUOTE] ++ token ++ [QUOTE] ++ rest)
    with (([QUOTE] ++ lit key ++ [QUOTE; 58; QUOTE]) ++ token ++ [QUOTE] ++ rest)
    by (by rewrite <- !app_assoc).
  rewrite match_literal, startswith_ci_self.
  rewrite drop_app_length. cbn [app match_here plus].
  erewrite repetition_greedy_run; [done| | | |].
  - eapply Forall_impl; [exact Htok|]. intros c Hc.
    cbn [cls_match existsb atom_match]. rewrite orb_false_r.
    apply negb_true_iff, N.eqb_neq. congruence.
  - done.
  - destruct token; [done|cbn; lia].
  - cbn [match_here]. rewrite length_app. cbn [length].
    replace (length token + S (length rest) - S (length rest))%nat
      with (length token) by lia.
    rewrite take_app_length. change (literal [QUOTE]) with [one (Lit QUOTE)].
    rewrite match_one. cbn [cls_match]. by rewrite ci_match_refl.
Qed.

(** It matches nowhere in a text that does not hold the key, up to the
    field that follows the text. *)
Lemma quoted_field_not_before key c pre rest :
  contains_ci (lit key) pre = false ->
  forallb (fun k => negb (ci_match k QUOTE)) (lit key) = true ->
  match_here true (quoted_field QUOTE key) [] [] (c :: pre ++ QUOTE :: rest) = None.
Proof.
  intros Hpre Hkey. unfold quoted_field.
  rewrite match_literal.
  cbn [app startswith_ci].
  rewrite startswith_ci_app_false; [by rewrite andb_false_r|].
  apply startswith_ci_extend; [|done].
  destruct pre; cbn in Hpre; by apply orb_false_iff in Hpre as [? _].
Qed.

Lemma search_unfold ic r s :
  search ic r s =
  match match_here ic r [] [] s with
  | Some (captured, _) => Some captured
  | None => match s with [] => None | _ :: s' => search ic r s' end
  end.
Proof. by destruct s. Qed.

Lemma search_quoted_field key pre token rest :
  contains_ci (lit key) pre = false ->
  forallb (fun k => negb (ci_match k QUOTE)) (lit key) = true ->
  Forall (fun c => c <> QUOTE) token -> token <> [] ->
  search true (quoted_field QUOTE key)
    (pre ++ [QUOTE] ++ lit key ++ [QUOTE; 58; QUOTE] ++ token ++ [QUOTE] ++ rest)
  = Some token.
Proof.
  intros Hpre Hkey Htok Hne. induction pre as [|c pre IH].
  - rewrite app_nil_l, search_unfold.
    by rewrite (quoted_field_here key token rest Htok Hne).
  - assert (contains_ci (lit key) pre = false) as Hpre'.
    { cbn in Hpre. by apply orb_false_iff in Hpre as [_ ?]. }
    cbn [app]. rewrite search_unfold.
    rewrite (quoted_field_not_before key c pre _ Hpre' Hkey).
    by apply IH.
Qed.
End RegexFacts.

Section TokenExtraction.
Context `{Runtime}.

Lemma first_long_capture_spec patterns html :
  match first_long_capture patterns html with
  | Some token =>
      exists i pattern,
        patterns !! i = Some pattern /\
        search true pattern html = Some token /\
        (20 < length token)%nat /\
        forall j p g,
          (j < i)%nat -> patterns !! j = Some p ->
          search true p html = Some g -> (length g <= 20)%nat
  | None =>
      forall p g,
        p ∈ patterns -> search true p html = Some g -> (length g <= 20)%nat
  end.
Proof.
  induction patterns as [|pattern rest IH]; cbn [first_long_capture].
  { by intros p g ?%elem_of_nil. }
  destruct (search true pattern html) as [token|] eqn:Hs.
  - destruct (Nat.ltb_spec 20 (length token)) as [Hlong|Hshort].
    + exists 0%nat, pattern. repeat split; [done..|]. intros j p g Hj. lia.
    + destruct (first_long_capture rest html) as [t|].
      * destruct IH as (i & p & Hi & Hp & Hlen & Hearlier).
        exists (S i), p. repeat split; [done..|].
        intros [|j] p' g Hj Hp' Hg; cbn in Hp'; [by simplify_eq|].
        eapply Hearlier; [|done..]. lia.
      * intros p g [->|Hin]%elem_of_cons Hg; [by simplify_eq|eauto].
  - destruct (first_long_capture rest html) as [t|].
    + destruct IH as (i & p & Hi & Hp & Hlen & Hearlier).
      exists (S i), p. repeat split; [done..|].
      intros [|j] p' g Hj Hp' Hg; cbn in Hp'; [by simplify_eq|].
      eapply Hearlier; [|done..]. lia.
    + intros p g [->|Hin]%elem_of_cons Hg; [by simplify_eq|eauto].
Qed.

Lemma first_long_capture_first patterns html i pattern token :
  patterns !! i = Some pattern ->
  search true pattern html = Some token ->
  (20 < length token)%nat ->
  (forall j p g,
     (j < i)%nat -> patterns !! j = Some p ->
     search true p html = Some g -> (length g <= 20)%nat) ->
  first_long_capture patterns html = Some token.
Proof.
  revert i. induction patterns as [|p0 rest IH]; intros i Hi Hs Hlen Hearlier.
  { done. }
  destruct i as [|i]; cbn in Hi; cbn [first_long_capture].
  - simplify_eq. rewrite Hs. by apply Nat.ltb_lt in Hlen as ->.
  - assert (first_long_capture rest html = Some token) as Hrest.
    { apply (IH i); [done..|]. intros j p g Hj Hp Hg.
      apply (Hearlier (S j) p g); [lia|done..]. }
    destruct (search true p0 html) as [g|] eqn:Hg; [|done].
    pose proof (Hearlier 0%nat p0 g ltac:(lia) eq_refl Hg) as Hshort.
    by apply Nat.ltb_ge in Hshort as ->.
Qed.

Lemma search_leftmost ic pattern s g :
  search ic pattern s = Some g ->
  exists before rest after,
    s = before ++ rest /\
    match_here ic pattern [] [] rest = Some (g, after) /\
    forall b1 r1,
      s = b1 ++ r1 -> (length b1 < length before)%nat ->
      match_here ic pattern [] [] r1 = None.
Proof.
  induction s as [|c s IH]; rewrite search_unfold.
  - destruct (match_here ic pattern [] [] []) as [[g' after]|] eqn:Hm; [|done].
    intros [= <-]. exists [], [], after. repeat split; [done|].
    intros b1 r1 _ Hlt. cbn in Hlt. lia.
  - destruct (match_here ic pattern [] [] (c :: s)) as [[g' after]|] eqn:Hm.
    + intros [= <-]. exists [], (c :: s), after. repeat split; [done|].
      intros b1 r1 _ Hlt. cbn in Hlt. lia.
    + intros (before & rest & after & -> & Hrest & Hnone)%IH.
      exists (c :: before), rest, after. repeat split; [done|].
      intros [|c' b1] r1 E Hlt; cbn in E.
      * by subst r1.
      * injection E as <- E. apply (Hnone b1 r1 E). cbn in Hlt. lia.
Qed.
End TokenExtraction.

(** ** Claims about the session bootstrapper *)

(** C3.  Token extraction returns the capture of the first pattern of the
    list whose leftmost match captures more than 20 characters, whatever the
    later patterns capture, and nothing when no pattern has such a match.  A
    page that holds the field `SNlM0e`:`abcdEFGH12345678901234`, the key
    occurring nowhere before it, yields that value. *)
Theorem token_is_first_long_capture `{Runtime} :
  (forall html i pattern token,
     snlm0e_patterns !! i = Some pattern ->
     search true pattern html = Some token ->
     (20 < length token)%nat ->
     (forall j p g,
        (j < i)%nat -> snlm0e_patterns !! j = Some p ->
        search true p html = Some g -> (length g <= 20)%nat) ->
     extract_snlm0e_token html = Some token)
  /\
  (forall html,
     (forall p g,
        p ∈ snlm0e_patterns -> search true p html = Some g -> (length g <= 20)%nat) ->
     extract_snlm0e_token html = None)
  /\
  (forall pattern html g,
     search true pattern html = Some g ->
     exists before rest after,
       html = before ++ rest /\
       match_here true pattern [] [] rest = Some (g, after) /\
       forall b1 r1,
         html = b1 ++ r1 -> (length b1 < length before)%nat ->
         match_here true pattern [] [] r1 = None)
  /\
  (forall before after,
     contains_ci (lit "SNlM0e") before = false ->
     extract_snlm0e_token
       (before ++ q "`SNlM0e`:`abcdEFGH12345678901234`" ++ after)
     = Some (lit "abcdEFGH12345678901234")).
Proof.
  split; [|split; [|split]].
  - intros html i pattern token. apply first_long_capture_first.
  - intros html Hnone. unfold extract_snlm0e_token.
    pose proof (first_long_capture_spec snlm0e_patterns html) as Hspec.
    destruct (first_long_capture snlm0e_patterns html) as [token|]; [|done].
    destruct Hspec as (i & p & Hi & Hp & Hlen & _).
    apply list_elem_of_lookup_2 in Hi. specialize (Hnone p token Hi Hp). lia.
  - intros pattern html g. apply search_leftmost.
  - intros before after Hkey.
    apply (first_long_capture_first _ _ 0 (quoted_field QUOTE "SNlM0e")).
    + done.
    + change (q "`SNlM0e`:`abcdEFGH12345678901234`")
        with ([QUOTE] ++ lit "SNlM0e" ++ [QUOTE; 58; QUOTE]
              ++ lit "abcdEFGH12345678901234" ++ [QUOTE]).
      rewrite <- !app_assoc.
      apply (search_quoted_field "SNlM0e" before); [done|by vm_compute| |done].
      apply Forall_forall. intros c Hc. vm_compute in Hc.
      repeat (apply elem_of_cons in Hc as [->|Hc]; [done|]).
      by apply elem_of_nil in Hc.
    + vm_compute. lia.
    + intros j p g Hj. lia.
Qed.

Lemma token_is_first_long_capture_witness :
  @extract_snlm0e_token reference
    (lit "<script>window.WIZ_global_data = {" ++ q "`SNlM0e`:`abcdEFGH12345678901234`"
     ++ q ",`cfb2h`:`boq_assistant`};</script>")
  = Some (lit "abcdEFGH12345678901234").
Proof.
  apply (proj2 (proj2 (proj2 (@token_is_first_long_capture reference)))).
  by vm_compute.
Defined.

Section Parameters.
Context `{Runtime}.

Lemma first_capture_none patterns html :
  (forall p, p ∈ patterns -> search true p html = None) ->
  first_capture patterns html = None.
Proof.
  induction patterns as [|p rest IH]; intros Hnone; [done|].
  cbn [first_capture]. rewrite (Hnone p) by set_solver.
  apply IH. intros p' Hp'. apply Hnone. set_solver.
Qed.
End Parameters.

(** C8.  When no pattern for the build label, for the session id or for the
    request id matches the page, parameter extraction does not fail: it
    returns the fixed build label, the negated clock reading in
    milliseconds, as text, for the session id, and a second clock reading
    modulo 1000000 for the request id. *)
Theorem parameters_default `{Runtime} html w st :
  (forall p, p ∈ bl_patterns -> search true p html = None) ->
  (forall p, p ∈ fsid_patterns -> search true p html = None) ->
  search false reqid_pattern html = None ->
  let t1 := clock_ms w (ticks st) in
  let t2 := clock_ms w (S (ticks st)) in
  extract_build_and_session_params html w st
  = (Ok (<["reqid"%string := VInt (t2 mod 1000000)]>
           (<["fsid"%string := VStr (str_of_int (-1 * t1))]>
              (<["bl"%string :=
                   VStr (lit "boq_assistant-bard-web-server_20251217.07_p5")]> ∅))),
     {| ticks := S (S (ticks st)); draws := draws st; trace := trace st |})
  /\ ((0 < t1)%Z -> str_of_int (-1 * t1) = 45 :: str_of_N (Z.to_N t1))
  /\ (0 <= t2 mod 1000000 < 1000000)%Z.
Proof.
  intros Hbl Hfsid Hreqid t1 t2. split; [|split].
  - unfold extract_build_and_session_params.
    rewrite (first_capture_none _ _ Hbl), (first_capture_none _ _ Hfsid), Hreqid.
    unfold M_bind, ret, lift, time_time, millis, dict_get.
    rewrite lookup_empty. cbn [default truthy negb].
    rewrite lookup_insert_ne by done. rewrite lookup_empty. cbn [default truthy negb].
    rewrite !lookup_insert_ne by done. rewrite lookup_empty. cbn [default truthy negb].
    done.
  - intros Hpos. destruct t1 as [|p|p] eqn:E; try lia.
    reflexivity.
  - apply Z.mod_pos_bound. lia.
Qed.

Lemma parameters_default_witness :
  let html := lit "<html><body>Sign in to continue</body></html>" in
  let w := {| http := fun _ _ => Raise (OtherException []);
              clock_ms := fun n => (1765000000123 + Z.of_nat n)%Z;
              elapsed_text := fun _ _ => [];
              utcnow_isoformat := fun _ => [];
              uuid4_hex := fun _ => [] |} in
  fst (@extract_build_and_session_params reference html w initial)
  = Ok (<["reqid"%string := VInt 124]>
          (<["fsid"%string := VStr (lit "-1765000000123")]>
             (<["bl"%string :=
                  VStr (lit "boq_assistant-bard-web-server_20251217.07_p5")]> ∅))).
Proof.
  cbv zeta.
  refine (eq_trans (f_equal fst (proj1 (@parameters_default reference _ _ initial _ _ _))) _).
  - intros p Hp. vm_compute in Hp.
    repeat (apply elem_of_cons in Hp as [->|Hp]; [by vm_compute|]).
    by apply elem_of_nil in Hp.
  - intros p Hp. vm_compute in Hp.
    repeat (apply elem_of_cons in Hp as [->|Hp]; [by vm_compute|]).
    by apply elem_of_nil in Hp.
  - by vm_compute.
  - reflexivity.
Defined.

(** ** Runs of the orchestrator *)

Section Runs.
Context `{Runtime}.

Lemma truthy_is_Some (p : gmap string value) k :
  truthy (default VNone (p !! k)) = true -> is_Some (p !! k).
Proof. by destruct (p !! k). Qed.

Lemma params_run html w st :
  exists r st',
    extract_build_and_session_params html w st = (r, st') /\
    trace st' = trace st /\ draws st' = draws st /\
    forall params,
      r = Ok params ->
      is_Some (params !! "bl"%string) /\ is_Some (params !! "fsid"%string) /\
      is_Some (params !! "reqid"%string).
Proof.
  unfold extract_build_and_session_params. cbv zeta.
  unfold M_bind at 1, lift at 1.
  destruct (match search false reqid_pattern html with Some _ => _ | None => _ end)
    as [p0|e].
  2: { eexists _, _. split; [reflexivity|]. by repeat split. }
  unfold M_bind, ret, time_time, millis, dict_get.
  destruct (truthy (default VNone (p0 !! "bl"%string))) eqn:E1; cbn [negb];
    match goal with
    | |- context [truthy (default VNone (?p !! "fsid"%string))] =>
        destruct (truthy (default VNone (p !! "fsid"%string))) eqn:E2
    end; cbn [negb];
    match goal with
    | |- context [truthy (default VNone (?p !! "reqid"%string))] =>
        destruct (truthy (default VNone (p !! "reqid"%string))) eqn:E3
    end; cbn [negb];
    eexists _, _; (split; [reflexivity|]); cbn [trace draws];
    (split; [done|]); (split; [done|]); intros params [= <-];
    rewrite ?lookup_insert_ne in E1 by done;
    rewrite ?lookup_insert_ne in E2 by done;
    rewrite ?lookup_insert_ne in E3 by done;
    repeat split;
    rewrite ?lookup_insert_ne by done;
    first [ by apply truthy_is_Some | rewrite lookup_insert_eq; by eexists ].
Qed.

(** Bootstrapping never raises and makes one exchange, the fetch of the
    landing page. *)
Lemma scrape_run w st :
  exists r st',
    scrape_fresh_session w st = (Ok r, st') /\
    trace st' = trace st ++ [HttpGet landing_url landing_headers] /\
    draws st' = draws st.
Proof.
  unfold scrape_fresh_session, try_catch, M_bind, request, lift, ret, dict_item.
  destruct (http w (trace st) (HttpGet landing_url landing_headers)) as [resp|e];
    [|by eexists _, _].
  set (st1 := {| ticks := ticks st; draws := draws st;
                 trace := trace st ++ [HttpGet landing_url landing_headers] |}).
  destruct (absent (extract_snlm0e_token (text resp))) eqn:Habs;
    cbv beta iota; rewrite ?Habs; cbv beta iota.
  - destruct (extract_from_script_tags (text resp)) as [tok|e]; [|by eexists _, _].
    destruct (absent tok); [by eexists _, _|].
    destruct (params_run (text resp) w st1) as (r & st' & -> & Htr & Hdr & Hp).
    destruct r as [params|e]; [|by eexists _, _].
    destruct (Hp _ eq_refl) as ([bl ->] & [fsid ->] & [reqid ->]).
    cbn. by eexists _, _.
  - destruct (params_run (text resp) w st1) as (r & st' & -> & Htr & Hdr & Hp).
    destruct r as [params|e]; [|by eexists _, _].
    destruct (Hp _ eq_refl) as ([bl ->] & [fsid ->] & [reqid ->]).
    cbv beta iota. by eexists _, _.
Qed.

(** The upload, step by step (first half of C9): without the upload
    address in the answer to the handshake, or with a status other than
    200 in the answer to the transfer, the result is absence and no
    exception. *)
Lemma upload_image_run image_bytes mime_type token w st :
  exists st',
    trace st' = trace st ++ upload_events w (trace st) mime_type image_bytes /\
    draws st' = draws st /\
    upload_image image_bytes mime_type token w st =
      (upload_result w (trace st) mime_type image_bytes, st').
Proof.
  unfold upload_events, upload_result.
  unfold upload_image, M_bind, time_time, request, try_catch, ret.
  fold (upload_url mime_type). fold (handshake mime_type). cbn [trace ticks draws].
  destruct (http w (trace st) (handshake mime_type)) as [r1|e]; [|run_done].
  destruct (header_lookup _ _) as [u|]; [|run_done].
  cbn [trace ticks draws]. fold (finalize u image_bytes).
  destruct (http w (trace st ++ [handshake mime_type]) (finalize u image_bytes)) as [r2|e].
  - destruct (status_code r2 =? 200)%Z; cbn [negb]; run_done.
  - run_done.
Qed.

Lemma attach_image_run image_base64 token w st :
  exists r st',
    attach_image image_base64 token w st = (Ok r, st') /\
    draws st' = draws st /\
    ((trace st' = trace st /\ r = None)
     \/ exists mime_type image_bytes,
          trace st' = trace st ++ upload_events w (trace st) mime_type image_bytes /\
          r = kept_image (upload_result w (trace st) mime_type image_bytes)).
Proof.
  unfold attach_image, try_catch, M_bind, lift, ret, raise.
  destruct (if contains [44] image_base64 then _ else _) as [[[encoded mime]|e] st1] eqn:Hparts.
  2: { assert (st1 = st) as ->.
       { revert Hparts. repeat case_match; by intros [= ]. }
       eexists _, _. split; [done|]. split; [done|]. by left. }
  assert (st1 = st) as ->.
  { revert Hparts. repeat case_match; by intros [= ]. }
  cbn [fst snd]. destruct (b64decode encoded) as [image_bytes|e].
  2: { eexists _, _. split; [done|]. split; [done|]. by left. }
  destruct (upload_image_run image_bytes mime token w st) as (st' & Htr & Hdr & ->).
  destruct (upload_result w (trace st) mime image_bytes) as [[[|c s]|]|e] eqn:Hres;
    cbn [absent]; eexists _, _; (split; [done|]); (split; [done|]);
    right; exists mime, image_bytes; rewrite Hres; by split.
Qed.

Lemma build_payload_run prompt token w st :
  build_payload prompt token w st =
  (Ok (text_only_payload w st prompt token),
   {| ticks := ticks st; draws := S (S (draws st)); trace := trace st |}).
Proof. done. Qed.

Lemma build_payload_with_image_run prompt token image_id w st :
  exists r,
    build_payload_with_image prompt token image_id w st =
    (r, {| ticks := ticks st; draws := S (S (draws st)); trace := trace st |}).
Proof.
  unfold build_payload_with_image, M_bind, uuid4, lift, ret. cbn [draws ticks trace].
  destruct (json_loads _); by eexists.
Qed.
End Runs.

Section ChatRun.
Context `{Runtime}.

(** The transmission and what follows it. *)
Lemma transmission_run (post : event) (start_time : nat) w st :
  exists r st',
    try_catch
      (let* response := request post in
       if negb (status_code response =? 200)%Z
       then ret (failure (lit "HTTP " ++ str_of_int (status_code response)))
       else
         let* result := lift (parse_streaming_response (text response)) in
         let* end_time := time_time in
         match result with
         | Some (c :: s) =>
             let result := c :: s in
             let* response_time := elapsed start_time end_time in
             let* now := utcnow in
             ret {[ "success"%string := VBool true;
                    "response"%string := VStr result;
                    "metadata"%string :=
                      VDict
                        [ (lit "response_time", VStr (response_time ++ lit "s"));
                          (lit "timestamp", VStr (now ++ lit "Z"));
                          (lit "model", VStr (lit "gemini"));
                          (lit "character_count", VInt (Z.of_nat (length result)));
                          (lit "word_count",
                           VInt (Z.of_nat (count_words false result))) ]
                 ]}
         | _ => ret (failure (lit "No response received from Gemini"))
         end)%M
      (fun e =>
         match e with
         | RequestException message => ret (failure message)
         | _ => raise e
         end) w st = (r, st') /\
    trace st' = trace st ++ [post] /\
    (forall resp,
       http w (trace st) post = Ok resp -> status_code resp <> 200%Z ->
       r = Ok (failure (lit "HTTP " ++ str_of_int (status_code resp)))).
Proof.
  unfold try_catch, M_bind at 1, request.
  destruct (http w (trace st) post) as [resp|e].
  - destruct (Z.eqb_spec (status_code resp) 200) as [E|E]; cbn [negb].
    + unfold M_bind, lift, time_time, elapsed, utcnow, ret. cbn [trace ticks draws].
      rewrite parse_decode.
      destruct (decode (text resp)) as [[|c s]|];
        eexists _, _; (split; [reflexivity|]); (split; [done|]);
        intros resp' [= <-] Hne; done.
    + eexists _, _. split; [reflexivity|]. split; [done|]. by intros resp' [= <-] _.
  - destruct e; eexists _, _; (split; [reflexivity|]); (split; [done|]);
      by intros resp' [=].
Qed.

(** The run of the orchestrator: the session fails after the fetch of the
    landing page, or the optional upload is followed either by a failure
    to build the payload with an image or by the chat transmission. *)
Lemma chat_run prompt image_base64 w :
  let fetch := HttpGet landing_url landing_headers in
  exists r st,
    chat_with_gemini prompt image_base64 w initial = (r, st) /\
    ((trace st = [fetch]
      /\ r = Ok (failure (lit "Failed to establish session with Gemini")))
     \/
     exists evs image_id,
       ((evs = [] /\ image_id = None)
        \/ exists mime_type image_bytes,
             evs = upload_events w [fetch] mime_type image_bytes /\
             image_id = kept_image (upload_result w [fetch] mime_type image_bytes)) /\
       ((trace st = fetch :: evs /\ image_id <> None /\ exists e, r = Raise e)
        \/
        exists url payload headers,
          trace st = fetch :: evs ++ [HttpPostForm url payload headers] /\
          (image_id = None ->
           exists token session_id request_uuid,
             payload = form_of (payload_data (escape_prompt prompt) token
                                  session_id request_uuid)) /\
          (forall resp,
             http w (fetch :: evs) (HttpPostForm url payload headers) = Ok resp ->
             status_code resp <> 200%Z ->
             r = Ok (failure (lit "HTTP " ++ str_of_int (status_code resp)))))).
Proof.
  cbv zeta. unfold chat_with_gemini.
  unfold M_bind at 1. unfold time_time at 1. cbn [ticks draws trace initial].
  set (st0 := {| ticks := 1; draws := 0; trace := [] |}).
  unfold M_bind at 1.
  destruct (scrape_run w st0) as (sc & st1 & -> & Htr1 & Hdr1).
  cbn [trace st0 app] in Htr1.
  destruct sc as [sc|].
  2: { eexists _, _. split; [done|]. left. by split. }
  unfold M_bind at 1.
  assert (exists image_id st2 evs,
            match image_base64 with
            | Some (c :: s) => attach_image (c :: s) (snlm0e sc)
            | _ => ret None
            end w st1 = (Ok image_id, st2) /\
            draws st2 = draws st1 /\
            trace st2 = HttpGet landing_url landing_headers :: evs /\
            ((evs = [] /\ image_id = None)
             \/ exists mime_type image_bytes,
                  evs = upload_events w [HttpGet landing_url landing_headers]
                          mime_type image_bytes /\
                  image_id = kept_image
                               (upload_result w [HttpGet landing_url landing_headers]
                                  mime_type image_bytes)))
    as (image_id & st2 & evs & -> & Hdr2 & Htr2 & Hup).
  { destruct image_base64 as [[|c s]|].
    - exists None, st1, []. repeat split; [done..|]. by left.
    - destruct (attach_image_run (c :: s) (snlm0e sc) w st1)
        as (r & st2 & -> & Hdr & [[Htr ->]|(mime & bytes & Htr & ->)]).
      + exists None, st2, []. rewrite Htr. repeat split; [done..|]. by left.
      + rewrite Htr1 in Htr. eexists _, st2, _. rewrite Htr1.
        repeat split; [done..|]. right. by exists mime, bytes.
    - exists None, st1, []. repeat split; [done..|]. by left. }
  cbv beta iota zeta. unfold M_bind at 1.
  set (url := base_url ++ _).
  set (headers := chat_headers _).
  assert (exists rp st3,
            match image_id with
            | Some (c :: s) => build_payload_with_image prompt (snlm0e sc) (c :: s)
            | _ => build_payload prompt (snlm0e sc)
            end w st2 = (rp, st3) /\
            trace st3 = trace st2 /\
            (image_id = None ->
             exists token session_id request_uuid,
               rp = Ok (form_of (payload_data (escape_prompt prompt) token
                                   session_id request_uuid))) /\
            (forall e, rp = Raise e -> image_id <> None))
    as (rp & st3 & -> & Htr3 & Htext & Hraise).
  { destruct image_id as [[|c s]|].
    - rewrite build_payload_run. eexists _, _. split; [done|]. split; [done|].
      split; [done|]. done.
    - destruct (build_payload_with_image_run prompt (snlm0e sc) (c :: s) w st2)
        as (rp & ->).
      eexists _, _. split; [done|]. split; [done|]. split; [done|]. done.
    - rewrite build_payload_run. eexists _, _. split; [done|]. split; [done|].
      split; [|done]. intros _. by eexists _, _, _. }
  rewrite Htr2 in Htr3.
  destruct rp as [payload|e].
  - destruct (transmission_run (HttpPostForm url payload headers) 0 w st3)
      as (r & st & Hrun & Htr & Hfail).
    exists r, st. split; [exact Hrun|]. right. exists evs, image_id.
    split; [exact Hup|]. right. exists url, payload, headers.
    rewrite Htr, Htr3. split; [done|]. split.
    + intros Hnone. destruct (Htext Hnone) as (token & sid & uuid & [= ->]).
      by exists token, sid, uuid.
    + intros resp Hresp Hne. apply Hfail; [by rewrite Htr3|done].
  - eexists _, _. split; [reflexivity|]. right. exists evs, image_id.
    split; [exact Hup|]. left. rewrite Htr3. split; [done|].
    split; [by eapply Hraise|by exists e].
Qed.
End ChatRun.

Lemma startswith_app (p s : str) : startswith p (p ++ s) = true.
Proof. apply startswith_prefix. by apply prefix_app_r. Qed.

Lemma contains_here (sub s : str) : startswith sub s = true -> contains sub s = true.
Proof. intros E. destruct s; cbn [contains]; by rewrite E. Qed.

Lemma contains_app (sub a b : str) : contains sub (a ++ sub ++ b) = true.
Proof.
  induction a as [|c a IH]; cbn [app].
  - apply contains_here, startswith_app.
  - cbn [contains]. rewrite IH. apply orb_true_r.
Qed.

Lemma failure_fields (message : str) :
  failure message !! "success"%string = Some (VBool false) /\
  failure message !! "error"%string = Some (VStr message) /\
  failure message !! "response"%string = None /\
  failure message !! "metadata"%string = None.
Proof.
  unfold failure. by repeat split.
Qed.

Lemma upload_events_shape w tr mime_type image_bytes e :
  e ∈ upload_events w tr mime_type image_bytes ->
  e = handshake mime_type \/ exists u, e = finalize u image_bytes.
Proof.
  unfold upload_events. repeat case_match; intros Hin.
  all: repeat (apply elem_of_cons in Hin as [->|Hin]; [by eauto|]).
  all: by apply elem_of_nil in Hin.
Qed.

Lemma upload_events_no_form_post w tr mime_type image_bytes e :
  e ∈ upload_events w tr mime_type image_bytes -> is_form_post e = false.
Proof. by intros [->|[u ->]]%upload_events_shape. Qed.

Section Orchestrator.
Context `{Runtime}.

(** C7.  The chat transmission is the form post that ends the exchanges
    of a run.  Whenever it is answered with a status other than 200, the
    run returns a dictionary whose success is false and whose error is
    the text HTTP followed by the decimal status, so the error contains
    the decimal status (503 for status 503), and the dictionary has
    neither a response nor a metadata field. *)
Theorem non_success_status_is_reported prompt image_base64 w r st
    before url data headers resp :
  chat_with_gemini prompt image_base64 w initial = (r, st) ->
  trace st = before ++ [HttpPostForm url data headers] ->
  http w before (HttpPostForm url data headers) = Ok resp ->
  status_code resp <> 200%Z ->
  exists result error,
    r = Ok result /\
    result !! "success"%string = Some (VBool false) /\
    result !! "error"%string = Some (VStr error) /\
    error = lit "HTTP " ++ str_of_int (status_code resp) /\
    contains (str_of_int (status_code resp)) error = true /\
    (status_code resp = 503%Z -> contains (lit "503") error = true) /\
    result !! "response"%string = None /\
    result !! "metadata"%string = None.
Proof.
  intros Hrun Htr Hresp Hne.
  assert (r = Ok (failure (lit "HTTP " ++ str_of_int (status_code resp)))) as ->.
  { destruct (chat_run prompt image_base64 w) as (r' & st' & Hrun' & Hcases).
    rewrite Hrun in Hrun'. injection Hrun' as <- <-.
    destruct Hcases as [[Htr' _]|(evs & image_id & Hup & Hcases)].
    { rewrite Htr in Htr'. by apply (app_inj_tail _ []) in Htr' as [_ [=]]. }
    destruct Hcases as [(Htr' & _)|(url' & payload & headers' & Htr' & _ & Hfail)].
    - assert (Hin : HttpPostForm url data headers ∈ evs).
      { assert (Hin : HttpPostForm url data headers ∈
                      HttpGet landing_url landing_headers :: evs).
        { rewrite <- Htr', Htr. apply elem_of_app. right. apply list_elem_of_here.
          }
        by apply elem_of_cons in Hin as [[=]|Hin]. }
      destruct Hup as [[-> _]|(mime & bytes & -> & _)].
      + by apply elem_of_nil in Hin.
      + by apply upload_events_no_form_post in Hin.
    - rewrite Htr in Htr'.
      apply (app_inj_tail before (_ :: evs)) in Htr' as [-> [= <- <- <-]].
      by apply Hfail. }
  destruct (failure_fields (lit "HTTP " ++ str_of_int (status_code resp)))
    as (Hs & He & Hr & Hm).
  eexists _, _. split; [done|]. split; [done|]. split; [done|]. split; [done|].
  split; [|split; [|done]].
  - rewrite <- (app_nil_r (str_of_int _)) at 2. apply contains_app.
  - intros ->. by vm_compute.
Qed.
End Orchestrator.

Lemma non_success_status_is_reported_witness :
  exists result,
    (@chat_with_gemini reference (lit "Describe a cat") None outage initial).1 = Ok result /\
    result !! "error"%string = Some (VStr (lit "HTTP 503")).
Proof.
  set (run := @chat_with_gemini reference (lit "Describe a cat") None outage initial).
  assert (exists before url data headers,
            trace run.2 = before ++ [HttpPostForm url data headers] /\
            http outage before (HttpPostForm url data headers)
            = Ok (plain_response 503 (lit "Service Unavailable")))
    as (before & url & data & headers & Htr & Hresp).
  { let tr := eval vm_compute in (trace run.2) in
    assert (E : trace run.2 = tr) by (vm_compute; reflexivity).
    eexists [_], _, _, _. split; [exact E|reflexivity]. }
  destruct (@non_success_status_is_reported reference (lit "Describe a cat") None outage
              run.1 run.2 _ _ _ _ _ (surjective_pairing run) Htr Hresp)
    as (result & error & Hr & _ & He & -> & _); [by vm_compute|].
  exists result. split; [done|]. exact He.
Defined.

(** An image reference is kept only of an upload that returned one. *)
Lemma handshake_of_run w evs image_id mime_type tail :
  (evs = [] /\ image_id = None
   \/ exists mime_type' image_bytes,
        evs = upload_events w [HttpGet landing_url landing_headers] mime_type' image_bytes /\
        image_id = kept_image
                     (upload_result w [HttpGet landing_url landing_headers]
                        mime_type' image_bytes)) ->
  handshake mime_type ∈ HttpGet landing_url landing_headers :: evs ++ tail ->
  forallb is_form_post tail = true ->
  exists image_bytes,
    evs = upload_events w [HttpGet landing_url landing_headers] mime_type image_bytes /\
    image_id = kept_image
                 (upload_result w [HttpGet landing_url landing_headers]
                    mime_type image_bytes).
Proof.
  intros Hup Hin Htail.
  apply elem_of_cons in Hin as [[=]|Hin].
  apply elem_of_app in Hin as [Hin|Hin].
  2: { rewrite forallb_forall in Htail. apply list_elem_of_In, Htail in Hin. done. }
  destruct Hup as [[-> _]|(mime' & bytes & -> & ->)]; [by apply elem_of_nil in Hin|].
  exists bytes. apply upload_events_shape in Hin as [Heq|[u [=]]].
  unfold upload_events, upload_result. by rewrite <- Heq.
Qed.

Section Fallback.
Context `{Runtime}.

(** C9.  An upload whose handshake is answered without the upload address,
    or whose transfer is answered with a status other than 200, returns
    absence and raises nothing.  A run of the orchestrator in which
    this happens ends with one chat transmission, whose form encodes
    the text-only payload; the prompt sub-array of that payload is the
    escaped prompt followed by 0, four times null and 0, so that it has
    no array among its positions, whereas the payload with an image
    has one. *)
Theorem failed_upload_falls_back_to_text :
  (forall image_bytes mime_type token w st r1,
     http w (trace st) (handshake mime_type) = Ok r1 ->
     header_lookup (lit "x-goog-upload-url") (response_headers r1) = None ->
     (upload_image image_bytes mime_type token w st).1 = Ok None) /\
  (forall image_bytes mime_type token w st r1 u r2,
     http w (trace st) (handshake mime_type) = Ok r1 ->
     header_lookup (lit "x-goog-upload-url") (response_headers r1) = Some u ->
     http w (trace st ++ [handshake mime_type]) (finalize u image_bytes) = Ok r2 ->
     status_code r2 <> 200%Z ->
     (upload_image image_bytes mime_type token w st).1 = Ok None) /\
  (forall prompt image_base64 w r st mime_type r1,
     chat_with_gemini prompt image_base64 w initial = (r, st) ->
     handshake mime_type ∈ trace st ->
     http w [HttpGet landing_url landing_headers] (handshake mime_type) = Ok r1 ->
     header_lookup (lit "x-goog-upload-url") (response_headers r1) = None ->
     exists url token session_id request_uuid headers,
       let data := payload_data (escape_prompt prompt) token session_id request_uuid in
       trace st = [HttpGet landing_url landing_headers; handshake mime_type;
                   HttpPostForm url (form_of data) headers] /\
       prompt_array data
       = [VStr (escape_prompt prompt); VInt 0; VNone; VNone; VNone; VNone; VInt 0] /\
       has_sub_array (prompt_array data) = false) /\
  (forall prompt image_base64 w r st mime_type r1 u image_bytes r2,
     chat_with_gemini prompt image_base64 w initial = (r, st) ->
     handshake mime_type ∈ trace st ->
     finalize u image_bytes ∈ trace st ->
     http w [HttpGet landing_url landing_headers] (handshake mime_type) = Ok r1 ->
     header_lookup (lit "x-goog-upload-url") (response_headers r1) = Some u ->
     http w [HttpGet landing_url landing_headers; handshake mime_type]
       (finalize u image_bytes) = Ok r2 ->
     status_code r2 <> 200%Z ->
     exists url token session_id request_uuid headers,
       let data := payload_data (escape_prompt prompt) token session_id request_uuid in
       trace st = [HttpGet landing_url landing_headers; handshake mime_type;
                   finalize u image_bytes;
                   HttpPostForm url (form_of data) headers] /\
       prompt_array data
       = [VStr (escape_prompt prompt); VInt 0; VNone; VNone; VNone; VNone; VInt 0] /\
       has_sub_array (prompt_array data) = false) /\
  (forall escaped_prompt token session_id request_uuid image,
     has_sub_array
       (prompt_array (payload_data_with_image escaped_prompt token session_id
                        request_uuid (VList image))) = true).
Proof.
  split; [|split; [|split; [|split]]].
  - intros image_bytes mime token w st r1 Hr1 Hhdr.
    destruct (upload_image_run image_bytes mime token w st) as (st' & _ & _ & ->).
    unfold upload_result. by rewrite Hr1, Hhdr.
  - intros image_bytes mime token w st r1 u r2 Hr1 Hhdr Hr2 Hne.
    destruct (upload_image_run image_bytes mime token w st) as (st' & _ & _ & ->).
    unfold upload_result. rewrite Hr1, Hhdr, Hr2.
    by destruct (Z.eqb_spec (status_code r2) 200).
  - intros prompt image_base64 w r st mime r1 Hrun Hin Hr1 Hhdr.
    destruct (chat_run prompt image_base64 w) as (r' & st' & Hrun' & Hcases).
    rewrite Hrun in Hrun'. injection Hrun' as <- <-.
    destruct Hcases as [[Htr _]|(evs & image_id & Hup & Hcases)].
    { rewrite Htr in Hin. by apply list_elem_of_singleton in Hin. }
    destruct Hcases as [(Htr & Hsome & _)|(url & payload & headers & Htr & Htext & _)].
    + rewrite Htr, <- (app_nil_r evs) in Hin.
      destruct (handshake_of_run _ _ _ _ _ Hup Hin eq_refl) as (bytes & _ & Himg).
      unfold upload_result in Himg. by rewrite Hr1, Hhdr in Himg.
    + rewrite Htr in Hin.
      destruct (handshake_of_run _ _ _ _ _ Hup Hin eq_refl) as (bytes & Hevs & Himg).
      unfold upload_events in Hevs. unfold upload_result in Himg.
      rewrite Hr1, Hhdr in Hevs, Himg. cbn [kept_image] in Himg.
      destruct (Htext Himg) as (token & sid & uuid & ->).
      exists url, token, sid, uuid, headers. by rewrite Htr, Hevs.
  - intros prompt image_base64 w r st mime r1 u image_bytes r2
      Hrun Hin Hfin Hr1 Hhdr Hr2 Hne.
    destruct (chat_run prompt image_base64 w) as (r' & st' & Hrun' & Hcases).
    rewrite Hrun in Hrun'. injection Hrun' as <- <-.
    destruct Hcases as [[Htr _]|(evs & image_id & Hup & Hcases)].
    { rewrite Htr in Hin. by apply list_elem_of_singleton in Hin. }
    assert (Hbytes : forall bytes tail,
               trace st = HttpGet landing_url landing_headers
                          :: [handshake mime; finalize u bytes] ++ tail ->
               forallb is_form_post tail = true ->
               bytes = image_bytes).
    { intros bytes tail Htr Htail. rewrite Htr in Hfin.
      apply elem_of_cons in Hfin as [[=]|Hfin].
      apply elem_of_cons in Hfin as [[=]|Hfin].
      apply elem_of_cons in Hfin as [[=]|Hfin]; [done|].
      rewrite forallb_forall in Htail. by apply list_elem_of_In, Htail in Hfin. }
    destruct Hcases as [(Htr & Hsome & _)|(url & payload & headers & Htr & Htext & _)].
    + rewrite Htr, <- (app_nil_r evs) in Hin.
      destruct (handshake_of_run _ _ _ _ _ Hup Hin eq_refl) as (bytes & Hevs & Himg).
      unfold upload_events in Hevs. unfold upload_result in Himg.
      rewrite Hr1, Hhdr in Hevs, Himg. cbn [app] in Himg.
      rewrite Hevs in Htr. pose proof (Hbytes bytes [] Htr eq_refl) as ->.
      rewrite Hr2 in Himg.
      by destruct (Z.eqb_spec (status_code r2) 200).
    + rewrite Htr in Hin.
      destruct (handshake_of_run _ _ _ _ _ Hup Hin eq_refl) as (bytes & Hevs & Himg).
      unfold upload_events in Hevs. unfold upload_result in Himg.
      rewrite Hr1, Hhdr in Hevs, Himg. cbn [app] in Himg.
      rewrite Hevs in Htr. pose proof (Hbytes bytes [_] Htr eq_refl) as ->.
      rewrite Hr2 in Himg.
      destruct (Z.eqb_spec (status_code r2) 200); [done|]. cbn [kept_image] in Himg.
      destruct (Htext Himg) as (token & sid & uuid & ->).
      by exists url, token, sid, uuid, headers.
  - done.
Qed.
End Fallback.

Lemma failed_upload_falls_back_to_text_witness :
  let image := Some (lit "data:image/png;base64,aGk=") in
  let mime := lit "image/png" in
  let prompt := lit "Describe it" in
  (upload_image [104; 105] mime (lit "abcdEFGH12345678901234")
     no_upload_address initial).1 = Ok None
  /\ (upload_image [104; 105] mime (lit "abcdEFGH12345678901234")
        transfer_refused initial).1 = Ok None
  /\ (exists url token session_id request_uuid headers,
        trace (@chat_with_gemini reference prompt image no_upload_address initial).2
        = [HttpGet landing_url landing_headers; handshake mime;
           HttpPostForm url
             (form_of (payload_data (escape_prompt prompt) token session_id request_uuid))
             headers])
  /\ (exists url token session_id request_uuid headers,
        trace (@chat_with_gemini reference prompt image transfer_refused initial).2
        = [HttpGet landing_url landing_headers; handshake mime;
           finalize (lit "https://upload.example/1") [104; 105];
           HttpPostForm url
             (form_of (payload_data (escape_prompt prompt) token session_id request_uuid))
             headers]).
Proof.
  cbv zeta.
  destruct (@failed_upload_falls_back_to_text reference) as (U1 & U2 & O1 & O2 & _).
  split; [|split; [|split]].
  - eapply U1; reflexivity.
  - eapply U2; [reflexivity|reflexivity|reflexivity|by vm_compute].
  - set (run := @chat_with_gemini reference (lit "Describe it")
                   (Some (lit "data:image/png;base64,aGk=")) no_upload_address initial).
    assert (Hin : trace run.2 !! 1%nat = Some (handshake (lit "image/png")))
      by (vm_compute; reflexivity).
    apply list_elem_of_lookup_2 in Hin.
    destruct (O1 (lit "Describe it") (Some (lit "data:image/png;base64,aGk="))
                no_upload_address run.1 run.2 _ (plain_response 200 [])
                (surjective_pairing run) Hin eq_refl eq_refl)
      as (url & token & sid & uuid & headers & Htr & _).
    by exists url, token, sid, uuid, headers.
  - set (run := @chat_with_gemini reference (lit "Describe it")
                   (Some (lit "data:image/png;base64,aGk=")) transfer_refused initial).
    assert (Hin : trace run.2 !! 1%nat = Some (handshake (lit "image/png")))
      by (vm_compute; reflexivity).
    assert (Hfin : trace run.2 !! 2%nat
                   = Some (finalize (lit "https://upload.example/1") [104; 105]))
      by (vm_compute; reflexivity).
    apply list_elem_of_lookup_2 in Hin. apply list_elem_of_lookup_2 in Hfin.
    assert (Hne : status_code (plain_response 403 (lit "Forbidden")) <> 200%Z) by done.
    destruct (O2 (lit "Describe it") (Some (lit "data:image/png;base64,aGk="))
                transfer_refused run.1 run.2 _ _ _ _ _ (surjective_pairing run) Hin Hfin
                eq_refl eq_refl eq_refl Hne)
      as (url & token & sid & uuid & headers & Htr & _).
    by exists url, token, sid, uuid, headers.
Defined.

(** ** More about the payload encoder's escaping *)

Lemma escaped_char_head c : exists d r, escaped_char c = d :: r.
Proof. unfold escaped_char. repeat case_match; by eexists _, _. Qed.

Lemma flat_map_escaped_injective s s' :
  flat_map escaped_char s = flat_map escaped_char s' -> s = s'.
Proof.
  revert s'. induction s as [|c s IH]; intros [|c' s']; cbn [flat_map]; [done| | |].
  - destruct (escaped_char_head c') as (d & r & ->). done.
  - destruct (escaped_char_head c) as (d & r & ->). done.
  - unfold escaped_char at 1 3.
    destruct (N.eqb_spec c BACKSLASH) as [->|Hb];
      [|destruct (N.eqb_spec c QUOTE) as [->|Hq];
        [|destruct (N.eqb_spec c NL) as [->|Hn]]];
      (destruct (N.eqb_spec c' BACKSLASH) as [->|Hb'];
       [|destruct (N.eqb_spec c' QUOTE) as [->|Hq'];
         [|destruct (N.eqb_spec c' NL) as [->|Hn']]]);
      cbn [app]; intros [=]; subst; try done;
      f_equal; by apply IH.
Qed.

(** The escaping of the encoder loses nothing: two prompts with the same
    escaped text are the same prompt. *)
Theorem escape_prompt_injective prompt prompt' :
  escape_prompt prompt = escape_prompt prompt' -> prompt = prompt'.
Proof. rewrite !escape_prompt_chars. apply flat_map_escaped_injective. Qed.

Lemma escape_prompt_injective_witness :
  (lit "say " ++ [QUOTE; NL]) = [115; 97; 121; 32; QUOTE; NL].
Proof. apply escape_prompt_injective. by vm_compute. Defined.

Lemma quote_in_escaped s a b :
  flat_map escaped_char s = a ++ QUOTE :: b -> exists a', a = a' ++ [BACKSLASH].
Proof.
  revert a. induction s as [|c s IH]; intros a; cbn [flat_map].
  { by destruct a. }
  unfold escaped_char at 1.
  destruct (N.eqb_spec c BACKSLASH) as [->|Hb];
    [|destruct (N.eqb_spec c QUOTE) as [->|Hq];
      [|destruct (N.eqb_spec c NL) as [->|Hn]]]; cbn [app].
  - destruct a as [|x [|y a]]; cbn [app]; intros [=]; subst.
    destruct (IH _ H2) as [a' ->]. by exists (BACKSLASH :: BACKSLASH :: a').
  - destruct a as [|x [|y a]]; cbn [app]; intros [=]; subst.
    + by exists [].
    + destruct (IH _ H2) as [a' ->]. by exists (BACKSLASH :: QUOTE :: a').
  - destruct a as [|x [|y a]]; cbn [app]; intros [=]; subst.
    destruct (IH _ H2) as [a' ->]. by exists (BACKSLASH :: 110 :: a').
  - destruct a as [|x a]; cbn [app]; intros [=]; subst; [done|].
    destruct (IH _ H1) as [a' ->]. by exists (x :: a').
Qed.

(** The escaped prompt is one line: it holds no newline, every double
    quote of it follows a backslash, it is never shorter than the prompt,
    and a prompt without backslash, double quote and newline is left as it
    is. *)
Theorem escape_prompt_single_line prompt :
  (NL ∉ escape_prompt prompt) /\
  (forall a b, escape_prompt prompt = a ++ QUOTE :: b -> exists a', a = a' ++ [BACKSLASH]) /\
  (length prompt <= length (escape_prompt prompt))%nat /\
  (BACKSLASH ∉ prompt -> QUOTE ∉ prompt -> NL ∉ prompt -> escape_prompt prompt = prompt).
Proof.
  rewrite escape_prompt_chars. split; [|split; [|split]].
  - intros Hin. apply list_elem_of_In, in_flat_map in Hin as (c & _ & Hc).
    apply list_elem_of_In in Hc. unfold escaped_char in Hc.
    destruct (N.eqb_spec c BACKSLASH); [set_solver|].
    destruct (N.eqb_spec c QUOTE); [set_solver|].
    destruct (N.eqb_spec c NL); set_solver.
  - apply quote_in_escaped.
  - induction prompt as [|c s IH]; [done|]. cbn [flat_map]. rewrite length_app.
    destruct (escaped_char_head c) as (d & r & ->). cbn [length]. lia.
  - induction prompt as [|c s IH]; [done|]. intros Hb Hq Hn.
    apply not_elem_of_cons in Hb as [Hb ?], Hq as [Hq ?], Hn as [Hn ?].
    cbn [flat_map]. unfold escaped_char at 1.
    destruct (N.eqb_spec c BACKSLASH); [done|].
    destruct (N.eqb_spec c QUOTE); [done|].
    destruct (N.eqb_spec c NL); [done|].
    cbn [app]. f_equal. by apply IH.
Qed.

(** ** The envelope of the payload *)

Lemma envelope_chars s :
  replace [QUOTE] [BACKSLASH; QUOTE] (replace [BACKSLASH] [BACKSLASH; BACKSLASH] s)
  = flat_map after_newlines s.
Proof.
  rewrite !replace_one.
  induction s as [|c s IH]; [done|].
  cbn [flat_map]. rewrite !flat_map_app, IH. f_equal.
  unfold after_newlines, BACKSLASH, QUOTE.
  destruct (N.eqb_spec 92 c) as [<-|?]; [done|].
  rewrite (proj2 (N.eqb_neq c 92)) by done.
  cbn [flat_map app]. destruct (N.eqb_spec 34 c) as [<-|?]; [done|].
  by rewrite (proj2 (N.eqb_neq c 34)).
Qed.

Lemma after_newlines_head c : exists d r, after_newlines c = d :: r.
Proof. unfold after_newlines. repeat case_match; by eexists _, _. Qed.

Lemma flat_map_after_newlines_injective s s' :
  flat_map after_newlines s = flat_map after_newlines s' -> s = s'.
Proof.
  revert s'. induction s as [|c s IH]; intros [|c' s']; cbn [flat_map]; [done| | |].
  - destruct (after_newlines_head c') as (d & r & ->). done.
  - destruct (after_newlines_head c) as (d & r & ->). done.
  - unfold after_newlines at 1 3.
    destruct (N.eqb_spec c BACKSLASH) as [->|Hb];
      [|destruct (N.eqb_spec c QUOTE) as [->|Hq]];
      (destruct (N.eqb_spec c' BACKSLASH) as [->|Hb'];
       [|destruct (N.eqb_spec c' QUOTE) as [->|Hq']]);
      cbn [app]; intros [=]; subst; try done;
      f_equal; by apply IH.
Qed.

Lemma quote_after_newlines s a b :
  flat_map after_newlines s = a ++ QUOTE :: b -> exists a', a = a' ++ [BACKSLASH].
Proof.
  revert a. induction s as [|c s IH]; intros a; cbn [flat_map].
  { by destruct a. }
  unfold after_newlines at 1.
  destruct (N.eqb_spec c BACKSLASH) as [->|Hb];
    [|destruct (N.eqb_spec c QUOTE) as [->|Hq]]; cbn [app].
  - destruct a as [|x [|y a]]; cbn [app]; intros [=]; subst.
    destruct (IH _ H2) as [a' ->]. by exists (BACKSLASH :: BACKSLASH :: a').
  - destruct a as [|x [|y a]]; cbn [app]; intros [=]; subst.
    + by exists [].
    + destruct (IH _ H2) as [a' ->]. by exists (BACKSLASH :: QUOTE :: a').
  - destruct a as [|x a]; cbn [app]; intros [=]; subst; [done|].
    destruct (IH _ H1) as [a' ->]. by exists (x :: a').
Qed.

(** The form of a payload has two fields, f.req and the field without a
    name.  The text of f.req is the array of null and of a string between
    double quotes; in that string every double quote follows a backslash,
    and the string is never shorter than the JSON text of the payload.
    Two payloads with the same form have the same JSON text. *)
Theorem envelope_keeps_the_payload payload :
  exists e,
    form_of payload = [(lit "f.req", q "[null,`" ++ e ++ q "`]"); ([], [])] /\
    (forall a b, e = a ++ QUOTE :: b -> exists a', a = a' ++ [BACKSLASH]) /\
    (length (dumps payload) <= length e)%nat /\
    (forall payload', form_of payload' = form_of payload ->
                      dumps payload' = dumps payload).
Proof.
  exists (flat_map after_newlines (dumps payload)).
  unfold form_of. rewrite envelope_chars. split; [done|]. split; [|split].
  - apply quote_after_newlines.
  - induction (dumps payload) as [|c s IH]; [done|]. cbn [flat_map].
    rewrite length_app. destruct (after_newlines_head c) as (d & r & ->).
    cbn [length]. lia.
  - intros payload'. rewrite envelope_chars. intros [= E].
    apply app_inv_tail in E.
    by apply flat_map_after_newlines_injective.
Qed.

(** ** More about the session bootstrapper *)

Section Captures.
Context `{Runtime}.

Lemma repetition_suffix {A} (p : char -> bool) lazy (cont : str -> option A) lo hi s r :
repetition p lazy cont lo hi s = Some r ->
exists s', s' `suffix_of` s /\ cont s' = Some r.
Proof.
revert lo hi r. induction s as [|c s IH]; intros lo hi r; cbn [repetition].
- destruct lazy, lo; try done; destruct (cont []) eqn:E; try done;
    intros [= <-]; by exists [].
- assert (Hmore : forall r',
            (if p c && match hi with Some O => false | _ => true end
             then repetition p lazy cont (Nat.pred lo) (Nat.pred <$> hi) s
             else None) = Some r' ->
            exists s', s' `suffix_of` c :: s /\ cont s' = Some r').
  { intros r'. case_match; [|done]. intros (s' & Hs & Hc)%IH.
    exists s'. split; [by apply suffix_cons_r|done]. }
  assert (Hstop : forall r',
            match lo with O => cont (c :: s) | S _ => None end = Some r' ->
            exists s', s' `suffix_of` c :: s /\ cont s' = Some r').
  { intros r'. destruct lo; [|done]. intros Hc. by exists (c :: s). }
  destruct lazy.
  + destruct (match lo with O => _ | S _ => _ end) eqn:E1.
    * intros [= <-]. by apply Hstop.
    * apply Hmore.
  + destruct (if p c && _ then _ else _) eqn:E1.
    * intros [= <-]. by apply Hmore.
    * apply Hstop.
Qed.

(** A match captures a piece of the text it reads. *)
Lemma match_here_infix ic r page opened captured s g rest :
opened `suffix_of` page -> s `suffix_of` page ->
(exists a b, page = a ++ captured ++ b) ->
match_here ic r opened captured s = Some (g, rest) ->
exists a b, page = a ++ g ++ b.
Proof.
revert opened captured s. induction r as [|it r IH]; intros opened captured s Ho Hs Hc;
  cbn [match_here].
{ by intros [= <- <-]. }
destruct it as [k lo hi lazy| |].
- intros (s' & Hs' & Hm)%repetition_suffix.
  apply (IH opened captured s'); [done|by etrans|done|done].
- by apply IH.
- apply IH; [done|done|].
  destruct Ho as [a ->].
  exists a, (drop (length opened - length s) opened).
  by rewrite take_drop.
Qed.

Lemma search_infix ic r s g :
search ic r s = Some g -> exists a b, s = a ++ g ++ b.
Proof.
intros (before & rest & after & -> & Hm & _)%search_leftmost.
eapply (match_here_infix ic r (before ++ rest) [] [] rest); [| | |exact Hm].
- apply suffix_nil.
- by apply suffix_app_r.
- by exists [], (before ++ rest).
Qed.

(** A token that is returned is a piece of the page, longer than 20
  characters; a page of 20 characters or fewer has no token. *)
Theorem token_is_part_of_page html :
(forall token,
   extract_snlm0e_token html = Some token ->
   (20 < length token)%nat /\ exists a b, html = a ++ token ++ b) /\
((length html <= 20)%nat -> extract_snlm0e_token html = None).
Proof.
assert (Hsome : forall token,
           extract_snlm0e_token html = Some token ->
           (20 < length token)%nat /\ exists a b, html = a ++ token ++ b).
{ intros token Htok. unfold extract_snlm0e_token in Htok.
  pose proof (first_long_capture_spec snlm0e_patterns html) as Hspec.
  rewrite Htok in Hspec. destruct Hspec as (i & p & _ & Hs & Hlen & _).
  split; [done|]. by eapply search_infix. }
split; [done|]. intros Hshort.
destruct (extract_snlm0e_token html) as [token|] eqn:E; [|done].
destruct (Hsome _ eq_refl) as (Hlen & a & b & ->).
rewrite !length_app in Hshort. lia.
Qed.
End Captures.

Lemma token_is_part_of_page_witness :
  @extract_snlm0e_token reference (lit "<p>SNlM0e='x'</p>") = None.
Proof.
  apply (proj2 (@token_is_part_of_page reference (lit "<p>SNlM0e='x'</p>"))).
  vm_compute. lia.
Defined.

Lemma digits_of_length fuel n acc :
  (length acc <= length (digits_of fuel n acc))%nat.
Proof.
  revert n acc. induction fuel as [|fuel IH]; intros n acc; cbn [digits_of]; [done|].
  case_match; [cbn [length]; lia|].
  etrans; [|apply IH]. cbn [length]. lia.
Qed.

Lemma str_of_int_nonempty z : str_of_int z <> [].
Proof.
  assert (Hn : forall n, str_of_N n <> []).
  { intros n E. unfold str_of_N in E. cbn [digits_of] in E.
    revert E. case_match; [done|]. intros E.
    pose proof (digits_of_length (N.to_nat (N.log2 n)) (n / 10) [digit_char (n mod 10)]) as Hl.
    rewrite E in Hl. cbn in Hl. lia. }
  destruct z; cbn [str_of_int]; [apply Hn|apply Hn|done].
Qed.

Lemma truthy_str_at p k :
  str_at p k -> truthy (default VNone (p !! k)) = true ->
  exists s, p !! k = Some (VStr s) /\ s <> [].
Proof.
  intros Hty. destruct (p !! k) as [v|] eqn:E; [|done].
  destruct (Hty v E) as [s ->]. cbn. case_bool_decide; [done|]. by exists s.
Qed.

Lemma truthy_int_at p k :
  int_at p k -> truthy (default VNone (p !! k)) = true ->
  exists n, p !! k = Some (VInt n) /\ n <> 0%Z.
Proof.
  intros Hty. destruct (p !! k) as [v|] eqn:E; [|done].
  destruct (Hty v E) as [n ->]. cbn.
  destruct (Z.eqb_spec n 0); [done|]. by exists n.
Qed.

(** A step that returns hands its value and its state to the rest. *)
Lemma bind_ok {A B} (m : M A) (k : A -> M B) w st a st' :
  m w st = (Ok a, st') -> M_bind m k w st = k a w st'.
Proof. unfold M_bind. by intros ->. Qed.

Section ParametersAlways.
Context `{Runtime}.

(** What the three searches leave in the dictionary. *)
Lemma found_parameters (bl fsid : option str) (reqid : option Z) :
let p0 : gmap string value :=
  let params := ∅ in
  let params := match bl with Some g => <["bl"%string := VStr g]> params | None => params end in
  let params := match fsid with Some g => <["fsid"%string := VStr g]> params | None => params end in
  match reqid with
  | Some n => <["reqid"%string := VInt n]> params
  | None => params
  end in
str_at p0 "bl" /\ str_at p0 "fsid" /\ int_at p0 "reqid" /\
dom p0 ⊆ ({[ "bl"; "fsid"; "reqid" ]} : gset string)%string.
Proof.
cbv zeta. unfold str_at, int_at.
destruct bl, fsid, reqid; repeat split; intros v;
  rewrite ?dom_insert, ?dom_empty, ?lookup_insert_ne, ?lookup_insert_eq,
    ?lookup_empty by done;
  try (intros [= <-]; by eexists); try done; set_solver.
Qed.

(** The parameters: complete, unless the request id cannot be read. *)
Lemma params_complete html w st :
if readable_reqid html then
  exists params st',
    extract_build_and_session_params html w st = (Ok params, st') /\
    trace st' = trace st /\ draws st' = draws st /\
    (ticks st <= ticks st' <= ticks st + 2)%nat /\
    dom params = ({[ "bl"; "fsid"; "reqid" ]} : gset string)%string /\
    (exists bl, params !! "bl"%string = Some (VStr bl) /\ bl <> []) /\
    (exists fsid, params !! "fsid"%string = Some (VStr fsid) /\ fsid <> []) /\
    (exists n, params !! "reqid"%string = Some (VInt n))
else
  extract_build_and_session_params html w st
  = (Raise (OtherException (lit "ValueError")), st).
Proof.
unfold extract_build_and_session_params. cbv zeta.
set (X := match search false reqid_pattern html with Some _ => _ | None => _ end).
assert (Hcases :
          if readable_reqid html then
            exists p0, X = Ok p0 /\
              str_at p0 "bl" /\ str_at p0 "fsid" /\ int_at p0 "reqid" /\
              dom p0 ⊆ ({[ "bl"; "fsid"; "reqid" ]} : gset string)%string
          else X = Raise (OtherException (lit "ValueError"))).
{ subst X. unfold readable_reqid.
  destruct (search false reqid_pattern html) as [g|].
  - unfold int_of_decimal. destruct (4300 <? _)%Z; cbn [negb exc_bind]; [done|].
    eexists. split; [done|]. apply (found_parameters _ _ (Some _)).
  - eexists. split; [done|]. apply (found_parameters _ _ None). }
clearbody X. destruct (readable_reqid html); [|by rewrite Hcases].
destruct Hcases as (p0 & -> & Hbl & Hfsid & Hreqid & Hdom).
rewrite (bind_ok _ _ w st p0 st eq_refl). cbv beta.
(* bl *)
match goal with
| |- context [M_bind ?m _ w st] =>
    assert (exists p1,
              m w st = (Ok p1, st) /\
              (exists bl, p1 !! "bl"%string = Some (VStr bl) /\ bl <> []) /\
              str_at p1 "fsid" /\ int_at p1 "reqid" /\
              dom p1 ⊆ ({[ "bl"; "fsid"; "reqid" ]} : gset string)%string)
      as (p1 & Hs1 & Hbl1 & Hfsid1 & Hreqid1 & Hdom1)
end.
{ unfold ret, dict_get.
  destruct (truthy (default VNone (p0 !! "bl"%string))) eqn:E; cbn [negb];
    (eexists; split; [reflexivity|]).
  - destruct (truthy_str_at _ _ Hbl E) as (bl & Hl & Hne).
    repeat split; [by exists bl|done..].
  - unfold str_at, int_at. rewrite dom_insert, lookup_insert_eq, !lookup_insert_ne by done.
    repeat split; [by exists default_bl|done..|set_solver]. }
rewrite (bind_ok _ _ _ _ _ _ Hs1). cbv beta. clear Hs1.
clear p0 Hbl Hfsid Hreqid Hdom.
(* fsid *)
match goal with
| |- context [M_bind ?m _ w st] =>
    assert (exists p2 st2,
              m w st = (Ok p2, st2) /\
              trace st2 = trace st /\ draws st2 = draws st /\
              (ticks st <= ticks st2 <= ticks st + 1)%nat /\
              (exists bl, p2 !! "bl"%string = Some (VStr bl) /\ bl <> []) /\
              (exists fsid, p2 !! "fsid"%string = Some (VStr fsid) /\ fsid <> []) /\
              int_at p2 "reqid" /\
              dom p2 ⊆ ({[ "bl"; "fsid"; "reqid" ]} : gset string)%string)
      as (p2 & st2 & Hs2 & Htr2 & Hdr2 & Htk2 & Hbl2 & Hfsid2 & Hreqid2 & Hdom2)
end.
{ unfold M_bind, ret, time_time, millis, dict_get.
  destruct (truthy (default VNone (p1 !! "fsid"%string))) eqn:E; cbn [negb];
    (eexists _, _; split; [reflexivity|]); cbn [trace draws ticks].
  - destruct (truthy_str_at _ _ Hfsid1 E) as (fsid & Hl & Hne).
    repeat split; try done; try lia. by exists fsid.
  - unfold int_at. rewrite dom_insert, lookup_insert_eq, !lookup_insert_ne by done.
    repeat split; try done; try lia; [|set_solver].
    eexists. split; [done|]. apply str_of_int_nonempty. }
rewrite (bind_ok _ _ _ _ _ _ Hs2). cbv beta. clear Hs2.
clear Hbl1 Hfsid1 Hreqid1 Hdom1.
(* reqid *)
match goal with
| |- context [M_bind ?m _ w st2] =>
    assert (exists p3 st3,
              m w st2 = (Ok p3, st3) /\
              trace st3 = trace st2 /\ draws st3 = draws st2 /\
              (ticks st2 <= ticks st3 <= ticks st2 + 1)%nat /\
              (exists bl, p3 !! "bl"%string = Some (VStr bl) /\ bl <> []) /\
              (exists fsid, p3 !! "fsid"%string = Some (VStr fsid) /\ fsid <> []) /\
              (exists n, p3 !! "reqid"%string = Some (VInt n)) /\
              dom p3 ⊆ ({[ "bl"; "fsid"; "reqid" ]} : gset string)%string)
      as (p3 & st3 & Hs3 & Htr3 & Hdr3 & Htk3 & Hbl3 & Hfsid3 & Hreqid3 & Hdom3)
end.
{ unfold M_bind, ret, time_time, millis, dict_get.
  destruct (truthy (default VNone (p2 !! "reqid"%string))) eqn:E; cbn [negb];
    (eexists _, _; split; [reflexivity|]); cbn [trace draws ticks].
  - destruct (truthy_int_at _ _ Hreqid2 E) as (n & Hl & Hne).
    repeat split; try done; try lia. by exists n.
  - rewrite dom_insert, lookup_insert_eq, !lookup_insert_ne by done.
    repeat split; try done; try lia; [by eexists|set_solver]. }
rewrite (bind_ok _ _ _ _ _ _ Hs3). cbv beta. unfold ret.
exists p3, st3. split; [done|]. split; [congruence|]. split; [congruence|].
split; [lia|]. split; [|done].
destruct Hbl3 as (? & Hb & _), Hfsid3 as (? & Hf & _), Hreqid3 as (? & Hr).
apply (anti_symm (⊆)); [done|].
intros k Hk. apply elem_of_dom.
apply elem_of_union in Hk as [Hk|Hk]; [apply elem_of_union in Hk as [Hk|Hk]|];
  apply elem_of_singleton in Hk as ->; by eexists.
Qed.

Lemma readable_reqid_spec html :
readable_reqid html = true
<-> forall g, search false reqid_pattern html = Some g -> (length g <= 4300)%nat.
Proof.
unfold readable_reqid. destruct (search false reqid_pattern html) as [g|].
- destruct (Z.ltb_spec 4300 (Z.of_nat (length g))); cbn [negb]; split; try done.
  + intros Hg. specialize (Hg g eq_refl). lia.
  + intros _ g' [= <-]. lia.
- split; [by intros _ g|done].
Qed.

(** Parameter extraction makes no exchange.  It raises only when the page
  gives a request id of more than 4300 digits, which cannot be read as
  an integer: it then raises a ValueError before the clock is read.
  Otherwise it reads the clock at most twice; its result has the three
  keys bl, fsid and reqid and no other; bl and fsid are strings that are
  not empty, and reqid is an integer. *)
Theorem parameters_are_complete html w st :
((forall g, search false reqid_pattern html = Some g -> (length g <= 4300)%nat) ->
 exists params st',
   extract_build_and_session_params html w st = (Ok params, st') /\
   trace st' = trace st /\ draws st' = draws st /\
   (ticks st <= ticks st' <= ticks st + 2)%nat /\
   dom params = ({[ "bl"; "fsid"; "reqid" ]} : gset string)%string /\
   (exists bl, params !! "bl"%string = Some (VStr bl) /\ bl <> []) /\
   (exists fsid, params !! "fsid"%string = Some (VStr fsid) /\ fsid <> []) /\
   (exists n, params !! "reqid"%string = Some (VInt n))) /\
(forall g,
   search false reqid_pattern html = Some g -> (4300 < length g)%nat ->
   extract_build_and_session_params html w st
   = (Raise (OtherException (lit "ValueError")), st)).
Proof.
pose proof (params_complete html w st) as Hp.
pose proof (readable_reqid_spec html) as Hr.
destruct (readable_reqid html); split.
- done.
- intros g Hg Hlen. specialize (proj1 Hr eq_refl g Hg). lia.
- intros Hread. by apply Hr in Hread.
- done.
Qed.
(** A value that the page gives is kept: the build label and the session
  id that are captured, when they are not empty, and the request id that
  is captured, when it is not 0.  A request id of 0 counts as missing
  and is replaced by the clock, as one that is not found.  When the
  page gives all three, the clock is not read.  This holds of a page
  whose request id, if it has one, has 4300 digits at most. *)
Theorem page_parameters_are_kept html w st :
(forall g, search false reqid_pattern html = Some g -> (length g <= 4300)%nat) ->
exists params st',
  extract_build_and_session_params html w st = (Ok params, st') /\
  (forall g, first_capture bl_patterns html = Some g -> g <> [] ->
             params !! "bl"%string = Some (VStr g)) /\
  (forall g, first_capture fsid_patterns html = Some g -> g <> [] ->
             params !! "fsid"%string = Some (VStr g)) /\
  (forall g n, search false reqid_pattern html = Some g ->
               int_of_decimal g = Ok n -> n <> 0%Z ->
               params !! "reqid"%string = Some (VInt n)) /\
  (forall g, search false reqid_pattern html = Some g ->
             int_of_decimal g = Ok 0%Z ->
             exists t, (ticks st <= t < ticks st')%nat /\
                       params !! "reqid"%string
                       = Some (VInt (clock_ms w t mod 1000000))) /\
  (forall bl fsid reqid n,
     first_capture bl_patterns html = Some bl -> bl <> [] ->
     first_capture fsid_patterns html = Some fsid -> fsid <> [] ->
     search false reqid_pattern html = Some reqid ->
     int_of_decimal reqid = Ok n -> n <> 0%Z ->
     st' = st).
Proof.
intros Hread.
assert (Hint : forall g, search false reqid_pattern html = Some g ->
                         exists n, int_of_decimal g = Ok n).
{ intros g Hg. specialize (Hread g Hg). unfold int_of_decimal.
  rewrite (proj2 (Z.ltb_ge _ _)) by lia. by eexists. }
clear Hread.
unfold extract_build_and_session_params, M_bind, ret, lift, time_time, millis,
  dict_get.
destruct (first_capture bl_patterns html) as [[|cb gb]|];
  destruct (first_capture fsid_patterns html) as [[|cf gf]|];
  destruct (search false reqid_pattern html) as [gr|];
  try (destruct (Hint gr eq_refl) as [n Hn]; rewrite Hn; cbn [exc_bind];
       destruct (Z.eqb_spec n 0) as [Hz|Hz]; [subst n|]);
  clear Hint; cbv zeta;
  repeat first
    [ rewrite lookup_insert_eq
    | rewrite lookup_empty
    | rewrite lookup_insert_ne by done
    | rewrite bool_decide_eq_true_2 by done
    | rewrite bool_decide_eq_false_2 by done
    | rewrite (proj2 (Z.eqb_neq _ _) Hz)
    | progress cbn [default from_option id truthy negb Z.eqb]
    | progress cbv beta iota ];
  (eexists _, _; split; [reflexivity|]); cbn [ticks];
  (split; [|split; [|split; [|split]]]);
  intros; simplify_eq;
  repeat match goal with
         | Ha : int_of_decimal ?g = Ok ?a, Hb : int_of_decimal ?g = Ok ?b |- _ =>
             rewrite Ha in Hb; injection Hb as ?
         end;
  simplify_eq; try done;
  first [ by (repeat first [rewrite lookup_insert_eq
                           | rewrite lookup_insert_ne by done])
        | eexists; (split; [|by rewrite lookup_insert_eq]); lia ].
Qed.
End ParametersAlways.

Lemma parameters_are_complete_witness :
  @extract_build_and_session_params reference
    (lit "_reqid=" ++ replicate 4301 57) outage initial
  = (Raise (OtherException (lit "ValueError")), initial).
Proof.
  apply (proj2 (@parameters_are_complete reference
                  (lit "_reqid=" ++ replicate 4301 57) outage initial)
           (replicate 4301 57)).
  - vm_compute. reflexivity.
  - rewrite length_replicate. lia.
Defined.

Lemma page_parameters_are_kept_witness :
  exists params st',
    @extract_build_and_session_params reference (lit "_reqid=17") outage initial
    = (Ok params, st') /\
    params !! "reqid"%string = Some (VInt 17).
Proof.
  destruct (@page_parameters_are_kept reference (lit "_reqid=17") outage initial)
    as (params & st' & Hrun & _ & _ & Hreqid & _).
  { intros g. vm_compute. intros [= <-]. cbn. lia. }
  exists params, st'. split; [exact Hrun|].
  apply (Hreqid (lit "17")); [by vm_compute|by vm_compute|done].
Defined.

(** ** More about the session *)

Section SessionFacts.
Context `{Runtime}.

Lemma token_is_long html token :
extract_snlm0e_token html = Some token -> (20 < length token)%nat.
Proof.
intros Htok. unfold extract_snlm0e_token in Htok.
pose proof (first_long_capture_spec snlm0e_patterns html) as Hspec.
rewrite Htok in Hspec. by destruct Hspec as (i & p & _ & Hs & Hlen & _).
Qed.

Lemma settled_token_capture page token :
extract_snlm0e_token page = Some token -> settled_token page = Some token.
Proof.
intros Htok. unfold settled_token. rewrite Htok.
apply token_is_long in Htok. destruct token; [cbn in Htok; lia|done].
Qed.

(** What the bootstrapper returns, read off the answer to the fetch. *)
Lemma scrape_outcomes w st :
let fetch := HttpGet landing_url landing_headers in
exists r st',
  scrape_fresh_session w st = (Ok r, st') /\
  trace st' = trace st ++ [fetch] /\
  draws st' = draws st /\
  match http w (trace st) fetch with
  | Raise _ => r = None
  | Ok resp =>
      match settled_token (text resp) with
      | Some (c :: s) =>
          if readable_reqid (text resp) then
            exists bl fsid reqid,
              r = Some {| cookies := collected_cookies resp; snlm0e := c :: s;
                          bl := VStr bl; fsid := VStr fsid; reqid := VInt reqid;
                          html := text resp |} /\
              bl <> [] /\ fsid <> []
          else r = None
      | _ => r = None
      end
  end.
Proof.
cbv zeta.
unfold scrape_fresh_session, try_catch, M_bind, request, lift, ret, dict_item.
destruct (http w (trace st) (HttpGet landing_url landing_headers)) as [resp|e];
  [|by eexists _, _].
set (st1 := {| ticks := ticks st; draws := draws st;
               trace := trace st ++ [HttpGet landing_url landing_headers] |}).
unfold settled_token.
pose proof (params_complete (text resp) w st1) as Hp.
destruct (absent (extract_snlm0e_token (text resp))) eqn:Habs;
  cbv beta iota; rewrite ?Habs; cbv beta iota.
- destruct (extract_from_script_tags (text resp)) as [tok|e]; [|by eexists _, _].
  destruct tok as [[|c s]|]; cbn [absent]; [by eexists _, _| |by eexists _, _].
  destruct (readable_reqid (text resp)).
  + destruct Hp as (params & st' & -> & Htr & Hdr & _ & _ & (bl & -> & Hbl)
                    & (fsid & -> & Hfsid) & (reqid & ->)).
    cbv beta iota. eexists _, _. split; [reflexivity|]. split; [done|].
    split; [done|]. by exists bl, fsid, reqid.
  + rewrite Hp. by eexists _, _.
- destruct (extract_snlm0e_token (text resp)) as [[|c s]|] eqn:Htok; try done.
  destruct (readable_reqid (text resp)).
  + destruct Hp as (params & st' & -> & Htr & Hdr & _ & _ & (bl & -> & Hbl)
                    & (fsid & -> & Hfsid) & (reqid & ->)).
    cbv beta iota. eexists _, _. split; [reflexivity|]. split; [done|].
    split; [done|]. by exists bl, fsid, reqid.
  + rewrite Hp. by eexists _, _.
Qed.

(** Bootstrapping never raises and makes exactly one exchange, the fetch of
  the landing page.  It returns no session when the fetch raises, when
  neither the patterns nor the script tags give a token that is not
  empty, or when the page gives a request id of more than 4300 digits,
  which cannot be read as an integer.  Otherwise it returns a session: a
  token captured by the patterns is the token of the session, whatever
  the script tags hold.  A session that is returned holds the page, the
  token settled on, the cookies, and the three parameters. *)
Theorem session_needs_a_token w st :
exists r st',
  scrape_fresh_session w st = (Ok r, st') /\
  trace st' = trace st ++ [landing_fetch] /\
  draws st' = draws st /\
  (forall e, http w (trace st) landing_fetch = Raise e -> r = None) /\
  (forall resp,
     http w (trace st) landing_fetch = Ok resp ->
     (absent (settled_token (text resp)) = true -> r = None) /\
     (forall g,
        search false reqid_pattern (text resp) = Some g ->
        (4300 < length g)%nat -> r = None) /\
     (forall token,
        extract_snlm0e_token (text resp) = Some token ->
        (forall g, search false reqid_pattern (text resp) = Some g ->
                   (length g <= 4300)%nat) ->
        exists sd, r = Some sd /\ snlm0e sd = token) /\
     (forall sd,
        r = Some sd ->
        html sd = text resp /\
        settled_token (text resp) = Some (snlm0e sd) /\
        snlm0e sd <> [] /\
        (forall g, search false reqid_pattern (text resp) = Some g ->
                   (length g <= 4300)%nat) /\
        cookies sd = collected_cookies resp /\
        (exists b, bl sd = VStr b /\ b <> []) /\
        (exists f, fsid sd = VStr f /\ f <> []) /\
        (exists n, reqid sd = VInt n))).
Proof.
destruct (scrape_outcomes w st) as (r & st' & Hrun & Htr & Hdr & Hout).
exists r, st'. split; [done|]. split; [done|]. split; [done|].
unfold landing_fetch.
destruct (http w (trace st) (HttpGet landing_url landing_headers)) as [resp|e].
2: { split; [done|]. by intros resp [=]. }
split; [by intros e [=]|]. intros ? [= <-].
pose proof (readable_reqid_spec (text resp)) as Hr.
split; [|split; [|split]].
- intros Habs. by destruct (settled_token (text resp)) as [[|c s]|].
- intros g Hg Hlen.
  destruct (settled_token (text resp)) as [[|c s]|]; try done.
  destruct (readable_reqid (text resp)); [|done].
  specialize (proj1 Hr eq_refl g Hg). lia.
- intros token Htok Hread. rewrite (settled_token_capture _ _ Htok) in Hout.
  apply token_is_long in Htok. destruct token as [|c s]; [cbn in Htok; lia|].
  rewrite (proj2 Hr Hread) in Hout.
  destruct Hout as (b & f & n & -> & _). by eexists.
- intros sd ->. destruct (settled_token (text resp)) as [[|c s]|]; try done.
  destruct (readable_reqid (text resp)); [|done].
  destruct Hout as (b & f & n & [= ->] & Hb & Hf). cbn.
  repeat split; try done; try by eexists. by apply Hr.
Qed.
End SessionFacts.

(** ** What a run returns *)

Section ChatOutcomes.
Context `{Runtime}.

Lemma transmission_outcomes (post : event) (start_time : nat) w st :
exists r st',
  try_catch
    (let* response := request post in
     if negb (status_code response =? 200)%Z
     then ret (failure (lit "HTTP " ++ str_of_int (status_code response)))
     else
       let* result := lift (parse_streaming_response (text response)) in
       let* end_time := time_time in
       match result with
       | Some (c :: s) =>
           let result := c :: s in
           let* response_time := elapsed start_time end_time in
           let* now := utcnow in
           ret {[ "success"%string := VBool true;
                  "response"%string := VStr result;
                  "metadata"%string :=
                    VDict
                      [ (lit "response_time", VStr (response_time ++ lit "s"));
                        (lit "timestamp", VStr (now ++ lit "Z"));
                        (lit "model", VStr (lit "gemini"));
                        (lit "character_count", VInt (Z.of_nat (length result)));
                        (lit "word_count",
                         VInt (Z.of_nat (count_words false result))) ]
               ]}
       | _ => ret (failure (lit "No response received from Gemini"))
       end)%M
    (fun e =>
       match e with
       | RequestException message => ret (failure message)
       | _ => raise e
       end) w st = (r, st') /\
  trace st' = trace st ++ [post] /\
  verdict (http w (trace st) post) r.
Proof.
unfold try_catch, M_bind at 1, request, verdict.
destruct (http w (trace st) post) as [resp|e].
- destruct (Z.eqb_spec (status_code resp) 200) as [E|E]; cbn [negb].
  + unfold M_bind, lift, time_time, elapsed, utcnow, ret. cbn [trace ticks draws].
    rewrite parse_decode.
    destruct (decode (text resp)) as [[|c s]|];
      eexists _, _; (split; [reflexivity|]); (split; [done|]); try done.
    by eexists _, _.
  + by eexists _, _.
- destruct e; by eexists _, _.
Qed.

Lemma build_payload_with_image_result prompt token image_id w st :
build_payload_with_image prompt token image_id w st =
(match json_loads (image_struct image_id) with
 | Ok image =>
     Ok (form_of (payload_data_with_image (escape_prompt prompt) token
                    (uuid4_hex w (draws st))
                    (uuid_str_upper (uuid4_hex w (S (draws st)))) image))
 | Raise e => Raise e
 end,
 {| ticks := ticks st; draws := S (S (draws st)); trace := trace st |}).
Proof.
unfold build_payload_with_image, M_bind, uuid4, lift, ret, image_struct.
cbn [draws ticks trace].
by destruct (json_loads _).
Qed.

Lemma attach_image_result image_base64 token w st :
exists st',
  attach_image image_base64 token w st
  = (Ok (attached_at w (trace st) image_base64).2, st') /\
  draws st' = draws st /\
  trace st' = trace st ++ (attached_at w (trace st) image_base64).1.
Proof.
unfold attach_image, attached_at, image_parts, try_catch, M_bind, lift, ret, raise.
destruct (contains [44] image_base64).
- destruct (split_once 44 image_base64) as [header encoded].
  destruct (split 58 (default [] (head (split 59 header))) !! 1%nat) as [mime|].
  2: { exists st. by rewrite app_nil_r. }
  cbn [fst snd]. destruct (b64decode encoded) as [image_bytes|e].
  2: { exists st. by rewrite app_nil_r. }
  destruct (upload_image_run image_bytes mime token w st) as (st' & Htr & Hdr & ->).
  exists st'. cbn [fst snd].
  by destruct (upload_result w (trace st) mime image_bytes) as [[[|c s]|]|e].
- cbn [fst snd]. destruct (b64decode image_base64) as [image_bytes|e].
  2: { exists st. by rewrite app_nil_r. }
  destruct (upload_image_run image_bytes (lit "image/jpeg") token w st)
    as (st' & Htr & Hdr & ->).
  exists st'. cbn [fst snd].
  by destruct (upload_result w (trace st) (lit "image/jpeg") image_bytes)
    as [[[|c s]|]|e].
Qed.

(** The run of the orchestrator, with what it returns. *)
Lemma chat_outcomes prompt image_base64 w :
exists r st,
  chat_with_gemini prompt image_base64 w initial = (r, st) /\
  match session_of w with
  | None =>
      trace st = [landing_fetch] /\
      r = Ok (failure (lit "Failed to establish session with Gemini"))
  | Some token =>
      let evs := (attached w image_base64).1 in
      match payload_of w prompt token (attached w image_base64).2 with
      | Raise e => trace st = landing_fetch :: evs /\ r = Raise e
      | Ok payload =>
          exists url headers,
            trace st = landing_fetch :: evs ++ [HttpPostForm url payload headers] /\
            verdict (http w (landing_fetch :: evs)
                       (HttpPostForm url payload headers)) r
      end
  end.
Proof.
unfold chat_with_gemini.
unfold M_bind at 1. unfold time_time at 1. cbn [ticks draws trace initial].
set (st0 := {| ticks := 1; draws := 0; trace := [] |}).
unfold M_bind at 1.
destruct (scrape_outcomes w st0) as (sc & st1 & -> & Htr1 & Hdr1 & Hout).
cbn [trace st0 app] in Htr1, Hout. cbn [draws st0] in Hdr1.
fold landing_fetch in Htr1, Hout.
assert (Hsc : match session_of w with
              | None => sc = None
              | Some token => exists sd, sc = Some sd /\ snlm0e sd = token
              end).
{ unfold session_of, session_token.
  destruct (http w [] landing_fetch) as [resp|e]; [|done].
  destruct (readable_reqid (text resp));
    destruct (settled_token (text resp)) as [[|c s]|]; try done.
  destruct Hout as (b & f & n & -> & _). by eexists. }
clear Hout. destruct (session_of w) as [token|].
2: { subst sc. by eexists _, _. }
destruct Hsc as (sc' & -> & Htok). rename sc' into sc.
unfold M_bind at 1.
assert (exists st2,
          match image_base64 with
          | Some (c :: s) => attach_image (c :: s) (snlm0e sc)
          | _ => ret None
          end w st1 = (Ok (attached w image_base64).2, st2) /\
          draws st2 = draws st1 /\
          trace st2 = landing_fetch :: (attached w image_base64).1)
  as (st2 & -> & Hdr2 & Htr2).
{ unfold attached. destruct image_base64 as [[|c s]|].
  - by exists st1.
  - destruct (attach_image_result (c :: s) (snlm0e sc) w st1)
      as (st2 & -> & Hdr & Htr).
    rewrite Htr1 in Htr |- *. by exists st2.
  - by exists st1. }
set (image_id := (attached w image_base64).2) in *.
set (evs := (attached w image_base64).1) in *.
cbv beta iota zeta. unfold M_bind at 1.
set (url := base_url ++ _).
set (headers := chat_headers _).
assert (exists st3,
          match image_id with
          | Some (c :: s) => build_payload_with_image prompt (snlm0e sc) (c :: s)
          | _ => build_payload prompt (snlm0e sc)
          end w st2 = (payload_of w prompt token image_id, st3) /\
          trace st3 = trace st2)
  as (st3 & -> & Htr3).
{ rewrite Hdr1 in Hdr2. unfold payload_of. rewrite <- Htok.
  destruct image_id as [[|c s]|].
  - rewrite build_payload_run. unfold text_only_payload. rewrite Hdr2. by eexists.
  - rewrite build_payload_with_image_result, Hdr2. by eexists.
  - rewrite build_payload_run. unfold text_only_payload. rewrite Hdr2. by eexists. }
rewrite Htr2 in Htr3.
destruct (payload_of w prompt token image_id) as [payload|e] eqn:Hp.
- destruct (transmission_outcomes (HttpPostForm url payload headers) 0 w st3)
    as (r & st & Hrun & Htr & Hv).
  exists r, st. split; [exact Hrun|]. exists url, headers.
  rewrite Htr, Htr3. split; [done|]. by rewrite Htr3 in Hv.
- eexists _, _. split; [reflexivity|]. by rewrite Htr3.
Qed.
End ChatOutcomes.

Section ChatFacts.
Context `{Runtime}.

Lemma attached_shape w image_base64 :
(attached w image_base64).1 = []
\/ exists mime_type image_bytes,
     (attached w image_base64).1
     = upload_events w [landing_fetch] mime_type image_bytes.
Proof.
unfold attached, attached_at.
destruct image_base64 as [[|c s]|]; [by left| |by left].
destruct (image_parts (c :: s)) as [[encoded mime]|e]; [|by left].
destruct (b64decode encoded) as [image_bytes|e]; [|by left].
right. by eexists _, _.
Qed.

Lemma attached_no_form_post w image_base64 e :
e ∈ (attached w image_base64).1 -> is_form_post e = false.
Proof.
destruct (attached_shape w image_base64) as [->|(mime & bytes & ->)].
- by intros ?%elem_of_nil.
- apply upload_events_no_form_post.
Qed.

(** A run that ends with a form post returns what the answer to it
  commands. *)
Lemma run_verdict prompt image_base64 w r st before url data headers :
chat_with_gemini prompt image_base64 w initial = (r, st) ->
trace st = before ++ [HttpPostForm url data headers] ->
verdict (http w before (HttpPostForm url data headers)) r.
Proof.
intros Hrun Htr.
destruct (chat_outcomes prompt image_base64 w) as (r' & st' & Hrun' & Hcases).
rewrite Hrun in Hrun'. injection Hrun' as <- <-.
destruct (session_of w) as [token|].
2: { destruct Hcases as [Htr' _]. rewrite Htr in Htr'.
     by apply (app_inj_tail _ []) in Htr' as [_ [=]]. }
cbv zeta in Hcases.
destruct (payload_of w prompt token (attached w image_base64).2) as [payload|e].
- destruct Hcases as (url' & headers' & Htr' & Hv).
  rewrite Htr in Htr'.
  apply (app_inj_tail before (_ :: _)) in Htr' as [-> [= <- <- <-]].
  exact Hv.
- destruct Hcases as [Htr' _].
  assert (Hin : HttpPostForm url data headers ∈ (attached w image_base64).1).
  { assert (Hin : HttpPostForm url data headers ∈
                  landing_fetch :: (attached w image_base64).1).
    { rewrite <- Htr', Htr. apply elem_of_app. right. apply list_elem_of_here. }
    by apply elem_of_cons in Hin as [[=]|Hin]. }
  by apply attached_no_form_post in Hin.
Qed.

(** When the chat transmission is answered with status 200, the run
  succeeds exactly when the decoder finds a text in the answer: the
  result then carries that text, which is not empty, its length and its
  number of words, and no error; when the decoder finds none, the result
  is the failure that says no response was received. *)
Theorem reply_text_is_returned prompt image_base64 w r st
  before url data headers resp :
chat_with_gemini prompt image_base64 w initial = (r, st) ->
trace st = before ++ [HttpPostForm url data headers] ->
http w before (HttpPostForm url data headers) = Ok resp ->
status_code resp = 200%Z ->
(forall reply,
   parse_streaming_response (text resp) = Ok (Some reply) ->
   reply <> [] /\
   exists result response_time now,
     r = Ok result /\
     result !! "success"%string = Some (VBool true) /\
     result !! "response"%string = Some (VStr reply) /\
     result !! "error"%string = None /\
     result !! "metadata"%string
     = Some (VDict
               [ (lit "response_time", VStr (response_time ++ lit "s"));
                 (lit "timestamp", VStr (now ++ lit "Z"));
                 (lit "model", VStr (lit "gemini"));
                 (lit "character_count", VInt (Z.of_nat (length reply)));
                 (lit "word_count", VInt (Z.of_nat (count_words false reply))) ])) /\
(parse_streaming_response (text resp) = Ok None ->
 r = Ok (failure (lit "No response received from Gemini"))).
Proof.
intros Hrun Htr Hresp H200.
pose proof (run_verdict _ _ _ _ _ _ _ _ _ Hrun Htr) as Hv.
unfold verdict in Hv. rewrite Hresp, H200 in Hv. cbn [Z.eqb Pos.eqb] in Hv.
split.
- intros reply Hparse. rewrite Hparse in Hv.
  assert (Hne : reply <> []).
  { rewrite parse_decode in Hparse. injection Hparse as Hd.
    unfold decode in Hd. case_bool_decide; [done|]. injection Hd as <-.
    by apply unescape_text_nonempty. }
  split; [done|]. destruct reply as [|c s]; [done|].
  destruct Hv as (response_time & now & ->).
  by eexists _, response_time, now.
- intros Hparse. by rewrite Hparse in Hv.
Qed.

(** When the chat transmission raises a request exception, the run returns
  the failure whose error is the message of the exception; any other
  exception raised by the transmission leaves the run. *)
Theorem request_exception_is_reported prompt image_base64 w r st
  before url data headers e :
chat_with_gemini prompt image_base64 w initial = (r, st) ->
trace st = before ++ [HttpPostForm url data headers] ->
http w before (HttpPostForm url data headers) = Raise e ->
(forall message,
   e = RequestException message ->
   exists result,
     r = Ok result /\
     result !! "success"%string = Some (VBool false) /\
     result !! "error"%string = Some (VStr message) /\
     result !! "response"%string = None) /\
((forall message, e <> RequestException message) -> r = Raise e).
Proof.
intros Hrun Htr Hresp.
pose proof (run_verdict _ _ _ _ _ _ _ _ _ Hrun Htr) as Hv.
unfold verdict in Hv. rewrite Hresp in Hv. split.
- intros message ->. subst r.
  destruct (failure_fields message) as (Hs & He & Hr & _). by eexists.
- intros Hother. destruct e as [| | | | |message|other]; try done.
  by destruct (Hother message).
Qed.

(** Without a session the run makes no other exchange than the fetch of
  the landing page and returns the failure that says so, whatever the
  prompt and the image. *)
Theorem no_session_no_transmission prompt image_base64 w :
session_token w = None ->
exists st,
  chat_with_gemini prompt image_base64 w initial
  = (Ok (failure (lit "Failed to establish session with Gemini")), st) /\
  trace st = [landing_fetch].
Proof.
intros Hnone.
destruct (chat_outcomes prompt image_base64 w) as (r & st & Hrun & Hcases).
assert (Hs : session_of w = None).
{ unfold session_of. rewrite Hnone. by repeat case_match. }
rewrite Hs in Hcases. destruct Hcases as [Htr ->]. by exists st.
Qed.

(** The exchanges of a run: the fetch of the landing page comes first; at
  most two exchanges of an upload follow, and none without an image; the
  form post of the chat transmission, if there is one, is the last
  exchange and the only form post.  A run makes four exchanges at
  most. *)
Theorem exchanges_of_a_run prompt image_base64 w r st :
chat_with_gemini prompt image_base64 w initial = (r, st) ->
exists evs tail,
  trace st = landing_fetch :: evs ++ tail /\
  (length evs <= 2)%nat /\
  (forall e, e ∈ evs ->
     exists mime_type,
       e = handshake mime_type \/ exists u image_bytes, e = finalize u image_bytes) /\
  (image_base64 = None \/ image_base64 = Some [] -> evs = []) /\
  (tail = [] \/ exists url data headers, tail = [HttpPostForm url data headers]) /\
  (length (trace st) <= 4)%nat.
Proof.
intros Hrun.
destruct (chat_outcomes prompt image_base64 w) as (r' & st' & Hrun' & Hcases).
rewrite Hrun in Hrun'. injection Hrun' as <- <-.
assert (Hevs : (length (attached w image_base64).1 <= 2)%nat /\
               (forall e, e ∈ (attached w image_base64).1 ->
                  exists mime_type,
                    e = handshake mime_type
                    \/ exists u image_bytes, e = finalize u image_bytes) /\
               (image_base64 = None \/ image_base64 = Some [] ->
                (attached w image_base64).1 = [])).
{ split; [|split].
  - destruct (attached_shape w image_base64) as [->|(mime & bytes & ->)];
      [cbn; lia|].
    unfold upload_events. repeat case_match; cbn; lia.
  - intros e. destruct (attached_shape w image_base64) as [->|(mime & bytes & ->)].
    + by intros ?%elem_of_nil.
    + intros [->|[u ->]]%upload_events_shape; exists mime; [by left|right; by eauto].
  - by intros [->| ->]. }
destruct Hevs as (Hlen & Hshape & Hnone).
destruct (session_of w) as [token|].
2: { destruct Hcases as [Htr _]. exists [], []. rewrite Htr.
     repeat split; try done; try (cbn; lia).
     - by intros e ?%elem_of_nil.
     - by left. }
cbv zeta in Hcases.
destruct (payload_of w prompt token (attached w image_base64).2) as [payload|e].
- destruct Hcases as (url & headers & Htr & _).
  exists (attached w image_base64).1, [HttpPostForm url payload headers].
  rewrite Htr. repeat split; try done.
  + right. by eexists _, _, _.
  + cbn [length]. rewrite length_app. cbn [length]. lia.
- destruct Hcases as [Htr _].
  exists (attached w image_base64).1, []. rewrite Htr, app_nil_r.
  repeat split; try done; [by left|cbn [length]; lia].
Qed.
End ChatFacts.

Lemma reply_text_is_returned_witness :
  exists result,
    (@chat_with_gemini reference (lit "Describe a cat") None no_upload_address initial).1
    = Ok result /\
    result !! "response"%string = Some (VStr (lit "A cat.")).
Proof.
  set (run := @chat_with_gemini reference (lit "Describe a cat") None
                no_upload_address initial).
  assert (exists before url data headers,
            trace run.2 = before ++ [HttpPostForm url data headers] /\
            http no_upload_address before (HttpPostForm url data headers)
            = Ok (plain_response 200 (frame_line "A cat.")))
    as (before & url & data & headers & Htr & Hresp).
  { let tr := eval vm_compute in (trace run.2) in
    assert (E : trace run.2 = tr) by (vm_compute; reflexivity).
    eexists [_], _, _, _. split; [exact E|reflexivity]. }
  destruct (proj1 (@reply_text_is_returned reference (lit "Describe a cat") None
                     no_upload_address run.1 run.2 _ _ _ _ _
                     (surjective_pairing run) Htr Hresp eq_refl)
              (lit "A cat.") ltac:(vm_compute; reflexivity))
    as (_ & result & response_time & now & Hr & _ & Hreply & _).
  exists result. split; [exact Hr|exact Hreply].
Defined.

Lemma request_exception_is_reported_witness :
  exists result,
    (@chat_with_gemini reference (lit "Describe a cat") None hang_up initial).1
    = Ok result /\
    result !! "error"%string = Some (VStr (lit "Read timed out.")).
Proof.
  set (run := @chat_with_gemini reference (lit "Describe a cat") None hang_up initial).
  assert (exists before url data headers,
            trace run.2 = before ++ [HttpPostForm url data headers] /\
            http hang_up before (HttpPostForm url data headers)
            = Raise (RequestException (lit "Read timed out.")))
    as (before & url & data & headers & Htr & Hresp).
  { let tr := eval vm_compute in (trace run.2) in
    assert (E : trace run.2 = tr) by (vm_compute; reflexivity).
    eexists [_], _, _, _. split; [exact E|reflexivity]. }
  destruct (proj1 (@request_exception_is_reported reference (lit "Describe a cat") None
                     hang_up run.1 run.2 _ _ _ _ _
                     (surjective_pairing run) Htr Hresp)
              (lit "Read timed out.") eq_refl)
    as (result & Hr & _ & He & _).
  exists result. split; [exact Hr|exact He].
Defined.

Lemma no_session_no_transmission_witness :
  exists st,
    @chat_with_gemini reference (lit "Describe a cat")
      (Some (lit "data:image/png;base64,aGk=")) unreachable initial
    = (Ok (failure (lit "Failed to establish session with Gemini")), st) /\
    trace st = [landing_fetch].
Proof.
  apply (@no_session_no_transmission reference). reflexivity.
Defined.

Lemma exchanges_of_a_run_witness :
  (length (trace (@chat_with_gemini reference (lit "Describe it")
                    (Some (lit "data:image/png;base64,aGk="))
                    upload_accepted initial).2) <= 4)%nat.
Proof.
  set (run := @chat_with_gemini reference (lit "Describe it")
                (Some (lit "data:image/png;base64,aGk=")) upload_accepted initial).
  destruct (@exchanges_of_a_run reference (lit "Describe it")
              (Some (lit "data:image/png;base64,aGk=")) upload_accepted
              run.1 run.2 (surjective_pairing run))
    as (evs & tail & _ & _ & _ & _ & _ & Hlen).
  exact Hlen.
Defined.

(** ** More about the image *)

Section ImageFacts.
Context `{Runtime}.

Lemma attach_image_fails image_base64 token w st :
(exists e, image_parts image_base64 = Raise e)
\/ (exists encoded mime_type e,
      image_parts image_base64 = Ok (encoded, mime_type) /\
      b64decode encoded = Raise e) ->
attach_image image_base64 token w st = (Ok None, st).
Proof.
unfold attach_image, image_parts, try_catch, M_bind, lift, ret, raise.
intros [[e He]|(encoded & mime & e & Hp & Hd)].
- destruct (contains [44] image_base64); [|done].
  destruct (split_once 44 image_base64) as [header enc].
  by destruct (split 58 (default [] (head (split 59 header))) !! 1%nat).
- destruct (contains [44] image_base64).
  + destruct (split_once 44 image_base64) as [header enc].
    destruct (split 58 (default [] (head (split 59 header))) !! 1%nat); [|done].
    injection Hp as -> ->. cbn [fst snd]. by rewrite Hd.
  + injection Hp as -> ->. cbn [fst snd]. by rewrite Hd.
Qed.

(** An image text that cannot be taken apart (a comma, but no colon in the
  header before it) or whose data is not base64 is dropped without any
  exchange: the run is the run of the prompt alone. *)
Theorem undecodable_image_is_ignored prompt image_base64 w st :
(exists e, image_parts image_base64 = Raise e)
\/ (exists encoded mime_type e,
      image_parts image_base64 = Ok (encoded, mime_type) /\
      b64decode encoded = Raise e) ->
chat_with_gemini prompt (Some image_base64) w st
= chat_with_gemini prompt None w st.
Proof.
intros Hbad. unfold chat_with_gemini, M_bind, time_time.
destruct (scrape_fresh_session w _) as [[[sc|]|e] st1]; [|done..].
destruct image_base64 as [|c s]; [done|].
rewrite (attach_image_fails _ _ _ _ Hbad). done.
Qed.

(** The upload returns the text of the answer to the transfer of the bytes
  when the handshake is answered with the upload address, under a header
  name read without regard to case, and the transfer with status 200: it
  has then made these two exchanges and no other.  An exception of either
  exchange leaves the upload.  The token it is given plays no part. *)
Theorem upload_returns_the_answer_text image_bytes mime_type token w st :
(forall r1 u r2,
   http w (trace st) (handshake mime_type) = Ok r1 ->
   header_lookup (lit "x-goog-upload-url") (response_headers r1) = Some u ->
   http w (trace st ++ [handshake mime_type]) (finalize u image_bytes) = Ok r2 ->
   status_code r2 = 200%Z ->
   exists st',
     upload_image image_bytes mime_type token w st = (Ok (Some (text r2)), st') /\
     trace st' = trace st ++ [handshake mime_type; finalize u image_bytes] /\
     draws st' = draws st) /\
(forall e,
   http w (trace st) (handshake mime_type) = Raise e ->
   (upload_image image_bytes mime_type token w st).1 = Raise e) /\
(forall r1 u e,
   http w (trace st) (handshake mime_type) = Ok r1 ->
   header_lookup (lit "x-goog-upload-url") (response_headers r1) = Some u ->
   http w (trace st ++ [handshake mime_type]) (finalize u image_bytes) = Raise e ->
   (upload_image image_bytes mime_type token w st).1 = Raise e) /\
(forall k v rest,
   ascii_lower <$> k = lit "x-goog-upload-url" ->
   header_lookup (lit "x-goog-upload-url") ((k, v) :: rest) = Some v) /\
(forall token',
   upload_image image_bytes mime_type token' w st
   = upload_image image_bytes mime_type token w st).
Proof.
destruct (upload_image_run image_bytes mime_type token w st) as (st' & Htr & Hdr & Hrun).
unfold upload_events in Htr. unfold upload_result in Hrun.
split; [|split; [|split; [|split]]].
- intros r1 u r2 H1 Hu H2 H200. rewrite H1, Hu in Htr. rewrite H1, Hu, H2, H200 in Hrun.
  by exists st'.
- intros e H1. by rewrite Hrun, H1.
- intros r1 u e H1 Hu H2. by rewrite Hrun, H1, Hu, H2.
- intros k v rest Hk. cbn [header_lookup]. rewrite Hk.
  unfold Py.eqb. by rewrite bool_decide_eq_true_2.
- done.
Qed.
End ImageFacts.

Lemma undecodable_image_is_ignored_witness :
  @chat_with_gemini reference (lit "Describe it") (Some (lit "data;base64,aGk="))
    no_upload_address initial
  = @chat_with_gemini reference (lit "Describe it") None no_upload_address initial.
Proof.
  apply (@undecodable_image_is_ignored reference). left. by eexists.
Defined.

Lemma upload_returns_the_answer_text_witness :
  (upload_image [104; 105] (lit "image/png") (lit "abcdEFGH12345678901234")
     upload_accepted initial).1
  = Ok (Some (lit "/contrib_service/ttl_1d/1")).
Proof.
  destruct (proj1 (upload_returns_the_answer_text [104; 105] (lit "image/png")
                     (lit "abcdEFGH12345678901234") upload_accepted initial)
              _ _ _ eq_refl eq_refl eq_refl eq_refl)
    as (st' & Hrun & _).
  by rewrite Hrun.
Defined.

Section ImageReference.
Context `{Runtime}.

Lemma session_of_capture w resp token :
http w [] landing_fetch = Ok resp ->
extract_snlm0e_token (text resp) = Some token ->
(forall g, search false reqid_pattern (text resp) = Some g ->
           (length g <= 4300)%nat) ->
session_of w = Some token.
Proof.
intros Hresp Htok Hread. unfold session_of, session_token.
rewrite Hresp, (proj2 (readable_reqid_spec _) Hread),
  (settled_token_capture _ _ Htok).
apply token_is_long in Htok. destruct token; [cbn in Htok; lia|done].
Qed.

(** In a run whose landing page holds a token for the patterns, and a
  request id of 4300 digits at most if it holds one:
  when the upload returns a reference, the reference is written between
  double quotes into a text that is read as JSON.  If the text is read,
  the chat transmission follows the upload and carries the payload whose
  prompt array ends with the value read; if it is not, the exception
  leaves the run after the upload, and no chat transmission is made. *)
Theorem image_reference_is_read_as_json prompt image_base64 w r st
  resp token encoded mime_type image_bytes image_id :
http w [] landing_fetch = Ok resp ->
extract_snlm0e_token (text resp) = Some token ->
(forall g, search false reqid_pattern (text resp) = Some g ->
           (length g <= 4300)%nat) ->
image_base64 <> [] ->
image_parts image_base64 = Ok (encoded, mime_type) ->
b64decode encoded = Ok image_bytes ->
upload_result w [landing_fetch] mime_type image_bytes = Ok (Some image_id) ->
image_id <> [] ->
chat_with_gemini prompt (Some image_base64) w initial = (r, st) ->
(forall image,
   json_loads (q "[[[`" ++ image_id ++ q "`, 1], null]]") = Ok image ->
   exists url headers,
     trace st
     = landing_fetch :: upload_events w [landing_fetch] mime_type image_bytes
       ++ [HttpPostForm url
             (form_of (payload_data_with_image (escape_prompt prompt) token
                         (uuid4_hex w 0) (uuid_str_upper (uuid4_hex w 1)) image))
             headers] /\
     prompt_array (payload_data_with_image (escape_prompt prompt) token
                     (uuid4_hex w 0) (uuid_str_upper (uuid4_hex w 1)) image)
     = [VStr (escape_prompt prompt); VInt 0; VNone; VNone; VNone; VNone; VInt 0;
        VNone; image]) /\
(forall e,
   json_loads (q "[[[`" ++ image_id ++ q "`, 1], null]]") = Raise e ->
   r = Raise e /\
   trace st = landing_fetch :: upload_events w [landing_fetch] mime_type image_bytes).
Proof.
intros Hresp Htok Hread Hne Hparts Hdec Hup Hid Hrun.
destruct (chat_outcomes prompt (Some image_base64) w) as (r' & st' & Hrun' & Hcases).
rewrite Hrun in Hrun'. injection Hrun' as <- <-.
rewrite (session_of_capture _ _ _ Hresp Htok Hread) in Hcases. cbv zeta in Hcases.
assert (Hatt : attached w (Some image_base64)
               = (upload_events w [landing_fetch] mime_type image_bytes,
                  Some image_id)).
{ unfold attached, attached_at. destruct image_base64 as [|c s]; [done|].
  rewrite Hparts, Hdec, Hup. cbn [kept_image]. by destruct image_id. }
rewrite Hatt in Hcases. cbn [fst snd] in Hcases.
unfold payload_of, image_struct in Hcases.
destruct image_id as [|c s]; [done|]. split.
- intros image Hj. rewrite Hj in Hcases.
  destruct Hcases as (url & headers & Htr & _). by exists url, headers.
- intros e Hj. rewrite Hj in Hcases. by destruct Hcases.
Qed.
End ImageReference.

Lemma image_reference_is_read_as_json_witness :
  (@chat_with_gemini reference (lit "Describe it")
     (Some (lit "data:image/png;base64,aGk=")) json_reference initial).1
  = Raise JSONDecodeError.
Proof.
  set (run := @chat_with_gemini reference (lit "Describe it")
                (Some (lit "data:image/png;base64,aGk=")) json_reference initial).
  destruct (proj2 (@image_reference_is_read_as_json reference (lit "Describe it")
                     (lit "data:image/png;base64,aGk=") json_reference run.1 run.2
                     (plain_response 200 token_page)
                     (lit "abcdEFGH12345678901234") (lit "aGk=") (lit "image/png")
                     [104; 105] (q "{`media_id`:`1`}")
                     eq_refl ltac:(vm_compute; reflexivity)
                     ltac:(intros g; vm_compute; discriminate) ltac:(done)
                     ltac:(vm_compute; reflexivity) ltac:(vm_compute; reflexivity)
                     ltac:(vm_compute; reflexivity) ltac:(done)
                     (surjective_pairing run))
              JSONDecodeError ltac:(vm_compute; reflexivity))
    as [Hr _].
  exact Hr.
Defined.

(** ** The HTTP handlers *)

Section Handlers.
Context `{Runtime}.

Lemma bind_inv {A B} (m : M A) (k : A -> M B) w st (r : B) st' :
M_bind m k w st = (Ok r, st') ->
exists a st1, m w st = (Ok a, st1) /\ k a w st1 = (Ok r, st').
Proof.
unfold M_bind. destruct (m w st) as [[a|e] st1]; [|done]. by exists a, st1.
Qed.

(** A dictionary returned by a run is a failure or a success. *)
Lemma chat_result_shape prompt image_base64 w st result st' :
chat_with_gemini prompt image_base64 w st = (Ok result, st') ->
(exists message, result = failure message)
\/ (exists reply response_time now,
      reply <> [] /\ result = success_result reply response_time now).
Proof.
unfold chat_with_gemini.
intros (start_time & st0 & _ & Hrun)%bind_inv.
apply bind_inv in Hrun as (sc & st1 & _ & Hrun).
destruct sc as [sc|].
2: { injection Hrun as <- _. left. by eexists. }
apply bind_inv in Hrun as (image_id & st2 & _ & Hrun).
apply bind_inv in Hrun as (payload & st3 & _ & Hrun).
cbv beta zeta in Hrun.
match type of Hrun with
| context [request (HttpPostForm ?u ?p ?h)] =>
    destruct (transmission_outcomes (HttpPostForm u p h) start_time w st3)
      as (r & st4 & Ht & _ & Hv)
end.
assert (E : (r, st4) = (Ok result, st')) by (rewrite <- Ht; exact Hrun).
injection E as -> _. clear Ht Hrun. unfold verdict in Hv.
destruct (http w (trace st3) _) as [resp|e].
- destruct (status_code resp =? 200)%Z.
  + destruct (parse_streaming_response (text resp)) as [[[|c s]|]|e];
      try (injection Hv as ->; left; by eexists); [|done].
    destruct Hv as (rt & now & [= ->]). right. by exists (c :: s), rt, now.
  + injection Hv as ->. left. by eexists.
- destruct e; try done. injection Hv as ->. left. by eexists.
Qed.
Lemma strip_nil_of_blank s : strip s <> [] -> s <> [].
Proof. by intros Hs ->. Qed.

(** What the handler makes of a prompt that is a string with more than
  white space. *)
Lemma ask_of_prompt request s image w st :
read_prompt_and_image request = Ok (VStr s, image) ->
strip s <> [] ->
ask_gemini request w st
= answered s (chat_with_gemini s (image_argument image) w st).
Proof.
intros Hread Hs. unfold ask_gemini, lift. unfold M_bind at 1. rewrite Hread.
cbn [fst snd truthy]. rewrite bool_decide_eq_false_2 by by apply strip_nil_of_blank.
cbn [negb]. destruct (strip s) as [|c t] eqn:Hst; [done|]. cbn [length Nat.eqb].
unfold M_bind at 1, answered.
destruct (chat_with_gemini s (image_argument image) w st) as [[result|e] st1] eqn:Hrun;
  [|done].
unfold M_bind, dict_item, ret, dict_get.
rewrite lookup_insert_ne, lookup_insert_ne by done.
destruct (chat_result_shape _ _ _ _ _ _ Hrun)
  as [[message ->]|(reply & rt & now & _ & ->)]; done.
Qed.

(** Every answer of the handler allows any origin and names the developer.
  Its status is 400, 500 or 200.  With 400 the handler has made no
  exchange and the answer carries an error and no prompt; otherwise the
  answer carries the prompt, which has more than white space: with 500
  an error and no response, with 200 a response that is not empty and no
  error; and success is true with status 200 only. *)
Theorem answers_of_ask request w st response st' :
ask_gemini request w st = (Ok response, st') ->
added_headers response = [(lit "Access-Control-Allow-Origin", lit "*")] /\
body response !! "api_dev"%string = Some (VStr (lit "@ISmartCoder")) /\
((status response = 400%Z /\ st' = st /\
  body response !! "success"%string = Some (VBool false) /\
  body response !! "prompt"%string = None /\
  (body response !! "error"%string
   = Some (VStr (lit "Missing required parameter: prompt"))
   \/ body response !! "error"%string = Some (VStr (lit "Prompt cannot be empty"))))
 \/ (exists prompt,
       body response !! "prompt"%string = Some (VStr prompt) /\
       strip prompt <> [] /\
       ((status response = 500%Z /\
         body response !! "success"%string = Some (VBool false) /\
         (exists error, body response !! "error"%string = Some (VStr error)) /\
         body response !! "response"%string = None)
        \/ (status response = 200%Z /\
             body response !! "success"%string = Some (VBool true) /\
             (exists reply,
                body response !! "response"%string = Some (VStr reply) /\
                reply <> []) /\
             body response !! "error"%string = None)))).
Proof.
intros Hask.
destruct (read_prompt_and_image request) as [[prompt image]|e] eqn:Hread.
2: { unfold ask_gemini, lift in Hask. unfold M_bind at 1 in Hask.
     by rewrite Hread in Hask. }
destruct (truthy prompt) eqn:Htruthy.
2: { unfold ask_gemini, lift in Hask. unfold M_bind at 1 in Hask.
     rewrite Hread in Hask. cbn [fst snd] in Hask. rewrite Htruthy in Hask.
     injection Hask as <- <-. split; [done|]. split; [done|]. left.
     repeat split; try done. by left. }
destruct prompt as [| | | |s| |].
1-4, 6-7: unfold ask_gemini, lift in Hask; unfold M_bind at 1 in Hask;
  rewrite Hread in Hask; cbn [fst snd] in Hask; by rewrite Htruthy in Hask.
destruct (strip s) as [|c t] eqn:Hst.
{ unfold ask_gemini, lift in Hask. unfold M_bind at 1 in Hask.
  rewrite Hread in Hask. cbn [fst snd] in Hask. rewrite Htruthy, Hst in Hask.
  injection Hask as <- <-. split; [done|]. split; [done|]. left.
  repeat split; try done. by right. }
rewrite (ask_of_prompt request s image w st Hread) in Hask by by rewrite Hst.
unfold answered in Hask.
destruct (chat_with_gemini s (image_argument image) w st) as [[result|e] st1] eqn:Hrun;
  [|done].
injection Hask as <- <-. cbn [added_headers body status].
split; [done|].
destruct (chat_result_shape _ _ _ _ _ _ Hrun)
  as [[message ->]|(reply & rt & now & Hne & ->)].
- split; [done|]. right. exists s. split; [done|]. split; [by rewrite Hst|].
  left. repeat split; try done. by exists message.
- split; [done|]. right. exists s. split; [done|]. split; [by rewrite Hst|].
  right. repeat split; try done. by exists reply.
Qed.

(** A request without a prompt, or with an empty one, is answered with
  status 400 and the error that names the missing parameter; a prompt of
  white space only is answered with status 400 and the error that says
  it is empty.  The handler then makes no exchange.  A request that is
  not a POST has its prompt in the query string; a POST has it in the
  body, and a body that is false has none. *)
Theorem prompt_is_required request w st :
(method request <> lit "POST" ->
 (args_get (args request) (lit "prompt") = None ->
  ask_gemini request w st = (Ok missing_prompt_response, st)) /\
 (args_get (args request) (lit "prompt") = Some [] ->
  ask_gemini request w st = (Ok missing_prompt_response, st)) /\
 (forall s,
    args_get (args request) (lit "prompt") = Some s ->
    s <> [] -> strip s = [] ->
    ask_gemini request w st = (Ok blank_prompt_response, st))) /\
(method request = lit "POST" ->
 forall data,
   get_json request = Ok data ->
   (truthy data = false ->
    ask_gemini request w st = (Ok missing_prompt_response, st)) /\
   (forall entries,
      data = VDict entries -> entries <> [] ->
      (truthy (entries_get entries (lit "prompt")) = false ->
       ask_gemini request w st = (Ok missing_prompt_response, st)) /\
      (forall s,
         entries_get entries (lit "prompt") = VStr s ->
         s <> [] -> strip s = [] ->
         ask_gemini request w st = (Ok blank_prompt_response, st)))).
Proof.
assert (Hmissing : forall prompt image,
          read_prompt_and_image request = Ok (prompt, image) ->
          truthy prompt = false ->
          ask_gemini request w st = (Ok missing_prompt_response, st)).
{ intros prompt image Hread Hp. unfold ask_gemini, lift. unfold M_bind at 1.
  rewrite Hread. cbn [fst snd]. by rewrite Hp. }
assert (Hblank : forall s image,
          read_prompt_and_image request = Ok (VStr s, image) ->
          s <> [] -> strip s = [] ->
          ask_gemini request w st = (Ok blank_prompt_response, st)).
{ intros s image Hread Hne Hs. unfold ask_gemini, lift. unfold M_bind at 1.
  rewrite Hread. cbn [fst snd truthy]. rewrite bool_decide_eq_false_2 by done.
  cbn [negb]. by rewrite Hs. }
split.
- intros Hget.
  assert (Hread : read_prompt_and_image request
                  = Ok (match args_get (args request) (lit "prompt") with
                        | Some s => VStr s
                        | None => VNone
                        end, VNone)).
  { unfold read_prompt_and_image, Py.eqb. by rewrite bool_decide_eq_false_2. }
  split; [|split].
  + intros Hn. rewrite Hn in Hread. by eapply Hmissing.
  + intros Hn. rewrite Hn in Hread. by eapply Hmissing.
  + intros s Hn Hne Hs. rewrite Hn in Hread. by eapply Hblank.
- intros Hpost data Hdata.
  assert (Hread : read_prompt_and_image request
                  = (if truthy data
                     then exc_bind (data_get data (lit "prompt")) (fun prompt =>
                          exc_bind (data_get data (lit "image")) (fun image =>
                          Ok (prompt, image)))
                     else Ok (VNone, VNone))).
  { unfold read_prompt_and_image, Py.eqb. rewrite bool_decide_eq_true_2 by done.
    rewrite Hdata. cbn [exc_bind]. by destruct (truthy data). }
  split.
  + intros Hf. rewrite Hf in Hread. by eapply Hmissing.
  + intros entries -> Hne.
    assert (Ht : truthy (VDict entries) = true).
    { cbn [truthy]. by rewrite bool_decide_eq_false_2. }
    rewrite Ht in Hread. cbn [data_get exc_bind] in Hread. split.
    * intros Hf. by eapply Hmissing.
    * intros s Hs Hsne Hstrip. rewrite Hs in Hread. by eapply Hblank.
Qed.

(** A prompt with more than white space is run: alone when the request is
  not a POST, with the image of the body when it is.  The answer is the
  dictionary of the run with the prompt and the developer added, under
  status 200 when the run succeeded and 500 otherwise; an exception of
  the run leaves the handler. *)
Theorem ask_runs_the_chat request s w st :
strip s <> [] ->
(method request <> lit "POST" ->
 args_get (args request) (lit "prompt") = Some s ->
 ask_gemini request w st = answered s (chat_with_gemini s None w st)) /\
(method request = lit "POST" ->
 forall entries,
   get_json request = Ok (VDict entries) ->
   entries_get entries (lit "prompt") = VStr s ->
   ask_gemini request w st
   = answered s
       (chat_with_gemini s
          (image_argument (entries_get entries (lit "image"))) w st)).
Proof.
intros Hs. split.
- intros Hget Hp. apply (ask_of_prompt request s VNone); [|done].
  unfold read_prompt_and_image, Py.eqb. rewrite bool_decide_eq_false_2 by done.
  by rewrite Hp.
- intros Hpost entries Hdata Hp. apply ask_of_prompt; [|done].
  unfold read_prompt_and_image, Py.eqb. rewrite bool_decide_eq_true_2 by done.
  rewrite Hdata. cbn [exc_bind].
  assert (Ht : truthy (VDict entries) = true).
  { cbn [truthy]. rewrite bool_decide_eq_false_2; [done|]. by intros ->. }
  rewrite Ht. cbn [data_get exc_bind]. by rewrite Hp.
Qed.
End Handlers.

Lemma answers_of_ask_witness :
  exists response,
    (@ask_gemini reference (get_request [(lit "prompt", lit "Hi")]) outage initial).1
    = Ok response /\
    added_headers response = [(lit "Access-Control-Allow-Origin", lit "*")] /\
    body response !! "api_dev"%string = Some (VStr (lit "@ISmartCoder")).
Proof.
  set (run := @ask_gemini reference (get_request [(lit "prompt", lit "Hi")])
                outage initial).
  assert (exists response, run.1 = Ok response) as [response Hr].
  { vm_compute. eexists. reflexivity. }
  assert (Hrun : run = (Ok response, run.2)).
  { rewrite <- Hr. apply surjective_pairing. }
  destruct (@answers_of_ask reference _ _ _ _ _ Hrun) as (Hh & Hd & _).
  exists response. split; [exact Hr|]. split; [exact Hh|exact Hd].
Defined.

Lemma ask_runs_the_chat_witness :
  @ask_gemini reference
    (post_request (VDict [(lit "prompt", VStr (lit "Hi")); (lit "image", VInt 7)]))
    no_upload_address initial
  = answered (lit "Hi")
      (@chat_with_gemini reference (lit "Hi") None no_upload_address initial).
Proof.
  apply (proj2 (@ask_runs_the_chat reference
                  (post_request
                     (VDict [(lit "prompt", VStr (lit "Hi")); (lit "image", VInt 7)]))
                  (lit "Hi") no_upload_address initial ltac:(by vm_compute))
           eq_refl _ eq_refl eq_refl).
Defined.

Section Results.
Context `{Runtime}.

(** A dictionary returned by a run has one of two shapes.  A failure has
  the two keys success and error, with success false and a string as
  error.  A success has the three keys success, response and metadata,
  with success true, a response that is not empty, and metadata that
  give the length of the response, its number of words and the model. *)
Theorem result_is_failure_or_success prompt image_base64 w st result st' :
chat_with_gemini prompt image_base64 w st = (Ok result, st') ->
(result !! "success"%string = Some (VBool false) /\
 (exists message, result !! "error"%string = Some (VStr message)) /\
 dom result = ({[ "success"; "error" ]} : gset string)%string)
\/ (result !! "success"%string = Some (VBool true) /\
    (exists reply response_time timestamp,
       reply <> [] /\
       result !! "response"%string = Some (VStr reply) /\
       result !! "metadata"%string
       = Some (VDict
                 [ (lit "response_time", VStr response_time);
                   (lit "timestamp", VStr timestamp);
                   (lit "model", VStr (lit "gemini"));
                   (lit "character_count", VInt (Z.of_nat (length reply)));
                   (lit "word_count", VInt (Z.of_nat (count_words false reply))) ])) /\
    dom result = ({[ "success"; "response"; "metadata" ]} : gset string)%string).
Proof.
intros [[message ->]|(reply & rt & now & Hne & ->)]%chat_result_shape.
- left. split; [done|]. split; [by exists message|].
  unfold failure. by rewrite dom_insert_L, dom_singleton_L.
- right. split; [done|]. split; [by eexists reply, _, _|].
  unfold success_result. by rewrite !dom_insert_L, dom_singleton_L.
Qed.

(** The token captured in the landing page is the token of the chat
  transmission.  When the page holds a token for the patterns, and a
  request id of 4300 digits at most if it holds one, a run without an
  image makes two exchanges, the fetch of the page and the form post.
  The payload posted is an array of 62 positions: the first is the
  prompt array, made of the escaped prompt, 0, four times null and 0;
  the fourth is the token, the fifth the first identifier drawn and
  the sixtieth the second one, in upper case with hyphens. *)
Theorem captured_token_is_sent prompt w resp token :
http w [] landing_fetch = Ok resp ->
extract_snlm0e_token (text resp) = Some token ->
(forall g, search false reqid_pattern (text resp) = Some g ->
           (length g <= 4300)%nat) ->
exists r st url headers data,
  chat_with_gemini prompt None w initial = (r, st) /\
  trace st = [landing_fetch; HttpPostForm url (form_of data) headers] /\
  length (payload_items data) = 62%nat /\
  payload_items data !! 0%nat
  = Some (VList [VStr (escape_prompt prompt); VInt 0; VNone; VNone; VNone;
                 VNone; VInt 0]) /\
  payload_items data !! 3%nat = Some (VStr token) /\
  payload_items data !! 4%nat = Some (VStr (uuid4_hex w 0)) /\
  payload_items data !! 59%nat
  = Some (VStr (uuid_str_upper (uuid4_hex w 1))) /\
  data = payload_data (escape_prompt prompt) token (uuid4_hex w 0)
           (uuid_str_upper (uuid4_hex w 1)).
Proof.
intros Hresp Htok Hread.
destruct (chat_outcomes prompt None w) as (r & st & Hrun & Hcases).
rewrite (session_of_capture _ _ _ Hresp Htok Hread) in Hcases. cbn in Hcases.
destruct Hcases as (url & headers & Htr & _).
exists r, st, url, headers. eexists. split; [exact Hrun|]. split; [exact Htr|].
by repeat split.
Qed.
End Results.

Lemma result_is_failure_or_success_witness :
  exists result,
    (@chat_with_gemini reference (lit "Describe a cat") None outage initial).1
    = Ok result /\
    (dom result = ({[ "success"; "error" ]} : gset string)%string
     \/ dom result = ({[ "success"; "response"; "metadata" ]} : gset string)%string).
Proof.
  set (run := @chat_with_gemini reference (lit "Describe a cat") None outage initial).
  assert (exists result, run.1 = Ok result) as [result Hr].
  { vm_compute. eexists. reflexivity. }
  assert (Hrun : run = (Ok result, run.2)).
  { rewrite <- Hr. apply surjective_pairing. }
  destruct (@result_is_failure_or_success reference (lit "Describe a cat") None
              outage initial result run.2 Hrun)
    as [(_ & _ & Hd)|(_ & _ & Hd)];
    (exists result; split; [exact Hr|]); [left|right]; exact Hd.
Defined.

Lemma captured_token_is_sent_witness :
  exists r st url headers data,
    @chat_with_gemini reference (lit "Describe a cat") None no_upload_address initial
    = (r, st) /\
    trace st = [landing_fetch; HttpPostForm url (form_of data) headers] /\
    payload_items data !! 3%nat = Some (VStr (lit "abcdEFGH12345678901234")).
Proof.
  destruct (@captured_token_is_sent reference (lit "Describe a cat") no_upload_address
              (plain_response 200 token_page) (lit "abcdEFGH12345678901234") eq_refl
              ltac:(vm_compute; reflexivity)
              ltac:(intros g; vm_compute; discriminate))
    as (r & st & url & headers & data & Hrun & Htr & _ & _ & Htok & _).
  exists r, st, url, headers, data.
  split; [exact Hrun|]. split; [exact Htr|exact Htok].
Defined.
